(** * S57-PostGIS: chart ingestion pipeline

    A shallow embedding of the zoom mapper ([zfinder.hpp]), the chart reader
    ([s57.cpp]), the property codec ([json_utils.cpp]), the record store
    ([database.cpp]) and the ingest coordinator ([ingest.cpp]), together
    with the properties the design document states about them.

    Conventions.
    - A C++ [int] is a [Z] in the range [INT_MIN .. INT_MAX].
    - A finite [double] is modelled by the rational number it denotes.
      Every [int] converts to a [double] exactly and halving a binary64
      value of that magnitude is exact, so the arithmetic of [findZoom] is
      exact rational arithmetic.  A [double] that comes from outside, the
      depth of a sounding, may also be negative zero, an infinity or a
      NaN: the type [double] has them.
    - [std::string] is [string]; [std::vector<T>] is [list T];
      [std::map<std::string, std::string>] is an association list kept in
      key order, because [toJsonObject] iterates it in that order.
    - GDAL/OGR and the database engine are the external collaborators; the
      parts of them the code relies on are modelled explicitly and marked
      as such. *)

From Equations Require Import Equations.
From Stdlib Require Import ZArith QArith Qround Qabs Lia List String Ascii Bool Arith.
From Stdlib Require Import DecimalString.
Import ListNotations.

Local Open Scope Z_scope.

(** ** Machine integers *)

Definition INT_MAX : Z := 2147483647.
Definition INT_MIN : Z := -2147483648.

(** Values an [int] can hold. *)
Definition int_range (z : Z) : Prop := INT_MIN <= z <= INT_MAX.

(** [static_cast<int>] of an integer value: wrap-around modulo 2^32. *)
Definition static_cast_int (z : Z) : Z :=
  (z + 2147483648) mod 4294967296 - 2147483648.

(** ** Floating point *)

(** A [double] by what it denotes: a finite value other than negative
    zero as the rational number it is, negative zero, an infinity or a
    NaN, the last two with their sign bit. *)
Inductive double :=
| finite (x : Q)
| negative_zero
| infinity (negative : bool)
| nan (negative : bool).

(** ** zfinder.hpp *)

Module ZFinder.

(** [static constexpr int ONE_TO_ONE_ZOOM = 28;] *)
Definition ONE_TO_ONE_ZOOM : Z := 28.

(** The loop of [findZoom]:
    [while (zScale > 1.0) { zScale /= 2.0; zoom -= 1; }], returning the
    final [zoom]. *)
Equations findZoom_loop (zScale : Q) (zoom : Z) : Z
  by wf (Z.to_nat (Z.log2_up (Qceiling zScale))) lt :=
  findZoom_loop zScale zoom with Qlt_le_dec 1 zScale := {
    | left _ => findZoom_loop (zScale / 2) (zoom - 1)
    | right _ => zoom }.
Next Obligation.
  (* each halving of a value above one lowers the ceiling of its binary
     logarithm *)
  match goal with H : (1 < ?x)%Q |- _ => rename H into Hq1; set (zs := x) in * end.
  assert (Hc : 2 <= Qceiling zs).
  { assert (1 < Qceiling zs); [|lia].
    rewrite Zlt_Qlt. eapply Qlt_le_trans; [exact Hq1 | apply Qle_ceiling]. }
  set (k := Z.log2_up (Qceiling zs)).
  assert (Hk : 1 <= k).
  { unfold k. change 1 with (Z.log2_up 2). apply Z.log2_up_le_mono. lia. }
  assert (Hq : (zs <= inject_Z (2 ^ k))%Q).
  { eapply Qle_trans; [apply Qle_ceiling|]. rewrite <- Zle_Qle.
    unfold k. apply Z.log2_up_spec. lia. }
  assert (Hh : (zs / 2 <= inject_Z (2 ^ (k - 1)))%Q).
  { apply Qle_shift_div_r; [reflexivity|].
    eapply Qle_trans; [exact Hq|].
    change 2%Q with (inject_Z 2). rewrite <- inject_Z_mult, <- Zle_Qle.
    replace k with (Z.succ (k - 1)) at 1 by lia. rewrite Z.pow_succ_r by lia. lia. }
  assert (Hpos : 0 < Qceiling (zs / 2)).
  { rewrite Zlt_Qlt. eapply Qlt_le_trans; [|apply Qle_ceiling].
    apply Qlt_shift_div_l; [reflexivity|]. eapply Qlt_trans; [|exact Hq1]. reflexivity. }
  assert (Hle : Qceiling (zs / 2) <= 2 ^ (k - 1)).
  { rewrite <- (Qceiling_Z (2 ^ (k - 1))). apply Qceiling_resp_le. exact Hh. }
  apply Z.log2_up_le_pow2 in Hle; [|exact Hpos].
  assert (0 <= Z.log2_up (Qceiling (zs / 2))) by apply Z.log2_up_nonneg.
  lia.
Qed.

(** [static int findZoom(int scale)] *)
Definition findZoom (scale : Z) : Z :=
  let zoom := ONE_TO_ONE_ZOOM in
  let zScale := inject_Z scale in
  findZoom_loop zScale zoom.

(** [static std::pair<int, int> calculateZRange(int scamin, int scamax)] *)
Definition calculateZRange (scamin scamax : Z) : Z * Z :=
  let minZ := 0 in
  let maxZ := ONE_TO_ONE_ZOOM in
  let minZ := if scamin >? 0 then findZoom scamin else minZ in
  let maxZ := if scamax >? 0 then findZoom scamax else maxZ in
  (* std::swap(minZ, maxZ) *)
  if minZ >? maxZ then (maxZ, minZ) else (minZ, maxZ).

End ZFinder.

(** ** types.hpp *)

Local Open Scope string_scope.

(** [struct ChartInfo] *)
Record ChartInfo := mkChartInfo {
  name : string;
  scale : Z;
  fileName : string;
  updated : string;
  issued : string;
  zoom : Z;
  covrGeoJson : string;
  dsidProps : string;
  chartTxt : string
}.

(** [struct Feature] *)
Record Feature := mkFeature {
  layer : string;
  geomGeoJson : string;
  propsJson : string;
  minZ : Z;
  maxZ : Z;
  lnamRefs : list string
}.

(** [struct ProcessingResult]; its member [fileName] is [resultFileName]
    here, [ChartInfo] having a member of that name. *)
Record ProcessingResult := mkProcessingResult {
  success : bool;
  resultFileName : string;
  chartName : string;
  featureCount : Z;
  errorMessage : string
}.

(** [inline const std::vector<std::string> EXCLUDED_LAYERS] *)
Definition EXCLUDED_LAYERS : list string :=
  ["DSID"; "IsolatedNode"; "ConnectedNode"; "Edge"; "Face"].

(** ** The C++ standard library, as far as the code uses it *)

Module Std.

(** [isspace] in the C locale. *)
Definition isspace (c : ascii) : bool :=
  let n := nat_of_ascii c in
  ((n =? 32) || ((9 <=? n) && (n <=? 13)))%nat.

Definition digit_value (c : ascii) : option Z :=
  let n := Z.of_nat (nat_of_ascii c) in
  if ((48 <=? n) && (n <=? 57))%Z then Some (n - 48) else None.

Fixpoint skip_space (s : string) : string :=
  match s with
  | String c s' => if isspace c then skip_space s' else s
  | EmptyString => s
  end.

(** The value of the longest prefix of decimal digits. *)
Fixpoint read_digits (acc : Z) (s : string) : Z :=
  match s with
  | String c s' =>
      match digit_value c with
      | Some d => read_digits (10 * acc + d) s'
      | None => acc
      end
  | EmptyString => acc
  end.

(** [std::stoi(str)]: leading white space, an optional sign, then decimal
    digits up to the first other character.  [None] stands for the two
    exceptions it throws: [std::invalid_argument] when no digit is found
    and [std::out_of_range] when the value does not fit an [int]. *)
Definition stoi (str : string) : option Z :=
  let s := skip_space str in
  let '(neg, s) :=
    match s with
    | String "-" s' => (true, s')
    | String "+" s' => (false, s')
    | _ => (false, s)
    end in
  match s with
  | String c _ =>
      match digit_value c with
      | Some _ =>
          let v := read_digits 0 s in
          let v := if neg then - v else v in
          if ((INT_MIN <=? v) && (v <=? INT_MAX))%Z then Some v else None
      | None => None
      end
  | EmptyString => None
  end.

(** Decimal digits of a natural number. *)
Definition decimal (z : Z) : string :=
  NilZero.string_of_uint (N.to_uint (Z.to_N z)).

(** Round to the nearest integer, ties to even: the rounding of [printf]
    under the default rounding mode. *)
Definition round_half_even (q : Q) : Z :=
  let f := Qfloor q in
  match Qcompare (q - inject_Z f) (1 # 2) with
  | Lt => f
  | Gt => f + 1
  | Eq => if Z.even f then f else f + 1
  end.

(** What [printf] writes for [%.1f] of a finite value other than negative
    zero: the sign of the value, also when it rounds to zero, and its
    magnitude rounded to tenths. *)
Definition fixed1 (x : Q) : string :=
  let t := round_half_even (Qabs x * 10) in
  (if Qlt_le_dec x 0 then "-" else "") ++ decimal (t / 10) ++ "." ++ decimal (t mod 10).

(** [ss << std::fixed << std::setprecision(1) << x]: negative zero keeps
    its sign; an infinity and a NaN are written by name, with the sign
    bit. *)
Definition format_fixed1 (x : double) : string :=
  match x with
  | finite q => fixed1 q
  | negative_zero => "-0.0"
  | infinity negative => if negative then "-inf" else "inf"
  | nan negative => if negative then "-nan" else "nan"
  end.

Fixpoint contains (c : ascii) (s : string) : bool :=
  match s with
  | String d s' => Ascii.eqb c d || contains c s'
  | EmptyString => false
  end.

(** [std::filesystem::path(p).filename().string()] with [/] as the
    separator: what follows the last separator. *)
Fixpoint path_filename (p : string) : string :=
  match p with
  | String c p' =>
      if contains "/" p' then path_filename p'
      else if Ascii.eqb c "/" then p' else p
  | EmptyString => EmptyString
  end.

(** A file name without what follows its last dot (the dot included). *)
Fixpoint strip_extension (f : string) : string :=
  match f with
  | String c f' =>
      if contains "." f' then String c (strip_extension f')
      else if Ascii.eqb c "." then EmptyString else f
  | EmptyString => EmptyString
  end.

(** [std::filesystem::path(p).stem().string()]: the file name without its
    extension; [.], [..] and names whose only dot is the first character
    have no extension. *)
Definition path_stem (p : string) : string :=
  let f := path_filename p in
  if String.eqb f "." || String.eqb f ".." then f
  else
    match f with
    | String "." f' => if contains "." f' then strip_extension f else f
    | _ => strip_extension f
    end.

(** [std::map<std::string, std::string>]: entries in increasing key order. *)
Definition map := list (string * string).

(** [m.find(key)], [None] for [m.end()]. *)
Fixpoint find (key : string) (m : map) : option string :=
  match m with
  | (k, v) :: m' => if String.eqb key k then Some v else find key m'
  | [] => None
  end.

(** [m[key] = value] *)
Fixpoint assign (key value : string) (m : map) : map :=
  match m with
  | (k, v) :: m' =>
      match String.compare key k with
      | Lt => (key, value) :: m
      | Eq => (key, value) :: m'
      | Gt => (k, v) :: assign key value m'
      end
  | [] => [(key, value)]
  end.

(** What follows the last dot of a file name, the dot included; empty
    without a dot. *)
Fixpoint last_extension (f : string) : string :=
  match f with
  | String c f' =>
      if contains "." f' then last_extension f'
      else if Ascii.eqb c "." then f else EmptyString
  | EmptyString => EmptyString
  end.

(** [std::filesystem::path(p).extension().string()]: what [stem] leaves
    out of the file name. *)
Definition path_extension (p : string) : string :=
  let f := path_filename p in
  if String.eqb f "." || String.eqb f ".." then EmptyString
  else
    match f with
    | String "." f' => if contains "." f' then last_extension f else EmptyString
    | _ => last_extension f
    end.

Fixpoint insert_sorted (x : string) (l : list string) : list string :=
  match l with
  | [] => [x]
  | y :: l' => if String.leb x y then x :: l else y :: insert_sorted x l'
  end.

(** [std::sort(v.begin(), v.end())] on strings: the vector in increasing
    order of [operator<], the order of [String.leb].  Equal strings being
    the same value, the result does not depend on the algorithm. *)
Definition sort (v : list string) : list string :=
  fold_right insert_sorted [] v.

End Std.

(** ** json_utils.cpp *)

Module json.

Definition hex_digit (n : nat) : string :=
  String.substring n 1 "0123456789abcdef".

(** [std::hex << std::setw(4) << std::setfill('0')] of a value below 65536. *)
Definition hex_setw4 (n : nat) : string :=
  hex_digit ((n / 4096) mod 16) ++ hex_digit ((n / 256) mod 16)
  ++ hex_digit ((n / 16) mod 16) ++ hex_digit (n mod 16).

(** The [switch] of [escapeString]: the double quote (34) and the
    backslash (92) get a backslash in front, the five named control
    characters their letter, other characters below 0x20 a four-digit
    hexadecimal escape. *)
Definition escapeChar (c : ascii) : string :=
  let n := nat_of_ascii c in
  if (n =? 34)%nat then "\" ++ String c EmptyString
  else if (n =? 92)%nat then "\\"
  else if (n =? 8)%nat then "\b"
  else if (n =? 12)%nat then "\f"
  else if (n =? 10)%nat then "\n"
  else if (n =? 13)%nat then "\r"
  else if (n =? 9)%nat then "\t"
  else if (n <? 32)%nat then "\u" ++ hex_setw4 n
  else String c EmptyString.

(** [std::string escapeString(const std::string& str)] *)
Fixpoint escapeString (str : string) : string :=
  match str with
  | String c s => escapeChar c ++ escapeString s
  | EmptyString => EmptyString
  end.

Definition dquote : string := String "034" EmptyString.

Definition jsonMember (kv : string * string) : string :=
  dquote ++ escapeString (fst kv) ++ dquote ++ ":" ++ dquote
  ++ escapeString (snd kv) ++ dquote.

(** [std::string toJsonObject(const std::map<std::string, std::string>& props)] *)
Definition toJsonObject (props : Std.map) : string :=
  "{" ++ String.concat "," (List.map jsonMember props) ++ "}".


Definition jsonElement (item : string) : string :=
  dquote ++ escapeString item ++ dquote.

(** [std::string toJsonArray(const std::vector<std::string>& items)] *)
Definition toJsonArray (items : list string) : string :=
  "[" ++ String.concat "," (List.map jsonElement items) ++ "]".

End json.

(** ** The vector-data reader (GDAL/OGR), an external collaborator

    A data set is the list of its layers, a layer the list of its records,
    a record its attribute fields and its geometry.  Only what [s57.cpp]
    asks of them is kept. *)

Module OGR.

(** [wkbFlatten(geom->getGeometryType())] *)
Inductive OGRwkbGeometryType :=
| wkbUnknown | wkbPoint | wkbLineString | wkbPolygon
| wkbMultiPoint | wkbMultiLineString | wkbMultiPolygon | wkbGeometryCollection.

Record OGRGeometry := mkGeometry {
  flatGeometryType : OGRwkbGeometryType;
  Is3D : bool;
  (** [getZ()] of a point *)
  getZ : double;
  (** [exportToJson()] once the geometry is in WGS84; [None] is a null
      result *)
  exportToJson : option string
}.

Record OGRField := mkField {
  GetNameRef : string;
  IsFieldSet : bool;
  IsFieldNull : bool;
  GetFieldAsString : string;
  (** [None] is the null list of a field that holds no string list *)
  GetFieldAsStringList : option (list string)
}.

Record OGRFeature := mkOGRFeature {
  fields : list OGRField;
  GetGeometryRef : option OGRGeometry
}.

Record OGRLayer := mkLayer {
  GetName : string;
  (** the records [GetNextFeature] yields after [ResetReading], in order *)
  records : list OGRFeature
}.

Definition GDALDataset := list OGRLayer.

Definition toupper (c : ascii) : ascii :=
  let n := nat_of_ascii c in
  if ((97 <=? n) && (n <=? 122))%nat then ascii_of_nat (n - 32) else c.

(** [EQUAL(a, b)]: equality up to the case of ASCII letters. *)
Fixpoint EQUAL (a b : string) : bool :=
  match a, b with
  | EmptyString, EmptyString => true
  | String x a', String y b' => Ascii.eqb (toupper x) (toupper y) && EQUAL a' b'
  | _, _ => false
  end.

(** [dataset->GetLayerByName(name)]: the first layer of that exact name,
    failing that the first whose name is equal up to case. *)
Definition GetLayerByName (ds : GDALDataset) (layerName : string) : option OGRLayer :=
  match List.find (fun l => String.eqb layerName (GetName l)) ds with
  | Some l => Some l
  | None => List.find (fun l => EQUAL layerName (GetName l)) ds
  end.

(** The field [feature->GetFieldIndex(name)] designates, [None] for -1. *)
Definition GetFieldIndex (f : OGRFeature) (fieldName : string) : option OGRField :=
  List.find (fun fld => EQUAL fieldName (GetNameRef fld)) (fields f).

End OGR.

(** ** s57.cpp *)

Module S57.
Import OGR.

(** [class S57]; [initialized_] is [dataset_ != nullptr] throughout. *)
Record t := mk {
  filePath_ : string;
  dataset_ : option GDALDataset
}.

Section Open.
(** [GDALOpenEx(filePath, GDAL_OF_VECTOR | GDAL_OF_READONLY, ...)]: what
    the reader makes of the files of the file system. *)
Variable GDALOpenEx : string -> option GDALDataset.

(** [S57::S57(const std::string& filePath)] *)
Definition open (filePath : string) : t :=
  {| filePath_ := filePath; dataset_ := GDALOpenEx filePath |}.
End Open.

(** [bool S57::isOpen() const] *)
Definition isOpen (s : t) : bool :=
  match dataset_ s with Some _ => true | None => false end.

(** [std::vector<std::string> S57::getLayerNames() const] *)
Definition getLayerNames (s : t) : list string :=
  match dataset_ s with
  | None => []
  | Some ds => List.map GetName ds
  end.

(** [bool S57::isExcludedLayer(const std::string& layerName)] *)
Definition isExcludedLayer (layerName : string) : bool :=
  existsb (fun excluded => String.eqb layerName excluded) EXCLUDED_LAYERS.

(** [S57::extractProperties]: one entry per field that is set, not null
    and whose text is not empty. *)
Definition extractProperties (feature : OGRFeature) : Std.map :=
  fold_left
    (fun props fld =>
       if IsFieldSet fld && negb (IsFieldNull fld) then
         let value := GetFieldAsString fld in
         if (0 <? String.length value)%nat
         then Std.assign (GetNameRef fld) value props
         else props
       else props)
    (fields feature) [].

(** [S57::geometryToGeoJson]: the reprojection is the reader's and is part
    of [exportToJson]. *)
Definition geometryToGeoJson (geometry : option OGRGeometry) : string :=
  match geometry with
  | None => "{}"
  | Some g => match exportToJson g with Some js => js | None => "{}" end
  end.

(** [try { x = std::stoi(text); } catch (...) {}] with [x] at 0 before. *)
Definition stoi_or_zero (text : option string) : Z :=
  match text with
  | Some v => match Std.stoi v with Some n => n | None => 0 end
  | None => 0
  end.

(** [S57::getScaleRange] *)
Definition getScaleRange (props : Std.map) : Z * Z :=
  let scamin := stoi_or_zero (Std.find "SCAMIN" props) in
  let scamax := stoi_or_zero (Std.find "SCAMAX" props) in
  ZFinder.calculateZRange scamin scamax.

(** The first record of the layer of that name, if any. *)
Definition firstRecord (s : t) (layerName : string) : option OGRFeature :=
  match dataset_ s with
  | None => None
  | Some ds =>
      match GetLayerByName ds layerName with
      | None => None
      | Some l => List.hd_error (records l)
      end
  end.

(** [S57::getDsidProperties] *)
Definition getDsidProperties (s : t) : Std.map :=
  match firstRecord s "DSID" with
  | Some feature => extractProperties feature
  | None => []
  end.

(** [S57::getMCovrProperties] *)
Definition getMCovrProperties (s : t) : Std.map :=
  match firstRecord s "M_COVR" with
  | Some feature => extractProperties feature
  | None => []
  end.

(** [S57::getCoverageGeoJson] *)
Definition getCoverageGeoJson (s : t) : string :=
  match firstRecord s "M_COVR" with
  | Some feature => geometryToGeoJson (GetGeometryRef feature)
  | None => "{}"
  end.

(** [S57::getChartInfo] *)
Definition getChartInfo (s : t) : ChartInfo :=
  if negb (isOpen s) then mkChartInfo "" 0 "" "" "" 0 "" "" ""
  else
    let dsidProps := getDsidProperties s in
    let name :=
      match Std.find "DSNM" dsidProps with
      | Some v => v
      | None => Std.path_stem (filePath_ s)
      end in
    let scale := stoi_or_zero (Std.find "DSPM_CSCL" dsidProps) in
    let updated := match Std.find "UADT" dsidProps with Some v => v | None => "" end in
    let issued := match Std.find "ISDT" dsidProps with Some v => v | None => "" end in
    let fileName := Std.path_filename (filePath_ s) in
    let zoom := if (scale >? 0)%Z then ZFinder.findZoom scale else 0%Z in
    mkChartInfo name scale fileName updated issued zoom
      (getCoverageGeoJson s)
      (json.toJsonObject dsidProps)
      (json.toJsonObject (getMCovrProperties s)).

Definition is_wkbPoint (ty : OGRwkbGeometryType) : bool :=
  match ty with wkbPoint => true | _ => false end.

(** The special handling of the SOUNDG layer in [getLayerFeatures]:
    METERS from the Z coordinate. *)
Definition addMeters (layerName : string) (ogrFeature : OGRFeature)
    (props : Std.map) : Std.map :=
  if String.eqb layerName "SOUNDG" then
    match GetGeometryRef ogrFeature with
    | Some geom =>
        if is_wkbPoint (flatGeometryType geom) then
          if Is3D geom then
            let meters := getZ geom in
            Std.assign "METERS" (Std.format_fixed1 meters) props
          else props
        else props
    | None => props
    end
  else props.

(** The LNAM_REFS of a record, as [getLayerFeatures] collects them. *)
Definition extractLnamRefs (ogrFeature : OGRFeature) : list string :=
  match GetFieldIndex ogrFeature "LNAM_REFS" with
  | Some fld =>
      if IsFieldSet fld then
        match GetFieldAsStringList fld with
        | Some refs => refs
        | None => []
        end
      else []
  | None => []
  end.

(** The body of the [while] loop of [getLayerFeatures]: the [Feature] of
    one record. *)
Definition makeFeature (layerName : string) (ogrFeature : OGRFeature) : Feature :=
  let props := extractProperties ogrFeature in
  let props := addMeters layerName ogrFeature props in
  let geomGeoJson :=
    match GetGeometryRef ogrFeature with
    | Some geometry => geometryToGeoJson (Some geometry)
    | None => ""
    end in
  let propsJson := json.toJsonObject props in
  let '(minZ, maxZ) := getScaleRange props in
  mkFeature layerName geomGeoJson propsJson minZ maxZ (extractLnamRefs ogrFeature).

(** [S57::getLayerFeatures] *)
Definition getLayerFeatures (s : t) (layerName : string) : list Feature :=
  match dataset_ s with
  | None => []
  | Some ds =>
      if isExcludedLayer layerName then []
      else
        match GetLayerByName ds layerName with
        | None => []
        | Some layer => List.map (makeFeature layerName) (records layer)
        end
  end.

(** [S57::getAllFeatures] *)
Definition getAllFeatures (s : t) : list Feature :=
  if negb (isOpen s) then []
  else
    fold_left
      (fun allFeatures layerName =>
         if negb (isExcludedLayer layerName)
         then (allFeatures ++ getLayerFeatures s layerName)%list
         else allFeatures)
      (getLayerNames s) [].


(** [void S57::processFeatures(const std::function<void(const Feature&)>& callback) const]:
    the callback acts on a state [W] of the caller's. *)
Definition processFeatures {W : Type} (s : t) (callback : Feature -> W -> W) (w : W) : W :=
  if negb (isOpen s) then w
  else
    fold_left
      (fun w layerName =>
         if negb (isExcludedLayer layerName)
         then fold_left (fun w feat => callback feat w) (getLayerFeatures s layerName) w
         else w)
      (getLayerNames s) w.

End S57.

(** ** The database engine, an external collaborator

    How the engine reads the expression [lnamRefsToArrayLiteral] splices
    into the INSERT statement: [NULL], or an [ARRAY[...]] constructor of
    quoted string constants cast to [varchar[]].  Inside a string constant
    two adjacent quotes stand for one quote character. *)

Module Sql.

Inductive state :=
| ExpectElement                 (** an opening quote must follow *)
| InLiteral (acc : string)      (** inside a string constant *)
| QuoteSeen (acc : string).     (** after a quote inside a constant: the
                                    first of a doubled quote, or its end *)

Definition snoc (s : string) (c : ascii) : string := s ++ String c EmptyString.

(** Reads the elements of an array constructor up to its closing bracket;
    yields the elements and the text after the bracket. *)
Fixpoint read_elements (st : state) (done : list string) (s : string)
  : option (list string * string) :=
  match s with
  | EmptyString => None
  | String c s' =>
      match st with
      | ExpectElement =>
          if Ascii.eqb c "'" then read_elements (InLiteral "") done s' else None
      | InLiteral acc =>
          if Ascii.eqb c "'" then read_elements (QuoteSeen acc) done s'
          else read_elements (InLiteral (snoc acc c)) done s'
      | QuoteSeen acc =>
          if Ascii.eqb c "'" then read_elements (InLiteral (snoc acc c)) done s'
          else if Ascii.eqb c "," then read_elements ExpectElement (done ++ [acc])%list s'
          else if Ascii.eqb c "]" then Some ((done ++ [acc])%list, s')
          else None
      end
  end.

Fixpoint strip_prefix (p s : string) : option string :=
  match p, s with
  | EmptyString, _ => Some s
  | String a p', String b s' => if Ascii.eqb a b then strip_prefix p' s' else None
  | String _ _, EmptyString => None
  end.

(** The value of a [varchar[]] expression: [None] when the text is not of
    that form (a syntax error), [Some None] for the SQL null, [Some (Some l)]
    for an array. *)
Definition eval_varchar_array (expr : string) : option (option (list string)) :=
  if String.eqb expr "NULL" then Some None
  else
    match strip_prefix "ARRAY[" expr with
    | None => None
    | Some body =>
        let elements :=
          match body with
          | String "]" rest => Some ([], rest)
          | _ => read_elements ExpectElement [] body
          end in
        match elements with
        | Some (l, rest) => if String.eqb rest "::varchar[]" then Some (Some l) else None
        | None => None
        end
    end.

End Sql.

(** ** database.cpp *)

Module Database.

(** A row of [charts]. *)
Record ChartRow := mkChartRow {
  c_id : Z;
  c_name : string;
  c_scale : Z;
  c_file_name : string;
  c_updated : string;
  c_issued : string;
  c_zoom : Z;
  c_covr : string;
  c_dsid_props : string;
  c_chart_txt : string
}.

(** A row of [features]; [f_z_range] holds the two arguments of
    [int4range]. *)
Record FeatureRow := mkFeatureRow {
  f_id : Z;
  f_layer : string;
  f_geom : string;
  f_props : string;
  f_chart_id : Z;
  f_lnam_refs : option (list string);
  f_z_range : Z * Z
}.

(** The persisted tables: what a transaction commits or rolls back. *)
Record Tables := mkTables {
  charts : list ChartRow;
  features : list FeatureRow
}.

(** The statements the code sends. *)
Inductive Statement :=
| CountChartsByName (chartName : string)
| SelectChartId (chartName : string)
| InsertChart (chart : ChartInfo)
| InsertFeature (sql : string) (chartId : Z) (feature : Feature)
| DeleteFeaturesOfChart (chartId : Z)
| DeleteChartById (chartId : Z)
| CountCharts
| CountFeatures.

(** What crosses the connection. *)
Inductive Event :=
| Begin
| Exec (st : Statement)
| Commit
| Abort.

(** [class Database] with the server it is connected to: [connected] is
    [conn_ && conn_->is_open()]; the two sequences feed the BIGSERIAL
    keys and are not rolled back; [trace] is what was sent so far. *)
Record t := mk {
  connected : bool;
  tables : Tables;
  charts_id_seq : Z;
  features_id_seq : Z;
  trace : list Event
}.

(** [bool Database::isConnected() const] *)
Definition isConnected (db : t) : bool := connected db.

Definition log (e : Event) (db : t) : t :=
  mk (connected db) (tables db) (charts_id_seq db) (features_id_seq db)
     (trace db ++ [e])%list.

Definition set_tables (tb : Tables) (db : t) : t :=
  mk (connected db) tb (charts_id_seq db) (features_id_seq db) (trace db).

(** *** Transactions

    A computation inside a [pqxx::work]: [None] is a thrown exception. *)
Definition Txn (A : Type) : Type := t -> option A * t.

Definition ret {A} (a : A) : Txn A := fun db => (Some a, db).

Definition throw {A} : Txn A := fun db => (None, db).

Definition bind {A B} (m : Txn A) (k : A -> Txn B) : Txn B :=
  fun db =>
    match m db with
    | (Some a, db') => k a db'
    | (None, db') => (None, db')
    end.

Notation "x <- m ;; k" := (bind m (fun x => k))
  (at level 61, m at next level, right associativity).
Notation "m ;;; k" := (bind m (fun _ => k))
  (at level 61, right associativity).

(** [txn.commit()] *)
Definition commit : Txn unit := fun db => (Some tt, log Commit db).

(** [try { pqxx::work txn(conn); body } catch (...) { }]: when the body
    throws, the transaction object is destroyed uncommitted and the tables
    are as before it. *)
Definition work {A} (body : Txn A) (db : t) : option A * t :=
  match body (log Begin db) with
  | (Some a, db') => (Some a, db')
  | (None, db') => (None, log Abort (set_tables (tables db) db'))
  end.

(** [for (const auto& x : xs) body(x);] inside a transaction. *)
Fixpoint for_each {A} (xs : list A) (body : A -> Txn unit) : Txn unit :=
  match xs with
  | [] => ret tt
  | x :: xs' => body x ;;; for_each xs' body
  end.

Section Engine.
(** Whether [ST_GeomFromGeoJSON] accepts a text, and whether the cast to
    [jsonb] does. *)
Variable ST_GeomFromGeoJSON_ok : string -> bool.
Variable jsonb_ok : string -> bool.

Definition hasChartName (chartName : string) (tb : Tables) : bool :=
  existsb (fun r => String.eqb (c_name r) chartName) (charts tb).

Definition hasChartId (chartId : Z) (tb : Tables) : bool :=
  existsb (fun r => (c_id r =? chartId)%Z) (charts tb).

(** [SELECT COUNT( * ) FROM charts WHERE name = $1] *)
Definition exec_count_charts_by_name (chartName : string) : Txn Z :=
  fun db =>
    let n := List.length (filter (fun r => String.eqb (c_name r) chartName)
                                (charts (tables db))) in
    (Some (Z.of_nat n), log (Exec (CountChartsByName chartName)) db).

(** [SELECT id FROM charts WHERE name = $1] *)
Definition exec_select_chart_id (chartName : string) : Txn (list Z) :=
  fun db =>
    let ids := List.map c_id (filter (fun r => String.eqb (c_name r) chartName)
                                     (charts (tables db))) in
    (Some ids, log (Exec (SelectChartId chartName)) db).

(** [DELETE FROM features WHERE chart_id = $1] *)
Definition exec_delete_features (chartId : Z) : Txn unit :=
  fun db =>
    let tb := tables db in
    let kept := filter (fun r => negb (f_chart_id r =? chartId)%Z) (features tb) in
    (Some tt, log (Exec (DeleteFeaturesOfChart chartId))
                  (set_tables (mkTables (charts tb) kept) db)).

(** [DELETE FROM charts WHERE id = $1]; refused while a feature still
    references the chart. *)
Definition exec_delete_chart (chartId : Z) : Txn unit :=
  fun db =>
    let tb := tables db in
    let db' := log (Exec (DeleteChartById chartId)) db in
    if hasChartId chartId tb
       && existsb (fun r => (f_chart_id r =? chartId)%Z) (features tb)
    then (None, db')
    else
      let kept := filter (fun r => negb (c_id r =? chartId)%Z) (charts tb) in
      (Some tt, set_tables (mkTables kept (features tb)) db').

(** [INSERT INTO charts (...) VALUES (...) RETURNING id]; refused for a
    name already present and for a payload that does not parse. *)
Definition exec_insert_chart (chart : ChartInfo) : Txn (list Z) :=
  fun db =>
    let tb := tables db in
    let db' := log (Exec (InsertChart chart)) db in
    if negb (hasChartName (name chart) tb)
       && ST_GeomFromGeoJSON_ok (covrGeoJson chart)
       && jsonb_ok (dsidProps chart) && jsonb_ok (chartTxt chart)
    then
      let id := charts_id_seq db in
      let row := mkChartRow id (name chart) (scale chart) (fileName chart)
                   (updated chart) (issued chart) (zoom chart)
                   (covrGeoJson chart) (dsidProps chart) (chartTxt chart) in
      (Some [id],
       mk (connected db') (mkTables (charts tb ++ [row])%list (features tb))
          (id + 1) (features_id_seq db') (trace db'))
    else (None, db').

(** Whether the engine accepts the INSERT of a feature: the payloads
    parse, the chart exists, the bounds of the range are in order and
    the spliced expression is well formed. *)
Definition insert_feature_ok (tb : Tables) (lnamRefsLiteral : string)
    (chartId : Z) (feature : Feature) : bool :=
  ST_GeomFromGeoJSON_ok (geomGeoJson feature)
  && jsonb_ok (propsJson feature)
  && hasChartId chartId tb
  && (minZ feature <=? maxZ feature)%Z
  && match Sql.eval_varchar_array lnamRefsLiteral with Some _ => true | None => false end.

(** [INSERT INTO features (...) VALUES ($1, ST_SetSRID(ST_GeomFromGeoJSON($2), 4326),
    $3::jsonb, $4, <literal>, int4range($5, $6))] *)
Definition exec_insert_feature (sql lnamRefsLiteral : string) (chartId : Z)
    (feature : Feature) : Txn unit :=
  fun db =>
    let tb := tables db in
    let db' := log (Exec (InsertFeature sql chartId feature)) db in
    if insert_feature_ok tb lnamRefsLiteral chartId feature then
      let refs :=
        match Sql.eval_varchar_array lnamRefsLiteral with
        | Some v => v
        | None => None
        end in
      let id := features_id_seq db in
      let row := mkFeatureRow id (layer feature) (geomGeoJson feature)
                   (propsJson feature) chartId refs
                   (minZ feature, maxZ feature) in
      (Some tt,
       mk (connected db') (mkTables (charts tb) (features tb ++ [row])%list)
          (charts_id_seq db') (id + 1) (trace db'))
    else (None, db').

(** [SELECT COUNT( * ) FROM charts] *)
Definition exec_count_charts : Txn Z :=
  fun db => (Some (Z.of_nat (List.length (charts (tables db)))), log (Exec CountCharts) db).

(** [SELECT COUNT( * ) FROM features] *)
Definition exec_count_features : Txn Z :=
  fun db => (Some (Z.of_nat (List.length (features (tables db)))), log (Exec CountFeatures) db).

(** *** The methods of [Database] *)

(** [std::optional<int64_t> Database::insertChart(const ChartInfo& chart)] *)
Definition insertChart (db : t) (chart : ChartInfo) : option Z * t :=
  if negb (isConnected db) then (None, db)
  else
    match work (result <- exec_insert_chart chart ;; commit ;;; ret result) db with
    | (Some (id :: _), db') => (Some id, db')
    | (Some [], db') => (None, db')
    | (None, db') => (None, db')
    end.

(** The inner loop of [lnamRefsToArrayLiteral]: quotes doubled. *)
Fixpoint escapeQuotes (ref : string) : string :=
  match ref with
  | String c s =>
      if Ascii.eqb c "'" then "''" ++ escapeQuotes s
      else String c (escapeQuotes s)
  | EmptyString => EmptyString
  end.

(** The outer loop of [lnamRefsToArrayLiteral], [first] being its flag. *)
Fixpoint arrayElements (first : bool) (refs : list string) : string :=
  match refs with
  | ref :: rest =>
      (if first then "" else ",")
      ++ "'" ++ escapeQuotes ref ++ "'" ++ arrayElements false rest
  | [] => ""
  end.

(** [std::string Database::lnamRefsToArrayLiteral(const std::vector<std::string>& refs)] *)
Definition lnamRefsToArrayLiteral (refs : list string) : string :=
  match refs with
  | [] => "NULL"
  | _ :: _ => "ARRAY[" ++ arrayElements true refs ++ "]::varchar[]"
  end.

(** The statement text [insertFeatures] builds for one feature. *)
Definition insertFeatureSql (lnamRefsLiteral : string) : string :=
  "INSERT INTO features (layer, geom, props, chart_id, lnam_refs, z_range) "
  ++ "VALUES ($1, ST_SetSRID(ST_GeomFromGeoJSON($2), 4326), $3::jsonb, $4, "
  ++ lnamRefsLiteral ++ ", int4range($5, $6))".

(** The body of the [for] loop of [insertFeatures]. *)
Definition insertOne (chartId : Z) (feature : Feature) : Txn unit :=
  let lnamRefsLiteral := lnamRefsToArrayLiteral (lnamRefs feature) in
  exec_insert_feature (insertFeatureSql lnamRefsLiteral) lnamRefsLiteral chartId feature.

(** [bool Database::insertFeatures(int64_t chartId, const std::vector<Feature>& features)] *)
Definition insertFeatures (db : t) (chartId : Z) (batch : list Feature) : bool * t :=
  if negb (isConnected db) then (false, db)
  else
    match batch with
    | [] => (true, db)
    | _ :: _ =>
        match work (for_each batch (insertOne chartId) ;;; commit) db with
        | (Some _, db') => (true, db')
        | (None, db') => (false, db')
        end
    end.

(** [bool Database::chartExists(const std::string& name)] *)
Definition chartExists (db : t) (chartName : string) : bool * t :=
  if negb (isConnected db) then (false, db)
  else
    match work (n <- exec_count_charts_by_name chartName ;; commit ;;; ret n) db with
    | (Some n, db') => ((n >? 0)%Z, db')
    | (None, db') => (false, db')
    end.

(** [bool Database::deleteChart(const std::string& name)] *)
Definition deleteChart (db : t) (chartName : string) : bool * t :=
  if negb (isConnected db) then (false, db)
  else
    match
      work (idResult <- exec_select_chart_id chartName ;;
            match idResult with
            | [] => commit
            | chartId :: _ =>
                exec_delete_features chartId ;;;
                exec_delete_chart chartId ;;;
                commit
            end) db
    with
    | (Some _, db') => (true, db')
    | (None, db') => (false, db')
    end.

(** [int64_t Database::getChartCount()] *)
Definition getChartCount (db : t) : Z * t :=
  if negb (isConnected db) then (0%Z, db)
  else
    match work (n <- exec_count_charts ;; commit ;;; ret n) db with
    | (Some n, db') => (n, db')
    | (None, db') => (0%Z, db')
    end.

(** [int64_t Database::getFeatureCount()] *)
Definition getFeatureCount (db : t) : Z * t :=
  if negb (isConnected db) then (0%Z, db)
  else
    match work (n <- exec_count_features ;; commit ;;; ret n) db with
    | (Some n, db') => (n, db')
    | (None, db') => (0%Z, db')
    end.


(** [bool Database::insertFeature(int64_t chartId, const Feature& feature)] *)
Definition insertFeature (db : t) (chartId : Z) (feature : Feature) : bool * t :=
  if negb (isConnected db) then (false, db)
  else
    match work (insertOne chartId feature ;;; commit) db with
    | (Some _, db') => (true, db')
    | (None, db') => (false, db')
    end.

End Engine.

End Database.

(** ** The file system ([std::filesystem]), an external collaborator *)

Module Filesystem.

(** What a call into [std::filesystem] comes to: it returns a value, or it
    throws [std::filesystem::filesystem_error]. *)
Inductive outcome (A : Type) :=
| returned (a : A)
| filesystem_error.

Arguments returned {A} a.
Arguments filesystem_error {A}.

(** What [fs::exists], [fs::is_regular_file] and [fs::is_directory] tell of
    a path whose status can be read. *)
Inductive file_type := not_found | regular | directory | other.

(** An entry of a directory: its path and what [entry.is_regular_file()]
    comes to, which asks the file system when the listing did not give
    the type and then may throw. *)
Record directory_entry := mkEntry {
  path : string;
  is_regular_file : outcome bool
}.

(** A file system: the status of each path, which the three queries
    above read and which they throw on when it cannot be read (a path
    that does not exist is read as [not_found]; an unreadable parent, a
    name too long are errors); and, for a directory, the entries the two
    iterators yield, in the order they yield them, or the error that
    opening the directory or stepping through it throws. *)
Record t := mk {
  status : string -> outcome file_type;
  directory_iterator : string -> outcome (list directory_entry);
  recursive_directory_iterator : string -> outcome (list directory_entry)
}.

End Filesystem.

(** ** ingest.cpp *)

Module ChartIngest.

(** [const size_t batchSize = 1000;] *)
Definition batchSize : nat := 1000.

(** [std::vector<Feature> batch(features.begin() + i, features.begin() + end)] *)
Definition slice {A} (xs : list A) (i end_ : nat) : list A :=
  firstn (end_ - i) (skipn i xs).

Section Ingest.
Variable GDALOpenEx : string -> option OGR.GDALDataset.
Variable ST_GeomFromGeoJSON_ok : string -> bool.
Variable jsonb_ok : string -> bool.

(** The batch loop of [processFile],
    [for (size_t i = 0; i < features.size(); i += batchSize)], from a
    given [i]: [false] when a batch was refused (the early return). *)
Equations insertBatches (db : Database.t) (chartId : Z)
    (features : list Feature) (i : nat) : bool * Database.t
  by wf (List.length features - i)%nat lt :=
  insertBatches db chartId features i with lt_dec i (List.length features) := {
    | left _ =>
        let end_ := Nat.min (i + batchSize) (List.length features) in
        let batch := slice features i end_ in
        match Database.insertFeatures ST_GeomFromGeoJSON_ok jsonb_ok db chartId batch with
        | (true, db') => insertBatches db' chartId features (i + batchSize)
        | (false, db') => (false, db')
        end
    | right _ => (true, db) }.
Next Obligation. unfold batchSize. lia. Qed.

(** [ProcessingResult ChartIngest::processFile(const std::string& filePath)];
    what [verbose_] prints is left out. *)
Definition processFile (db : Database.t) (filePath : string)
  : ProcessingResult * Database.t :=
  let fileName := Std.path_filename filePath in
  let s57 := S57.open GDALOpenEx filePath in
  if negb (S57.isOpen s57) then
    (mkProcessingResult false fileName "" 0 "Failed to open file", db)
  else
    let chartInfo := S57.getChartInfo s57 in
    let '(exists_, db) := Database.chartExists db (name chartInfo) in
    let db :=
      if exists_ then snd (Database.deleteChart db (name chartInfo)) else db in
    match Database.insertChart ST_GeomFromGeoJSON_ok jsonb_ok db chartInfo with
    | (None, db) =>
        (mkProcessingResult false fileName (name chartInfo) 0
           "Failed to insert chart", db)
    | (Some chartId, db) =>
        let features := S57.getAllFeatures s57 in
        let featureCount := static_cast_int (Z.of_nat (List.length features)) in
        match insertBatches db chartId features 0 with
        | (false, db) =>
            (mkProcessingResult false fileName (name chartInfo) featureCount
               "Failed to insert features", db)
        | (true, db) =>
            (mkProcessingResult true fileName (name chartInfo) featureCount "", db)
        end
    end.


(** The body of the two loops of [findS57Files] over the entries of a
    directory, [files] being the vector so far: an entry whose type
    cannot be read throws out of the loop. *)
Fixpoint collectS57Files (entries : list Filesystem.directory_entry)
    (files : list string) : Filesystem.outcome (list string) :=
  match entries with
  | [] => Filesystem.returned files
  | entry :: rest =>
      match Filesystem.is_regular_file entry with
      | Filesystem.filesystem_error => Filesystem.filesystem_error
      | Filesystem.returned is_regular =>
          if is_regular
             && String.eqb (Std.path_extension (Filesystem.path entry)) ".000"
          then collectS57Files rest (files ++ [Filesystem.path entry])%list
          else collectS57Files rest files
      end
  end.

(** [std::vector<std::string> ChartIngest::findS57Files(const std::string& path, bool recursive)];
    it catches nothing, so what the file system throws leaves it. *)
Definition findS57Files (fs : Filesystem.t) (path : string) (recursive : bool)
  : Filesystem.outcome (list string) :=
  match Filesystem.status fs path with
  | Filesystem.filesystem_error => Filesystem.filesystem_error
  | Filesystem.returned Filesystem.not_found => Filesystem.returned []
  | Filesystem.returned Filesystem.regular =>
      Filesystem.returned
        (if String.eqb (Std.path_extension path) ".000" then [path] else [])
  | Filesystem.returned Filesystem.other => Filesystem.returned []
  | Filesystem.returned Filesystem.directory =>
      match (if recursive then Filesystem.recursive_directory_iterator fs path
             else Filesystem.directory_iterator fs path) with
      | Filesystem.filesystem_error => Filesystem.filesystem_error
      | Filesystem.returned entries =>
          match collectS57Files entries [] with
          | Filesystem.filesystem_error => Filesystem.filesystem_error
          | Filesystem.returned files => Filesystem.returned (Std.sort files)
          end
      end
  end.

(** The state a progress callback acts on. *)
Variable World : Type.

(** [using ProgressCallback = std::function<void(int current, int total,
    const std::string& fileName)>] *)
Definition ProgressCallback : Type := Z -> Z -> string -> World -> World.

(** [class ChartIngest], the data base it refers to apart; the counters
    are [std::atomic<int>]. *)
Record t := mk {
  workerCount_ : Z;
  verbose_ : bool;
  progressCallback_ : option ProgressCallback;
  processedCount_ : Z;
  successCount_ : Z;
  failCount_ : Z;
  totalFeatures_ : Z
}.

(** [explicit ChartIngest(Database& database)] *)
Definition create : t := mk 4 false None 0 0 0 0.

(** [void ChartIngest::setWorkerCount(int count)] *)
Definition setWorkerCount (ingest : t) (count : Z) : t :=
  mk (Z.max 1 count) (verbose_ ingest) (progressCallback_ ingest)
     (processedCount_ ingest) (successCount_ ingest) (failCount_ ingest)
     (totalFeatures_ ingest).

(** [void ChartIngest::setProgressCallback(ProgressCallback callback)] *)
Definition setProgressCallback (ingest : t) (callback : option ProgressCallback) : t :=
  mk (workerCount_ ingest) (verbose_ ingest) callback
     (processedCount_ ingest) (successCount_ ingest) (failCount_ ingest)
     (totalFeatures_ ingest).

(** [void ChartIngest::setVerbose(bool verbose)] *)
Definition setVerbose (ingest : t) (verbose : bool) : t :=
  mk (workerCount_ ingest) verbose (progressCallback_ ingest)
     (processedCount_ ingest) (successCount_ ingest) (failCount_ ingest)
     (totalFeatures_ ingest).

Definition setCounters (ingest : t) (processed succeeded failed total : Z) : t :=
  mk (workerCount_ ingest) (verbose_ ingest) (progressCallback_ ingest)
     processed succeeded failed total.

(** The body of the loop of [processFiles] for one file: the results so
    far, the coordinator, the data base and the callback's state. *)
Definition processNext (total : Z)
    (st : list ProcessingResult * t * Database.t * World) (file : string)
  : list ProcessingResult * t * Database.t * World :=
  let '(results, ingest, db, world) := st in
  let '(result, db) := processFile db file in
  let results := (results ++ [result])%list in
  let processed := static_cast_int (processedCount_ ingest + 1) in
  let ingest :=
    if success result then
      setCounters ingest processed
        (static_cast_int (successCount_ ingest + 1))
        (failCount_ ingest)
        (static_cast_int (totalFeatures_ ingest + featureCount result))
    else
      setCounters ingest processed (successCount_ ingest)
        (static_cast_int (failCount_ ingest + 1))
        (totalFeatures_ ingest) in
  let world :=
    match progressCallback_ ingest with
    | Some callback =>
        callback (processedCount_ ingest) total (resultFileName result) world
    | None => world
    end in
  (results, ingest, db, world).

(** [std::vector<ProcessingResult> ChartIngest::processFiles(const std::vector<std::string>& files)];
    what [verbose_] prints is left out. *)
Definition processFiles (ingest : t) (db : Database.t) (world : World)
    (files : list string)
  : list ProcessingResult * t * Database.t * World :=
  let ingest := setCounters ingest 0 0 0 0 in
  let total := static_cast_int (Z.of_nat (List.length files)) in
  fold_left (processNext total) files ([], ingest, db, world).

(** [std::vector<ProcessingResult> ChartIngest::processDirectory(const std::string& dirPath, bool recursive)];
    what [findS57Files] throws leaves it before anything is processed:
    the coordinator, the data base and the state of the callback are then
    those before the call. *)
Definition processDirectory (fs : Filesystem.t) (ingest : t) (db : Database.t)
    (world : World) (dirPath : string) (recursive : bool)
  : Filesystem.outcome (list ProcessingResult * t * Database.t * World) :=
  match findS57Files fs dirPath recursive with
  | Filesystem.filesystem_error => Filesystem.filesystem_error
  | Filesystem.returned files =>
      Filesystem.returned (processFiles ingest db world files)
  end.

(** [struct Statistics] *)
Record Statistics := mkStatistics {
  totalFiles : Z;
  successCount : Z;
  failCount : Z;
  totalFeatures : Z
}.

(** [ChartIngest::Statistics ChartIngest::getStatistics() const] *)
Definition getStatistics (ingest : t) : Statistics :=
  mkStatistics (processedCount_ ingest) (successCount_ ingest)
    (failCount_ ingest) (totalFeatures_ ingest).

End Ingest.

End ChartIngest.

(** ** What the store holds after an ingestion, in the words of the
       design document *)

Module IngestSpec.
Import Database.

(** The statement [insertFeatures] sends for one feature. *)
Definition insertStatement (chartId : Z) (f : Feature) : Event :=
  Exec (InsertFeature (insertFeatureSql (lnamRefsToArrayLiteral (lnamRefs f))) chartId f).

(** What a committed batch leaves in the trace: one transaction. *)
Definition committedBatch (chartId : Z) (batch : list Feature) : list Event :=
  (Begin :: List.map (insertStatement chartId) batch ++ [Commit])%list.

(** The row of a feature: an empty reference list is the null value. *)
Definition featureRow (chartId id : Z) (f : Feature) : FeatureRow :=
  mkFeatureRow id (layer f) (geomGeoJson f) (propsJson f) chartId
    (match lnamRefs f with [] => None | _ :: _ => Some (lnamRefs f) end)
    (minZ f, maxZ f).

(** The rows of a list of features, keyed from [next] on. *)
Fixpoint featureRows (chartId next : Z) (fs : list Feature) : list FeatureRow :=
  match fs with
  | [] => []
  | f :: fs' => featureRow chartId next f :: featureRows chartId (next + 1) fs'
  end.

(** The store as [processFile] leaves it before it inserts the chart: an
    existing chart of that name deleted. *)
Definition beforeInsertChart (db : Database.t) (chartName : string) : Database.t :=
  let db1 := snd (chartExists db chartName) in
  if fst (chartExists db chartName) then snd (deleteChart db1 chartName) else db1.

Section Engine.
Variable ST_GeomFromGeoJSON_ok : string -> bool.
Variable jsonb_ok : string -> bool.

(** A feature the engine accepts under a chart that exists. *)
Definition acceptable (f : Feature) : bool :=
  ST_GeomFromGeoJSON_ok (geomGeoJson f) && jsonb_ok (propsJson f)
  && (minZ f <=? maxZ f)%Z.
End Engine.

End IngestSpec.

(** ** Sample charts and stores *)

Module Examples.
Import OGR.

Definition quoted (s : string) : string := json.dquote ++ s ++ json.dquote.

(** GeoJSON texts as the reader exports them. *)
Definition pointJson : string :=
  "{ " ++ quoted "type" ++ ": " ++ quoted "Point" ++ ", "
  ++ quoted "coordinates" ++ ": [ -70.5, 42.25, 12.34 ] }".


Definition polygonJson : string :=
  "{ " ++ quoted "type" ++ ": " ++ quoted "Polygon" ++ ", "
  ++ quoted "coordinates" ++ ": [ [ [ 0.0, 0.0 ], [ 1.0, 0.0 ], [ 1.0, 1.0 ], [ 0.0, 0.0 ] ] ] }".

Definition textField (fieldName value : string) : OGRField :=
  mkField fieldName true false value None.

Definition polygon : OGRGeometry := mkGeometry wkbPolygon false (finite 0) (Some polygonJson).

Definition dsidLayer : OGRLayer :=
  mkLayer "DSID"
    [mkOGRFeature [textField "DSNM" "US5MA1SK.000"; textField "DSPM_CSCL" "20000"] None].

Definition coverageLayer : OGRLayer :=
  mkLayer "M_COVR" [mkOGRFeature [textField "CATCOV" "1"] (Some polygon)].



(** A sounding as a point with a depth of 12.34. *)
Definition soundingPoint : OGRFeature :=
  mkOGRFeature [textField "SCAMIN" "90000"]
    (Some (mkGeometry wkbPoint true (finite (1234 # 100)) (Some pointJson))).


(** Soundings whose depth is negative zero and a NaN. *)
Definition soundingNegativeZero : OGRFeature :=
  mkOGRFeature [] (Some (mkGeometry wkbPoint true negative_zero (Some pointJson))).

Definition soundingNaN : OGRFeature :=
  mkOGRFeature [] (Some (mkGeometry wkbPoint true (nan false) (Some pointJson))).

Definition oddSoundingsChart : S57.t :=
  S57.mk "/charts/US5MA1SK.000"
    (Some [mkLayer "SOUNDG" [soundingNegativeZero; soundingNaN]]).

Definition edgeRecord : OGRFeature :=
  mkOGRFeature [textField "RCNM" "130"; textField "RCID" "1"] None.

Definition edgeLayer : OGRLayer := mkLayer "Edge" [edgeRecord; edgeRecord].

Definition soundingsLayers : GDALDataset :=
  [dsidLayer; edgeLayer; coverageLayer; mkLayer "SOUNDG" [soundingPoint]].

Definition soundingsChart : S57.t :=
  S57.mk "/charts/US5MA1SK.000" (Some soundingsLayers).


(** A store with one chart and two of its features. *)
Definition storedChart : Database.ChartRow :=
  Database.mkChartRow 7 "US5MA1SK.000" 20000 "US5MA1SK.000" "" "" 13 polygonJson "{}" "{}".

Definition storedFeature (id : Z) : Database.FeatureRow :=
  Database.mkFeatureRow id "DEPARE" polygonJson "{}" 7 None (0, 28)%Z.

Definition store : Database.t :=
  Database.mk true
    (Database.mkTables [storedChart] [storedFeature 1; storedFeature 2]) 8 3 [].

Definition emptyStore : Database.t :=
  Database.mk true (Database.mkTables [] []) 1 1 [].

(** An engine that takes a text opening with a brace and a space for
    GeoJSON and a text opening with a brace for JSON. *)
Definition acceptsGeoJson (s : string) : bool :=
  match s with String "{" (String " " _) => true | _ => false end.

Definition acceptsJson (s : string) : bool :=
  match s with String "{" _ => true | _ => false end.

Definition depthArea : OGRFeature :=
  mkOGRFeature [textField "DRVAL1" "5"] (Some polygon).

(** A record without geometry: its feature has an empty geometry text,
    which the engine refuses. *)
Definition noGeometry : OGRFeature :=
  mkOGRFeature [textField "DRVAL1" "5"] None.

Definition chartOf (depthAreas : list OGRFeature) : GDALDataset :=
  [dsidLayer; coverageLayer; mkLayer "DEPARE" depthAreas].

(** A file system with one chart file. *)
Definition oneFile (ds : GDALDataset) (filePath : string) : option GDALDataset :=
  if String.eqb filePath "/charts/US5MA1SK.000" then Some ds else None.

End Examples.

From Stdlib Require Import NArith Sorted Permutation Lqa.

(** ** Reading JSON text back

    How a JSON reader takes the texts of [json_utils.cpp]: a string runs
    to the first quote that no backslash precedes, with the escapes of the
    JSON grammar; a character below 0x20 must be escaped.  Of the [\u]
    escapes only those of the ASCII range are read, each as its one byte. *)

Module JsonText.

Definition hex_value (c : ascii) : option nat :=
  let n := nat_of_ascii c in
  if ((48 <=? n) && (n <=? 57))%nat then Some (n - 48)%nat
  else if ((97 <=? n) && (n <=? 102))%nat then Some (n - 87)%nat
  else if ((65 <=? n) && (n <=? 70))%nat then Some (n - 55)%nat
  else None.

Definition hex4_value (a b c d : ascii) : option nat :=
  match hex_value a, hex_value b, hex_value c, hex_value d with
  | Some x, Some y, Some z, Some w => Some (((x * 16 + y) * 16 + z) * 16 + w)%nat
  | _, _, _, _ => None
  end.

Definition push (c : ascii) (r : option (string * string)) : option (string * string) :=
  match r with
  | Some (text, rest) => Some (String c text, rest)
  | None => None
  end.

(** The character a one-letter escape stands for. *)
Definition escape_letter (e : ascii) : option ascii :=
  let n := nat_of_ascii e in
  if (n =? 34)%nat then Some e
  else if (n =? 92)%nat then Some e
  else if (n =? 47)%nat then Some e
  else if (n =? 98)%nat then Some "008"%char
  else if (n =? 102)%nat then Some "012"%char
  else if (n =? 110)%nat then Some "010"%char
  else if (n =? 114)%nat then Some "013"%char
  else if (n =? 116)%nat then Some "009"%char
  else None.

(** Reads a string from after its opening quote: the text it stands for
    and what follows its closing quote. *)
Fixpoint read_string (s : string) : option (string * string) :=
  match s with
  | EmptyString => None
  | String c s' =>
      let n := nat_of_ascii c in
      if (n =? 34)%nat then Some (EmptyString, s')
      else if (n =? 92)%nat then
        match s' with
        | String e s'' =>
            if (nat_of_ascii e =? 117)%nat then
              match s'' with
              | String h1 (String h2 (String h3 (String h4 s5))) =>
                  match hex4_value h1 h2 h3 h4 with
                  | Some v =>
                      if (v <? 128)%nat then push (ascii_of_nat v) (read_string s5)
                      else None
                  | None => None
                  end
              | _ => None
              end
            else
              match escape_letter e with
              | Some x => push x (read_string s'')
              | None => None
              end
        | EmptyString => None
        end
      else if (n <? 32)%nat then None
      else push c (read_string s')
  end.

(** Reads the elements of an array from the opening quote of one of them
    to the closing bracket. *)
Fixpoint read_elements (fuel : nat) (s : string) : option (list string * string) :=
  match fuel with
  | O => None
  | S fuel' =>
      match s with
      | String q s1 =>
          if (nat_of_ascii q =? 34)%nat then
            match read_string s1 with
            | Some (item, String "," s2) =>
                match read_elements fuel' s2 with
                | Some (items, rest) => Some (item :: items, rest)
                | None => None
                end
            | Some (item, String "]" s2) => Some ([item], s2)
            | _ => None
            end
          else None
      | EmptyString => None
      end
  end.

(** Reads the members of an object from the opening quote of a key to the
    closing brace; every value is a string. *)
Fixpoint read_members (fuel : nat) (s : string)
  : option (list (string * string) * string) :=
  match fuel with
  | O => None
  | S fuel' =>
      match s with
      | String q s1 =>
          if (nat_of_ascii q =? 34)%nat then
            match read_string s1 with
            | Some (key, String ":" (String q' s2)) =>
                if (nat_of_ascii q' =? 34)%nat then
                  match read_string s2 with
                  | Some (value, String "," s3) =>
                      match read_members fuel' s3 with
                      | Some (members, rest) => Some ((key, value) :: members, rest)
                      | None => None
                      end
                  | Some (value, String "}" s3) => Some ([(key, value)], s3)
                  | _ => None
                  end
                else None
            | _ => None
            end
          else None
      | EmptyString => None
      end
  end.

(** The members of an object of strings, [None] for any other text.  A
    text holds no more members than characters. *)
Definition read_object (text : string) : option (list (string * string)) :=
  match text with
  | String "{" body =>
      match body with
      | String "}" EmptyString => Some []
      | _ =>
          match read_members (String.length body) body with
          | Some (members, EmptyString) => Some members
          | _ => None
          end
      end
  | _ => None
  end.

(** The elements of an array of strings, [None] for any other text. *)
Definition read_array (text : string) : option (list string) :=
  match text with
  | String "[" body =>
      match body with
      | String "]" EmptyString => Some []
      | _ =>
          match read_elements (String.length body) body with
          | Some (items, EmptyString) => Some items
          | _ => None
          end
      end
  | _ => None
  end.

End JsonText.

(** ** Words for the statements about the reader and the store *)

Module ReaderSpec.
Import OGR.

(** A field [extractProperties] keeps: set, not null, its text not empty. *)
Definition kept (fld : OGRField) : bool :=
  IsFieldSet fld && negb (IsFieldNull fld)
  && negb (String.eqb (GetFieldAsString fld) "").

(** Entries in strictly increasing order of their keys. *)
Definition key_lt (a b : string * string) : Prop :=
  String.compare (fst a) (fst b) = Lt.




End ReaderSpec.

Module StoreSpec.
Import Database.

(** The row [insertChart] writes for a chart. *)
Definition chartRow (id : Z) (chart : ChartInfo) : ChartRow :=
  mkChartRow id (name chart) (scale chart) (fileName chart) (updated chart)
    (issued chart) (zoom chart) (covrGeoJson chart) (dsidProps chart)
    (chartTxt chart).

(** The constraints of the schema on the two tables: [name UNIQUE];
    [id BIGSERIAL PRIMARY KEY], each key below the next value of its
    sequence; [chart_id REFERENCES charts (id)]. *)
Definition consistent (db : Database.t) : Prop :=
  NoDup (List.map c_name (charts (tables db)))
  /\ NoDup (List.map c_id (charts (tables db)))
  /\ Forall (fun r => (c_id r < charts_id_seq db)%Z) (charts (tables db))
  /\ NoDup (List.map f_id (features (tables db)))
  /\ Forall (fun r => (f_id r < features_id_seq db)%Z) (features (tables db))
  /\ Forall (fun r => hasChartId (f_chart_id r) (tables db) = true)
            (features (tables db)).

End StoreSpec.

Module BatchSpec.

Section Batch.

Variable GDALOpenEx : string -> option OGR.GDALDataset.
Variable ST_GeomFromGeoJSON_ok : string -> bool.
Variable jsonb_ok : string -> bool.

(** The files one after the other, each on the store the one before it
    left. *)
Fixpoint processEach (db : Database.t) (files : list string)
  : list ProcessingResult * Database.t :=
  match files with
  | [] => ([], db)
  | file :: rest =>
      let '(result, db1) :=
        ChartIngest.processFile GDALOpenEx ST_GeomFromGeoJSON_ok jsonb_ok db file in
      let '(results, db2) := processEach db1 rest in
      (result :: results, db2)
  end.

End Batch.

(** The features of the results that succeeded. *)
Definition featuresOf (results : list ProcessingResult) : Z :=
  fold_right Z.add 0 (List.map featureCount (filter success results)).

(** The positions [1 .. n] of [n] results, as the callback is given them. *)
Definition numbered (results : list ProcessingResult) : list (Z * ProcessingResult) :=
  combine (List.map Z.of_nat (seq 1 (List.length results))) results.

(** The order of [std::sort] on strings. *)
Definition le (a b : string) : Prop := String.leb a b = true.

(** An entry whose type the file system cannot tell. *)
Definition unreadable (entry : Filesystem.directory_entry) : Prop :=
  Filesystem.is_regular_file entry = Filesystem.filesystem_error.

(** An entry that is a regular file of extension [.000]. *)
Definition isChartFile (entry : Filesystem.directory_entry) : bool :=
  match Filesystem.is_regular_file entry with
  | Filesystem.returned true =>
      String.eqb (Std.path_extension (Filesystem.path entry)) ".000"
  | _ => false
  end.

(** Two listings of a directory that differ by their order at most: both
    fail, or both yield the same entries. *)
Definition same_listing (a b : Filesystem.outcome (list Filesystem.directory_entry))
  : Prop :=
  match a, b with
  | Filesystem.returned l1, Filesystem.returned l2 => Permutation l1 l2
  | Filesystem.filesystem_error, Filesystem.filesystem_error => True
  | _, _ => False
  end.

End BatchSpec.

Module MoreExamples.

(** A directory of two charts, a text file and a directory whose name
    ends like a chart's, below which there is one more chart; a directory
    that cannot be listed, one with a link whose target cannot be read,
    and a path below a directory that cannot be searched. *)
Definition chartsDir : Filesystem.t :=
  Filesystem.mk
    (fun p => if String.eqb p "/charts" then Filesystem.returned Filesystem.directory
              else if String.eqb p "/locked" then Filesystem.returned Filesystem.directory
              else if String.eqb p "/links" then Filesystem.returned Filesystem.directory
              else if String.eqb p "/charts/US5MA1SK.000"
                   then Filesystem.returned Filesystem.regular
              else if String.eqb p "/charts/README.txt"
                   then Filesystem.returned Filesystem.regular
              else if String.eqb p "/locked/charts" then Filesystem.filesystem_error
              else Filesystem.returned Filesystem.not_found)
    (fun p => if String.eqb p "/locked" then Filesystem.filesystem_error
              else if String.eqb p "/links"
                   then Filesystem.returned
                          [Filesystem.mkEntry "/links/US5NY1CM.000"
                             (Filesystem.returned true);
                           Filesystem.mkEntry "/links/US5MA1SK.000"
                             Filesystem.filesystem_error]
              else Filesystem.returned
                     [Filesystem.mkEntry "/charts/US5NY1CM.000" (Filesystem.returned true);
                      Filesystem.mkEntry "/charts/README.txt" (Filesystem.returned true);
                      Filesystem.mkEntry "/charts/OLD.000" (Filesystem.returned false);
                      Filesystem.mkEntry "/charts/US5MA1SK.000"
                        (Filesystem.returned true)])
    (fun p => if String.eqb p "/locked" then Filesystem.filesystem_error
              else if String.eqb p "/links" then Filesystem.filesystem_error
              else Filesystem.returned
                     [Filesystem.mkEntry "/charts/US5NY1CM.000" (Filesystem.returned true);
                      Filesystem.mkEntry "/charts/README.txt" (Filesystem.returned true);
                      Filesystem.mkEntry "/charts/OLD.000" (Filesystem.returned false);
                      Filesystem.mkEntry "/charts/OLD.000/US4AK1AA.000"
                        (Filesystem.returned true);
                      Filesystem.mkEntry "/charts/US5MA1SK.000"
                        (Filesystem.returned true)]).

(** The same file system, each directory listed in the opposite order. *)
Definition chartsDirOtherOrder : Filesystem.t :=
  Filesystem.mk (Filesystem.status chartsDir)
    (fun p => match Filesystem.directory_iterator chartsDir p with
              | Filesystem.returned entries => Filesystem.returned (rev entries)
              | Filesystem.filesystem_error => Filesystem.filesystem_error
              end)
    (fun p => match Filesystem.recursive_directory_iterator chartsDir p with
              | Filesystem.returned entries => Filesystem.returned (rev entries)
              | Filesystem.filesystem_error => Filesystem.filesystem_error
              end).

(** A callback that keeps what it is told. *)
Definition keepProgress : Z -> Z -> string -> list (Z * Z * string) -> list (Z * Z * string) :=
  fun current total fileName seen => (seen ++ [(current, total, fileName)])%list.

End MoreExamples.

(** * Properties *)

Lemma static_cast_int_id (z : Z) : int_range z -> static_cast_int z = z.
Proof.
  unfold int_range, INT_MIN, INT_MAX, static_cast_int. intros H.
  rewrite Z.mod_small; lia.
Qed.

(** ** The zoom mapper *)

Section ZFinderProperties.
Import ZFinder.
Local Open Scope Z_scope.

(** One turn of the loop. *)
Lemma findZoom_loop_unfold (zScale : Q) (zoom : Z) :
  findZoom_loop zScale zoom =
  if Qlt_le_dec 1 zScale then findZoom_loop (zScale / 2) (zoom - 1) else zoom.
Proof.
  rewrite findZoom_loop_equation_1.
  destruct (Qlt_le_dec 1 zScale); reflexivity.
Qed.

(** A working value [scale / 2^k] is above one exactly when [2^k < scale]. *)
Lemma dyadic_gt_one (q : Q) (scale k : Z) :
  0 <= k -> (q * inject_Z (2 ^ k) == inject_Z scale)%Q ->
  (1 < q)%Q <-> 2 ^ k < scale.
Proof.
  intros Hk Hq.
  assert (Hpos : (0 < inject_Z (2 ^ k))%Q).
  { change 0%Q with (inject_Z 0). rewrite <- Zlt_Qlt. apply Z.pow_pos_nonneg; lia. }
  rewrite Zlt_Qlt, <- Hq.
  rewrite <- (Qmult_lt_r 1 q _ Hpos), Qmult_1_l. reflexivity.
Qed.

Lemma dyadic_halve (q : Q) (scale k : Z) :
  0 <= k -> (q * inject_Z (2 ^ k) == inject_Z scale)%Q ->
  (q / 2 * inject_Z (2 ^ (k + 1)) == inject_Z scale)%Q.
Proof.
  intros Hk Hq. rewrite <- Hq.
  rewrite Z.pow_add_r, Z.pow_1_r, inject_Z_mult by lia.
  change (inject_Z 2) with 2%Q. field.
Qed.

(** The loop started on [scale / 2^k] takes
    [max 0 (ceil (log2 scale) - k)] turns; [d] bounds their number. *)
Lemma findZoom_loop_dyadic (d : nat) :
  forall (q : Q) (scale k zoom : Z),
    0 <= k -> (q * inject_Z (2 ^ k) == inject_Z scale)%Q ->
    Z.max 0 (Z.log2_up scale - k) <= Z.of_nat d ->
    findZoom_loop q zoom = zoom - Z.max 0 (Z.log2_up scale - k).
Proof.
  induction d as [|d IH]; intros q scale k zoom Hk Hq Hd;
    rewrite findZoom_loop_unfold; destruct (Qlt_le_dec 1 q) as [Hgt|Hle].
  - apply (dyadic_gt_one q scale k Hk Hq) in Hgt.
    apply Z.log2_up_lt_pow2 in Hgt; [lia|].
    assert (0 < 2 ^ k) by (apply Z.pow_pos_nonneg; lia). lia.
  - assert (Hs : scale <= 2 ^ k).
    { apply Z.nlt_ge. intros Hc. apply (dyadic_gt_one q scale k Hk Hq) in Hc.
      apply (Qlt_not_le _ _ Hc Hle). }
    lia.
  - pose proof Hgt as Hgt'.
    apply (dyadic_gt_one q scale k Hk Hq) in Hgt'.
    assert (Hsp : 0 < scale).
    { assert (0 < 2 ^ k) by (apply Z.pow_pos_nonneg; lia). lia. }
    apply Z.log2_up_lt_pow2 in Hgt'; [|exact Hsp].
    rewrite (IH (q / 2)%Q scale (k + 1) (zoom - 1)); [lia|lia| |lia].
    apply dyadic_halve; assumption.
  - assert (Hs : scale <= 2 ^ k).
    { apply Z.nlt_ge. intros Hc. apply (dyadic_gt_one q scale k Hk Hq) in Hc.
      apply (Qlt_not_le _ _ Hc Hle). }
    destruct (Z_lt_le_dec 0 scale) as [Hsp|Hsn].
    + apply Z.log2_up_le_pow2 in Hs; [lia|exact Hsp].
    + rewrite Z.log2_up_nonpos by exact Hsn. lia.
Qed.

(** [findZoom] in closed form, for every argument. *)
Lemma findZoom_closed_form (scale : Z) :
  findZoom scale = ONE_TO_ONE_ZOOM - Z.log2_up scale.
Proof.
  unfold findZoom. cbv zeta.
  pose proof (Z.log2_up_nonneg scale) as Hn.
  rewrite (findZoom_loop_dyadic (Z.to_nat (Z.log2_up scale)) (inject_Z scale) scale 0).
  - lia.
  - lia.
  - rewrite Z.pow_0_r. change (inject_Z 1) with 1%Q. ring.
  - lia.
Qed.

(** C1.  [findZoom] starts at 28 and, while the working value is above
    one, halves it and takes one off the zoom.  For every scale above 1,
    [findZoom scale] is 28 minus the ceiling of the binary logarithm of
    [scale], that is 28 minus the least [k] with [scale <= 2^k]; and
    [findZoom 1 = findZoom 0 = 28]. *)
Theorem findZoom_ceil_log2 :
  (forall scale : Z, findZoom scale = findZoom_loop (inject_Z scale) 28)
  /\ (forall (zScale : Q) (zoom : Z),
        findZoom_loop zScale zoom
        = if Qlt_le_dec 1 zScale then findZoom_loop (zScale / 2) (zoom - 1) else zoom)
  /\ (forall scale : Z, 1 < scale ->
     findZoom scale = 28 - Z.log2_up scale
     /\ 2 ^ (Z.log2_up scale - 1) < scale <= 2 ^ Z.log2_up scale)
  /\ findZoom 1 = 28
  /\ findZoom 0 = 28.
Proof.
  split; [reflexivity|]. split; [exact findZoom_loop_unfold|].
  split; [|split].
  - intros scale H. split.
    + apply findZoom_closed_form.
    + replace (Z.log2_up scale - 1) with (Z.pred (Z.log2_up scale)) by lia.
      apply Z.log2_up_spec. exact H.
  - rewrite findZoom_closed_form. reflexivity.
  - rewrite findZoom_closed_form. reflexivity.
Qed.

Lemma findZoom_ceil_log2_witness :
  1 < 20000 /\ findZoom 20000 = 28 - Z.log2_up 20000 /\ findZoom 20000 = 13.
Proof.
  split; [lia|]. split.
  - apply (proj1 (proj2 (proj2 findZoom_ceil_log2)) 20000). lia.
  - reflexivity.
Defined.

(** The zoom of a scale an [int] can hold lies between -3 and 28. *)
Lemma findZoom_int_bounds (scale : Z) :
  scale <= INT_MAX -> -3 <= findZoom scale <= 28.
Proof.
  intros H. rewrite findZoom_closed_form. unfold ONE_TO_ONE_ZOOM.
  pose proof (Z.log2_up_nonneg scale) as Hn.
  destruct (Z_lt_le_dec 0 scale) as [Hp|Hp].
  - assert (Z.log2_up scale <= 31); [|lia].
    apply Z.log2_up_le_pow2; [exact Hp|]. unfold INT_MAX in H. lia.
  - rewrite Z.log2_up_nonpos by exact Hp. lia.
Qed.

(** The two results are the lesser and the greater of the two bounds. *)
Lemma calculateZRange_min_max (scamin scamax : Z) :
  let lo := if scamin >? 0 then findZoom scamin else 0 in
  let hi := if scamax >? 0 then findZoom scamax else ONE_TO_ONE_ZOOM in
  calculateZRange scamin scamax = (Z.min lo hi, Z.max lo hi).
Proof.
  intros lo hi.
  change (calculateZRange scamin scamax) with (if lo >? hi then (hi, lo) else (lo, hi)).
  destruct (lo >? hi) eqn:Hc; rewrite Z.gtb_ltb in Hc.
  - apply Z.ltb_lt in Hc. rewrite Z.min_r, Z.max_l by lia. reflexivity.
  - apply Z.ltb_ge in Hc. rewrite Z.min_l, Z.max_r by lia. reflexivity.
Qed.

(** C2.  [calculateZRange] computes the two bounds as stated, swaps them
    when they come out of order, so that the result is ordered; with both
    arguments positive the result is the pair of the two zooms in one of
    the two orders. *)
Theorem calculateZRange_ordered (scamin scamax : Z) :
  let lo := if scamin >? 0 then findZoom scamin else 0 in
  let hi := if scamax >? 0 then findZoom scamax else 28 in
  calculateZRange scamin scamax = (if lo >? hi then (hi, lo) else (lo, hi))
  /\ fst (calculateZRange scamin scamax) <= snd (calculateZRange scamin scamax)
  /\ ((scamin >? 0) = true -> (scamax >? 0) = true ->
      (calculateZRange scamin scamax = (findZoom scamin, findZoom scamax)
       /\ findZoom scamin <= findZoom scamax)
      \/ (calculateZRange scamin scamax = (findZoom scamax, findZoom scamin)
          /\ findZoom scamax < findZoom scamin)).
Proof.
  intros lo hi. split; [reflexivity|].
  pose proof (calculateZRange_min_max scamin scamax) as E. cbv zeta in E.
  fold lo in E. change ONE_TO_ONE_ZOOM with 28 in E. fold hi in E.
  rewrite E. cbn [fst snd]. split; [lia|].
  intros Hmin Hmax. subst lo hi. rewrite Hmin, Hmax.
  destruct (Z_le_gt_dec (findZoom scamin) (findZoom scamax)) as [H|H].
  - left. rewrite Z.min_l, Z.max_r by lia. split; [reflexivity|exact H].
  - right. rewrite Z.min_r, Z.max_l by lia. split; [reflexivity|lia].
Qed.

Lemma calculateZRange_ordered_witness :
  (20000 >? 0) = true /\ (90000 >? 0) = true
  /\ calculateZRange 20000 90000 = (findZoom 90000, findZoom 20000)
  /\ findZoom 90000 < findZoom 20000.
Proof.
  split; [reflexivity|]. split; [reflexivity|].
  destruct (calculateZRange_ordered 20000 90000) as (_ & _ & H).
  destruct (H eq_refl eq_refl) as [[E Hle]|[E Hlt]].
  - exfalso. revert Hle. rewrite !findZoom_closed_form. vm_compute. intros Hle.
    apply Hle. reflexivity.
  - split; [exact E|exact Hlt].
Defined.


End ZFinderProperties.

(** ** The chart reader *)

Section S57Properties.
Import OGR S57.
Local Open Scope Z_scope.

Lemma stoi_int_range (str : string) (n : Z) :
  Std.stoi str = Some n -> int_range n.
Proof.
  unfold Std.stoi.
  destruct (match Std.skip_space str with
            | String "-" s' => (true, s')
            | String "+" s' => (false, s')
            | _ => (false, Std.skip_space str)
            end) as [neg s].
  destruct s as [|c s]; [discriminate|].
  destruct (Std.digit_value c); [|discriminate].
  destruct ((INT_MIN <=? _) && (_ <=? INT_MAX))%Z eqn:E; [|discriminate].
  intros [= <-]. apply andb_prop in E. destruct E as [E1 E2].
  apply Z.leb_le in E1, E2. split; assumption.
Qed.

Lemma stoi_or_zero_int_range (text : option string) : int_range (stoi_or_zero text).
Proof.
  unfold stoi_or_zero. destruct text as [v|].
  - destruct (Std.stoi v) eqn:E.
    + eapply stoi_int_range; eassumption.
    + unfold int_range, INT_MIN, INT_MAX; lia.
  - unfold int_range, INT_MIN, INT_MAX; lia.
Qed.


(** The property map of a record as [getLayerFeatures] serializes it. *)
Lemma makeFeature_fields (layerName : string) (rec : OGRFeature) :
  let props := addMeters layerName rec (extractProperties rec) in
  layer (makeFeature layerName rec) = layerName
  /\ propsJson (makeFeature layerName rec) = json.toJsonObject props
  /\ minZ (makeFeature layerName rec) = fst (getScaleRange props)
  /\ maxZ (makeFeature layerName rec) = snd (getScaleRange props).
Proof.
  intros props. unfold makeFeature. fold props.
  destruct (getScaleRange props) as [lo hi]. cbn. repeat split.
Qed.

(** Every feature of [getLayerFeatures] is the feature of one record of
    the data set. *)
Lemma getLayerFeatures_In (s : S57.t) (layerName : string) (f : Feature) :
  In f (getLayerFeatures s layerName) ->
  exists ds l rec,
    dataset_ s = Some ds /\ GetLayerByName ds layerName = Some l
    /\ In rec (records l) /\ f = makeFeature layerName rec.
Proof.
  unfold getLayerFeatures. destruct (dataset_ s) as [ds|]; [|intros []].
  destruct (isExcludedLayer layerName); [intros []|].
  destruct (GetLayerByName ds layerName) as [l|] eqn:El; [|intros []].
  intros Hin. apply in_map_iff in Hin. destruct Hin as (rec & Hf & Hrec).
  exists ds, l, rec. repeat split; auto.
Qed.

Lemma find_assign_other (key k value : string) (m : Std.map) :
  key <> k -> Std.find key (Std.assign k value m) = Std.find key m.
Proof.
  intros Hne. apply String.eqb_neq in Hne.
  induction m as [|[k' v'] m IH]; cbn.
  - rewrite Hne. reflexivity.
  - destruct (String.compare k k') eqn:Ec; cbn.
    + apply String.compare_eq_iff in Ec. subst k'. rewrite Hne. reflexivity.
    + rewrite Hne. reflexivity.
    + rewrite IH. reflexivity.
Qed.







(** The bound 0 holds while the two scales stay within 2^28. *)
Lemma getScaleRange_nonnegative (props : Std.map) :
  stoi_or_zero (Std.find "SCAMIN" props) <= 2 ^ 28 ->
  stoi_or_zero (Std.find "SCAMAX" props) <= 2 ^ 28 ->
  0 <= fst (getScaleRange props).
Proof.
  intros Hmin Hmax. unfold getScaleRange. cbv zeta.
  set (a := stoi_or_zero (Std.find "SCAMIN" props)) in *.
  set (b := stoi_or_zero (Std.find "SCAMAX" props)) in *.
  rewrite calculateZRange_min_max. cbn [fst]. unfold ZFinder.ONE_TO_ONE_ZOOM.
  assert (H : forall x, 0 < x <= 2 ^ 28 -> 0 <= ZFinder.findZoom x).
  { intros x [Hx1 Hx2]. rewrite findZoom_closed_form. unfold ZFinder.ONE_TO_ONE_ZOOM.
    apply Z.log2_up_le_pow2 in Hx2; [lia|exact Hx1]. }
  change (2 ^ 28) with 268435456 in *.
  destruct (a >? 0) eqn:Ea, (b >? 0) eqn:Eb; rewrite Z.gtb_ltb in Ea, Eb;
    try apply Z.ltb_lt in Ea; try apply Z.ltb_lt in Eb.
  - pose proof (H a ltac:(lia)). pose proof (H b ltac:(lia)). lia.
  - pose proof (H a ltac:(lia)). lia.
  - pose proof (H b ltac:(lia)). lia.
  - lia.
Qed.

Lemma fold_left_app_flat_map {A B} (f : A -> list B) (keep : A -> bool)
    (xs : list A) (acc : list B) :
  fold_left (fun all x => if keep x then (all ++ f x)%list else all) xs acc
  = (acc ++ flat_map f (filter keep xs))%list.
Proof.
  revert acc. induction xs as [|x xs IH]; intros acc; cbn.
  - rewrite app_nil_r. reflexivity.
  - rewrite IH. destruct (keep x); cbn; [rewrite <- app_assoc|]; reflexivity.
Qed.

(** C6.  A layer of the exclusion list yields no feature, whatever its
    records; [getAllFeatures] is the concatenation of [getLayerFeatures]
    over the other layers, in the order the data set lists them. *)
Theorem excluded_layers_and_getAllFeatures :
  EXCLUDED_LAYERS = ["DSID"; "IsolatedNode"; "ConnectedNode"; "Edge"; "Face"]
  /\ (forall (s : S57.t) (layerName : string),
        In layerName EXCLUDED_LAYERS -> getLayerFeatures s layerName = [])
  /\ (forall s : S57.t,
        getAllFeatures s
        = flat_map (getLayerFeatures s)
            (filter (fun layerName => negb (isExcludedLayer layerName))
                    (getLayerNames s))).
Proof.
  split; [reflexivity|]. split.
  - intros s layerName Hin.
    assert (E : isExcludedLayer layerName = true).
    { unfold isExcludedLayer. apply existsb_exists. exists layerName.
      split; [exact Hin | apply String.eqb_refl]. }
    unfold getLayerFeatures. rewrite E. destruct (dataset_ s); reflexivity.
  - intros s. unfold getAllFeatures, isOpen, getLayerNames.
    destruct (dataset_ s) as [ds|] eqn:Eds; [|reflexivity]. cbn [negb].
    rewrite (fold_left_app_flat_map (getLayerFeatures s)
               (fun layerName => negb (isExcludedLayer layerName))).
    reflexivity.
Qed.

Lemma excluded_layers_and_getAllFeatures_witness :
  In "Edge" EXCLUDED_LAYERS
  /\ List.length (records Examples.edgeLayer) = 2%nat
  /\ GetLayerByName Examples.soundingsLayers "Edge" = Some Examples.edgeLayer
  /\ getLayerFeatures Examples.soundingsChart "Edge" = [].
Proof.
  assert (Hin : In "Edge" EXCLUDED_LAYERS) by (cbn; tauto).
  split; [exact Hin|]. split; [reflexivity|]. split; [reflexivity|].
  apply (proj1 (proj2 excluded_layers_and_getAllFeatures)). exact Hin.
Defined.

End S57Properties.

(** ** The sounding depth *)

Section MetersProperties.
Import OGR S57 ReaderSpec.

Lemma compare_neq_of_eqb (a b : string) :
  String.eqb a b = true -> String.compare a b = Eq.
Proof.
  intros H. apply String.eqb_eq in H. subst b.
  pose proof (String.compare_antisym a a) as Ha.
  destruct (String.compare a a); cbn in Ha; congruence.
Qed.

(** After [m[key] = value], [m.find(key)] is [value]. *)
Lemma find_assign_same (key value : string) (m : Std.map) :
  Std.find key (Std.assign key value m) = Some value.
Proof.
  induction m as [|[k v] m IH]; cbn.
  - rewrite String.eqb_refl. reflexivity.
  - destruct (String.compare key k) eqn:Ec; cbn.
    + rewrite String.eqb_refl. reflexivity.
    + rewrite String.eqb_refl. reflexivity.
    + destruct (String.eqb key k) eqn:Ek.
      * apply compare_neq_of_eqb in Ek. congruence.
      * exact IH.
Qed.






(** The depths that are no decimal number: negative zero keeps its sign
    and a NaN is written by name. *)
Example soundg_meters_special_depths :
  List.map propsJson (getLayerFeatures Examples.oddSoundingsChart "SOUNDG")
  = [json.toJsonObject [("METERS", "-0.0")]; json.toJsonObject [("METERS", "nan")]].
Proof. reflexivity. Qed.

End MetersProperties.

(** ** The reference-list expression *)

Section LnamRefsProperties.
Import Database.

Lemma string_app_nil_r (s : string) : s ++ "" = s.
Proof. induction s as [|c s IH]; cbn; [|rewrite IH]; reflexivity. Qed.

Lemma string_app_assoc (a b c : string) : (a ++ b) ++ c = a ++ b ++ c.
Proof. induction a as [|x a IH]; cbn; [|rewrite IH]; reflexivity. Qed.

Lemma snoc_app (acc : string) (c : ascii) (s : string) :
  Sql.snoc acc c ++ s = acc ++ String c s.
Proof. unfold Sql.snoc. rewrite string_app_assoc. reflexivity. Qed.

(** Reading an escaped reference inside a string constant gives the
    reference back. *)
Lemma read_escaped (ref : string) :
  forall (acc : string) (done : list string) (rest : string),
    Sql.read_elements (Sql.InLiteral acc) done (escapeQuotes ref ++ rest)
    = Sql.read_elements (Sql.InLiteral (acc ++ ref)) done rest.
Proof.
  induction ref as [|c ref IH]; intros acc done rest.
  - cbn. rewrite string_app_nil_r. reflexivity.
  - cbn [escapeQuotes]. destruct (Ascii.eqb c "'") eqn:Ec.
    + apply Ascii.eqb_eq in Ec. subst c. cbn.
      rewrite IH. unfold Sql.snoc. rewrite string_app_assoc. reflexivity.
    + cbn. rewrite Ec, IH. unfold Sql.snoc. rewrite string_app_assoc. reflexivity.
Qed.

(** Reading the elements [arrayElements] writes, up to the bracket. *)
Lemma read_arrayElements (rest : list string) :
  forall (ref : string) (done : list string) (tail : string),
    Sql.read_elements Sql.ExpectElement done
      (arrayElements true (ref :: rest) ++ String "]" tail)
    = Some ((done ++ ref :: rest)%list, tail).
Proof.
  induction rest as [|ref' rest IH]; intros ref done tail.
  - cbn [arrayElements]. cbn. rewrite string_app_assoc, read_escaped. cbn. reflexivity.
  - cbn [arrayElements] in *. cbn.
    rewrite string_app_assoc, read_escaped. cbn.
    specialize (IH ref' (done ++ [ref])%list tail). cbn in IH.
    rewrite string_app_assoc. cbn. rewrite string_app_assoc in IH. cbn in IH.
    rewrite IH, <- app_assoc. reflexivity.
Qed.

(** The engine reads the expression of a reference list back as that list,
    and the expression of the empty list as the null value. *)
Lemma eval_lnamRefsToArrayLiteral (refs : list string) :
  Sql.eval_varchar_array (lnamRefsToArrayLiteral refs)
  = Some (match refs with [] => None | _ :: _ => Some refs end).
Proof.
  destruct refs as [|ref rest]; [reflexivity|].
  unfold lnamRefsToArrayLiteral, Sql.eval_varchar_array.
  change ("ARRAY[" ++ arrayElements true (ref :: rest) ++ "]::varchar[]")
    with (String "A" ("RRAY[" ++ arrayElements true (ref :: rest) ++ "]::varchar[]")).
  cbn [String.eqb Ascii.eqb Bool.eqb]. cbn [Sql.strip_prefix append Ascii.eqb Bool.eqb].
  pose proof (read_arrayElements rest ref [] "::varchar[]") as Hread.
  remember (arrayElements true (ref :: rest) ++ "]::varchar[]") as body eqn:Hbody.
  assert (Hq : exists t, body = String "'" t)
    by (subst body; cbn; eexists; reflexivity).
  destruct Hq as [t Ht]. rewrite Ht in *. cbv beta iota.
  rewrite Hread. reflexivity.
Qed.

(** The loop with its [first] flag writes the quoted elements separated
    by commas. *)
Lemma arrayElements_concat (rest : list string) :
  forall ref : string,
    arrayElements true (ref :: rest)
    = String.concat "," (List.map (fun r => "'" ++ escapeQuotes r ++ "'") (ref :: rest)).
Proof.
  induction rest as [|ref' rest IH]; intros ref.
  - reflexivity.
  - specialize (IH ref').
    change (arrayElements true (ref :: ref' :: rest))
      with ("'" ++ escapeQuotes ref ++ "'" ++ "," ++ arrayElements true (ref' :: rest)).
    rewrite IH.
    change (List.map (fun r => "'" ++ escapeQuotes r ++ "'") (ref :: ref' :: rest))
      with (("'" ++ escapeQuotes ref ++ "'")
              :: List.map (fun r => "'" ++ escapeQuotes r ++ "'") (ref' :: rest)).
    set (tl := List.map (fun r => "'" ++ escapeQuotes r ++ "'") (ref' :: rest)).
    assert (Et : String.concat "," (("'" ++ escapeQuotes ref ++ "'") :: tl)
                 = ("'" ++ escapeQuotes ref ++ "'") ++ "," ++ String.concat "," tl)
      by reflexivity.
    rewrite Et, !string_app_assoc. reflexivity.
Qed.

(** C5.  The empty reference list is written as the null value; a list
    that is not empty as an array constructor of string constants in which
    every quote of every element is doubled; the engine reads either
    expression back as the value it stands for. *)
Theorem lnamRefsToArrayLiteral_roundtrip :
  lnamRefsToArrayLiteral [] = "NULL"
  /\ Sql.eval_varchar_array (lnamRefsToArrayLiteral []) = Some None
  /\ (forall (ref : string) (rest : list string),
        lnamRefsToArrayLiteral (ref :: rest)
        = "ARRAY["
          ++ String.concat "," (List.map (fun r => "'" ++ escapeQuotes r ++ "'") (ref :: rest))
          ++ "]::varchar[]"
        /\ Sql.eval_varchar_array (lnamRefsToArrayLiteral (ref :: rest))
           = Some (Some (ref :: rest)))
  /\ (forall (a b : string) (c : ascii),
        escapeQuotes (a ++ String c b)
        = escapeQuotes a
          ++ (if Ascii.eqb c "'" then "''" else String c "") ++ escapeQuotes b)
  /\ lnamRefsToArrayLiteral ["A'B"; "C"] = "ARRAY['A''B','C']::varchar[]"
  /\ Sql.eval_varchar_array "ARRAY['A''B','C']::varchar[]" = Some (Some ["A'B"; "C"]).
Proof.
  split; [reflexivity|]. split; [reflexivity|]. split; [|split; [|split; reflexivity]].
  - intros ref rest. split; [|apply (eval_lnamRefsToArrayLiteral (ref :: rest))].
    unfold lnamRefsToArrayLiteral. rewrite arrayElements_concat. reflexivity.
  - intros a b c. induction a as [|x a IH]; cbn [append escapeQuotes].
    + destruct (Ascii.eqb c "'"); reflexivity.
    + rewrite IH. destruct (Ascii.eqb x "'"); cbn [append]; rewrite ?string_app_assoc; reflexivity.
Qed.

End LnamRefsProperties.

(** ** The record store *)

Section DatabaseProperties.
Import Database IngestSpec.
Local Open Scope Z_scope.

Variable ST_GeomFromGeoJSON_ok : string -> bool.
Variable jsonb_ok : string -> bool.

Lemma hasChartName_false_filter (chartName : string) (tb : Tables) :
  hasChartName chartName tb = false ->
  filter (fun r => String.eqb (c_name r) chartName) (charts tb) = [].
Proof.
  unfold hasChartName. induction (charts tb) as [|r rs IH]; cbn; [reflexivity|].
  destruct (String.eqb (c_name r) chartName); cbn; [discriminate|exact IH].
Qed.

Lemma no_reference_after_delete (chartId : Z) (rows : list FeatureRow) :
  existsb (fun r => f_chart_id r =? chartId)
          (filter (fun r => negb (f_chart_id r =? chartId)) rows) = false.
Proof.
  induction rows as [|r rows IH]; cbn; [reflexivity|].
  destruct (f_chart_id r =? chartId) eqn:E; cbn; [exact IH|].
  rewrite E. exact IH.
Qed.

(** C8.  On a live connection, deleting a chart name the store does not
    hold succeeds and leaves the tables, hence both counts, as they were;
    deleting a name it holds succeeds, first removes every feature that
    references the chart and then the chart row. *)
Theorem deleteChart_spec (db : Database.t) (chartName : string) :
  isConnected db = true ->
  (hasChartName chartName (tables db) = false ->
     fst (deleteChart db chartName) = true
     /\ tables (snd (deleteChart db chartName)) = tables db
     /\ fst (getChartCount (snd (deleteChart db chartName))) = fst (getChartCount db)
     /\ fst (getFeatureCount (snd (deleteChart db chartName))) = fst (getFeatureCount db)
     /\ trace (snd (deleteChart db chartName))
        = (trace db ++ [Begin; Exec (SelectChartId chartName); Commit])%list)
  /\ (forall chartId : Z,
        List.hd_error (List.map c_id (filter (fun r => String.eqb (c_name r) chartName)
                                             (charts (tables db)))) = Some chartId ->
        fst (deleteChart db chartName) = true
        /\ features (tables (snd (deleteChart db chartName)))
           = filter (fun r => negb (f_chart_id r =? chartId)) (features (tables db))
        /\ charts (tables (snd (deleteChart db chartName)))
           = filter (fun r => negb (c_id r =? chartId)) (charts (tables db))
        /\ trace (snd (deleteChart db chartName))
           = (trace db ++ [Begin; Exec (SelectChartId chartName);
                           Exec (DeleteFeaturesOfChart chartId);
                           Exec (DeleteChartById chartId); Commit])%list).
Proof.
  intros Hconn. destruct db as [conn [chs fts] cseq fseq tr].
  cbn in Hconn. subst conn. split.
  - intros Hno. apply hasChartName_false_filter in Hno. cbn in Hno.
    unfold deleteChart, getChartCount, getFeatureCount, work, bind, exec_select_chart_id.
    cbn. rewrite Hno. cbn. repeat split.
    rewrite <- !app_assoc. reflexivity.
  - intros chartId Hid.
    unfold deleteChart, work, bind, exec_select_chart_id. cbn in *.
    destruct (List.map c_id (filter (fun r => String.eqb (c_name r) chartName) chs))
      as [|id ids]; [discriminate|].
    cbn in Hid. injection Hid as ->. cbn.
    unfold exec_delete_chart. cbn.
    rewrite no_reference_after_delete, andb_false_r. cbn.
    rewrite <- !app_assoc. cbn. repeat split.
Qed.

(** C9.  On a live connection [insertFeatures] with no feature returns
    [true] and nothing crosses the connection: the store and the trace
    are as before. *)
Theorem insertFeatures_empty (db : Database.t) (chartId : Z) :
  isConnected db = true ->
  insertFeatures ST_GeomFromGeoJSON_ok jsonb_ok db chartId [] = (true, db).
Proof.
  intros Hconn. unfold insertFeatures. rewrite Hconn. reflexivity.
Qed.

End DatabaseProperties.

(** ** Batches *)

Section BatchProperties.
Import Database IngestSpec ChartIngest.
Local Open Scope Z_scope.

Variable GDALOpenEx : string -> option OGR.GDALDataset.
Variable ST_GeomFromGeoJSON_ok : string -> bool.
Variable jsonb_ok : string -> bool.

Local Abbreviation acceptable := (IngestSpec.acceptable ST_GeomFromGeoJSON_ok jsonb_ok).
Local Abbreviation insertFeatures := (Database.insertFeatures ST_GeomFromGeoJSON_ok jsonb_ok).
Local Abbreviation insertBatches := (ChartIngest.insertBatches ST_GeomFromGeoJSON_ok jsonb_ok).
Local Abbreviation insertOne := (Database.insertOne ST_GeomFromGeoJSON_ok jsonb_ok).

Lemma featureRows_app (chartId next : Z) (xs ys : list Feature) :
  featureRows chartId next (xs ++ ys)
  = (featureRows chartId next xs
     ++ featureRows chartId (next + Z.of_nat (List.length xs)) ys)%list.
Proof.
  revert next. induction xs as [|x xs IH]; intros next; cbn [featureRows app List.length].
  - rewrite Z.add_0_r. reflexivity.
  - rewrite IH. do 3 f_equal. lia.
Qed.

Lemma featureRows_length (chartId next : Z) (xs : list Feature) :
  List.length (featureRows chartId next xs) = List.length xs.
Proof.
  revert next. induction xs as [|x xs IH]; intros next; cbn; [|rewrite IH]; reflexivity.
Qed.

(** The engine accepts the INSERT of an acceptable feature under a chart
    that exists. *)
Lemma insert_feature_ok_acceptable (tb : Tables) (chartId : Z) (f : Feature) :
  hasChartId chartId tb = true ->
  insert_feature_ok ST_GeomFromGeoJSON_ok jsonb_ok tb
    (lnamRefsToArrayLiteral (lnamRefs f)) chartId f = acceptable f.
Proof.
  intros Hc. unfold insert_feature_ok, IngestSpec.acceptable.
  rewrite Hc, eval_lnamRefsToArrayLiteral.
  rewrite andb_true_r. destruct (ST_GeomFromGeoJSON_ok _), (jsonb_ok _); reflexivity.
Qed.

(** The statements of a batch of acceptable features, inside one
    transaction. *)
Lemma for_each_insert_ok (chartId : Z) (batch : list Feature) :
  forall db : Database.t,
    hasChartId chartId (tables db) = true ->
    forallb acceptable batch = true ->
    for_each batch (insertOne chartId) db
    = (Some tt,
       Database.mk (connected db)
         (mkTables (charts (tables db))
            (Database.features (tables db)
             ++ featureRows chartId (features_id_seq db) batch)%list)
         (charts_id_seq db)
         (features_id_seq db + Z.of_nat (List.length batch))
         (trace db ++ List.map (insertStatement chartId) batch)%list).
Proof.
  induction batch as [|f batch IH]; intros db Hc Hall.
  - destruct db as [conn [chs fts] cseq fseq tr]. cbn.
    rewrite !app_nil_r, Z.add_0_r. reflexivity.
  - cbn [forallb] in Hall. apply andb_prop in Hall. destruct Hall as [Hf Hall].
    cbn [for_each]. unfold bind at 1. unfold insertOne at 1, exec_insert_feature.
    cbn [tables]. rewrite (insert_feature_ok_acceptable _ _ _ Hc), Hf.
    rewrite eval_lnamRefsToArrayLiteral.
    rewrite IH; [|exact Hc|exact Hall].
    destruct db as [conn [chs fts] cseq fseq tr]. cbn.
    cbn -[insertFeatureSql lnamRefsToArrayLiteral]. rewrite <- !app_assoc.
    f_equal. f_equal. lia.
Qed.

(** A batch of acceptable features is committed whole. *)
Lemma insertFeatures_ok (db : Database.t) (chartId : Z) (batch : list Feature) :
  isConnected db = true ->
  hasChartId chartId (tables db) = true ->
  forallb acceptable batch = true ->
  batch <> [] ->
  insertFeatures db chartId batch
  = (true,
     Database.mk true
       (mkTables (charts (tables db))
          (Database.features (tables db)
           ++ featureRows chartId (features_id_seq db) batch)%list)
       (charts_id_seq db)
       (features_id_seq db + Z.of_nat (List.length batch))
       (trace db ++ committedBatch chartId batch)%list).
Proof.
  intros Hconn Hc Hall Hne. unfold Database.insertFeatures. rewrite Hconn. cbn [negb].
  destruct batch as [|f batch]; [congruence|].
  unfold work, bind.
  rewrite for_each_insert_ok; [|exact Hc|exact Hall].
  destruct db as [conn [chs fts] cseq fseq tr]. cbn in Hconn. subst conn.
  unfold commit, log, committedBatch. cbn -[insertStatement].
  rewrite <- !app_assoc. reflexivity.
Qed.

(** A batch with a feature the engine refuses is rolled back whole. *)
Lemma for_each_insert_refused (chartId : Z) (pre : list Feature) :
  forall (db : Database.t) (bad : Feature) (post : list Feature),
    hasChartId chartId (tables db) = true ->
    forallb acceptable pre = true ->
    acceptable bad = false ->
    exists db' : Database.t,
      for_each (pre ++ bad :: post) (insertOne chartId) db = (None, db')
      /\ connected db' = connected db
      /\ charts_id_seq db' = charts_id_seq db
      /\ trace db' = (trace db ++ List.map (insertStatement chartId) (pre ++ [bad]))%list.
Proof.
  induction pre as [|f pre IH]; intros db bad post Hc Hall Hbad.
  - cbn [app for_each]. unfold bind at 1. unfold insertOne at 1, exec_insert_feature.
    cbn [tables]. rewrite (insert_feature_ok_acceptable _ _ _ Hc), Hbad.
    eexists. split; [reflexivity|]. destruct db; cbn. repeat split.
  - cbn [forallb] in Hall. apply andb_prop in Hall. destruct Hall as [Hf Hall].
    cbn [app for_each]. unfold bind at 1. unfold insertOne at 1, exec_insert_feature.
    cbn [tables]. rewrite (insert_feature_ok_acceptable _ _ _ Hc), Hf.
    match goal with |- context [for_each _ _ ?d] => 
      destruct (IH d bad post) as (db' & E & H1 & H2 & H3) end.
    + destruct db as [conn [chs fts] cseq fseq tr]; exact Hc.
    + exact Hall.
    + exact Hbad.
    + exists db'. rewrite E. split; [reflexivity|].
      destruct db as [conn [chs fts] cseq fseq tr]; cbn in *.
      rewrite H1, H2, H3, <- app_assoc. repeat split.
Qed.

Lemma insertFeatures_refused (db : Database.t) (chartId : Z)
    (pre : list Feature) (bad : Feature) (post : list Feature) :
  isConnected db = true ->
  hasChartId chartId (tables db) = true ->
  forallb acceptable pre = true ->
  acceptable bad = false ->
  exists db' : Database.t,
    insertFeatures db chartId (pre ++ bad :: post) = (false, db')
    /\ connected db' = true
    /\ tables db' = tables db
    /\ trace db'
       = (trace db ++ Begin :: List.map (insertStatement chartId) (pre ++ [bad])
          ++ [Abort])%list.
Proof.
  intros Hconn Hc Hall Hbad. unfold Database.insertFeatures. rewrite Hconn. cbn [negb].
  destruct (pre ++ bad :: post)%list as [|x xs] eqn:Ex.
  { destruct pre; discriminate. }
  rewrite <- Ex. unfold work, bind.
  destruct (for_each_insert_refused chartId pre (log Begin db) bad post)
    as (db' & E & H1 & H2 & H3); [exact Hc|exact Hall|exact Hbad|].
  rewrite E. eexists. split; [reflexivity|].
  destruct db as [conn [chs fts] cseq fseq tr]; destruct db'; cbn in *.
  subst. rewrite <- !app_assoc. repeat split.
Qed.

(** One turn of the batch loop. *)
Lemma insertBatches_unfold (db : Database.t) (chartId : Z)
    (features : list Feature) (i : nat) :
  insertBatches db chartId features i
  = if lt_dec i (List.length features) then
      match insertFeatures db chartId
              (slice features i (Nat.min (i + batchSize) (List.length features))) with
      | (true, db') => insertBatches db' chartId features (i + batchSize)
      | (false, db') => (false, db')
      end
    else (true, db).
Proof.
  rewrite insertBatches_equation_1.
  destruct (lt_dec i (List.length features)); reflexivity.
Qed.

Lemma firstn_min_length {A} (k : nat) (l : list A) :
  firstn (Nat.min k (List.length l)) l = firstn k l.
Proof.
  destruct (Nat.le_ge_cases k (List.length l)) as [H|H].
  - rewrite Nat.min_l by exact H. reflexivity.
  - rewrite Nat.min_r by exact H. rewrite firstn_all, firstn_all2 by exact H. reflexivity.
Qed.

(** The batch the loop cuts at [i] is the first [batchSize] features of
    what is left. *)
Lemma slice_batch (features : list Feature) (i : nat) :
  (i < List.length features)%nat ->
  slice features i (Nat.min (i + batchSize) (List.length features))
  = firstn batchSize (skipn i features).
Proof.
  intros Hi. unfold slice.
  rewrite <- (firstn_min_length batchSize (skipn i features)), length_skipn.
  f_equal. lia.
Qed.

Lemma insertBatches_done (db : Database.t) (chartId : Z)
    (features : list Feature) (i : nat) :
  skipn i features = [] -> insertBatches db chartId features i = (true, db).
Proof.
  intros Hrest. rewrite insertBatches_unfold.
  destruct (lt_dec i (List.length features)) as [Hi|Hi]; [|reflexivity].
  apply (f_equal (@List.length Feature)) in Hrest.
  rewrite length_skipn in Hrest. cbn in Hrest. lia.
Qed.

Lemma insertBatches_step (db : Database.t) (chartId : Z)
    (features : list Feature) (i : nat) (rest : list Feature) :
  skipn i features = rest -> rest <> [] ->
  insertBatches db chartId features i
  = match insertFeatures db chartId (firstn batchSize rest) with
    | (true, db') => insertBatches db' chartId features (i + batchSize)
    | (false, db') => (false, db')
    end
    /\ skipn (i + batchSize) features = skipn batchSize rest.
Proof.
  intros Hrest Hne. split.
  - rewrite insertBatches_unfold.
    destruct (lt_dec i (List.length features)) as [Hi|Hi].
    + rewrite slice_batch by exact Hi. rewrite Hrest. reflexivity.
    + exfalso. apply Hne. rewrite <- Hrest. apply skipn_all2. lia.
  - rewrite <- Hrest, skipn_skipn. f_equal. lia.
Qed.

Lemma ceil_div_step (n : nat) :
  (0 < n)%nat ->
  ((n + (batchSize - 1)) / batchSize
   = S ((n - batchSize + (batchSize - 1)) / batchSize))%nat.
Proof.
  unfold batchSize. intros Hn. destruct (le_lt_dec 1000 n) as [H|H].
  - replace (n + (1000 - 1))%nat with ((n - 1000 + (1000 - 1)) + 1 * 1000)%nat by lia.
    rewrite Nat.div_add by lia. lia.
  - replace (n - 1000)%nat with 0%nat by lia.
    assert (E : ((n + (1000 - 1)) / 1000 = 1)%nat).
    { symmetry. apply (Nat.div_unique _ _ _ (n - 1)); lia. }
    rewrite E. reflexivity.
Qed.

Lemma forallb_firstn {A} (p : A -> bool) (k : nat) (l : list A) :
  forallb p l = true -> forallb p (firstn k l) = true.
Proof.
  intros H. rewrite <- (firstn_skipn k l), forallb_app in H.
  apply andb_prop in H. tauto.
Qed.

Lemma forallb_skipn {A} (p : A -> bool) (k : nat) (l : list A) :
  forallb p l = true -> forallb p (skipn k l) = true.
Proof.
  intros H. rewrite <- (firstn_skipn k l), forallb_app in H.
  apply andb_prop in H. tauto.
Qed.

(** The loop over features the engine accepts: the batches it commits are
    the successive runs of [batchSize] features of what is left at [i],
    the last one possibly shorter. *)
Lemma insertBatches_all_ok (chartId : Z) (features : list Feature) (d : nat) :
  forall (db : Database.t) (i : nat) (rest : list Feature),
    (List.length rest <= d)%nat ->
    skipn i features = rest ->
    isConnected db = true ->
    hasChartId chartId (tables db) = true ->
    forallb acceptable rest = true ->
    exists batches : list (list Feature),
      List.concat batches = rest
      /\ List.length batches
         = ((List.length rest + (batchSize - 1)) / batchSize)%nat
      /\ Forall (fun b => (1 <= List.length b <= batchSize)%nat) batches
      /\ (forall k, (S k < List.length batches)%nat ->
                    List.length (nth k batches []) = batchSize)
      /\ insertBatches db chartId features i
         = (true,
            Database.mk true
              (mkTables (charts (tables db))
                 (Database.features (tables db)
                  ++ featureRows chartId (features_id_seq db) rest)%list)
              (charts_id_seq db)
              (features_id_seq db + Z.of_nat (List.length rest))
              (trace db ++ flat_map (committedBatch chartId) batches)%list).
Proof.
  induction d as [|d IH]; intros db i rest Hd Hrest Hconn Hc Hall.
  - destruct rest as [|f rest]; [|cbn in Hd; lia].
    exists []. rewrite (insertBatches_done _ _ _ _ Hrest).
    destruct db as [conn [chs fts] cseq fseq tr]. cbn in Hconn. subst conn. cbn.
    rewrite !app_nil_r, Z.add_0_r. repeat split; try constructor.
    intros k Hk. lia.
  - destruct rest as [|f rest'] eqn:Er.
    { exists []. rewrite (insertBatches_done _ _ _ _ Hrest).
      destruct db as [conn [chs fts] cseq fseq tr]. cbn in Hconn. subst conn. cbn.
      rewrite !app_nil_r, Z.add_0_r. repeat split; try constructor.
      intros k Hk. lia. }
    rewrite <- Er in *. assert (Hne : rest <> []) by (rewrite Er; discriminate).
    assert (Hlen : (0 < List.length rest)%nat) by (rewrite Er; cbn; lia).
    clear Er f rest'.
    destruct (insertBatches_step db chartId features i rest Hrest Hne) as [Estep Eskip].
    set (batch := firstn batchSize rest) in *.
    assert (Hblen : List.length batch = Nat.min batchSize (List.length rest))
      by apply length_firstn.
    assert (Hbne : batch <> []).
    { intros E. rewrite E in Hblen. cbn [List.length] in Hblen. unfold batchSize in Hblen. lia. }
    rewrite (insertFeatures_ok db chartId batch Hconn Hc
               (forallb_firstn _ _ _ Hall) Hbne) in Estep.
    match type of Estep with _ = insertBatches ?d1 _ _ _ => set (db1 := d1) in * end.
    destruct (IH db1 (i + batchSize)%nat (skipn batchSize rest)) as
        (batches & Hcat & Hcount & Hsizes & Hfull & Erun).
    + rewrite length_skipn. unfold batchSize. lia.
    + exact Eskip.
    + reflexivity.
    + exact Hc.
    + apply forallb_skipn. exact Hall.
    + exists (batch :: batches). split; [|split; [|split; [|split]]].
      * cbn [List.concat]. rewrite Hcat. apply firstn_skipn.
      * cbn [List.length]. rewrite Hcount, length_skipn.
        symmetry. apply ceil_div_step. exact Hlen.
      * constructor; [|exact Hsizes]. rewrite Hblen. unfold batchSize. lia.
      * intros [|k] Hk; cbn [nth].
        -- cbn [List.length] in Hk. rewrite Hcount, length_skipn in Hk.
           rewrite Hblen. apply Nat.min_l.
           destruct (le_lt_dec (List.length rest) batchSize) as [Hs|Hs]; [|lia].
           replace (List.length rest - batchSize)%nat with 0%nat in Hk by lia.
           cbn in Hk. lia.
        -- apply Hfull. cbn [List.length] in Hk. lia.
      * rewrite Estep, Erun. subst db1. cbn [connected tables charts Database.features
          charts_id_seq features_id_seq trace].
        assert (Erows :
                  featureRows chartId (features_id_seq db) rest
                  = (featureRows chartId (features_id_seq db) batch
                     ++ featureRows chartId
                          (features_id_seq db + Z.of_nat (List.length batch))
                          (skipn batchSize rest))%list).
        { rewrite <- featureRows_app. unfold batch. rewrite firstn_skipn. reflexivity. }
        assert (Elen : List.length rest
                       = (List.length batch + List.length (skipn batchSize rest))%nat).
        { rewrite <- length_app. unfold batch. rewrite firstn_skipn. reflexivity. }
        rewrite Erows, Elen, <- !app_assoc. cbn [flat_map].
        do 2 f_equal. lia.
Qed.

Lemma firstn_add {A} (a b : nat) (l : list A) :
  firstn (a + b) l = (firstn a l ++ firstn b (skipn a l))%list.
Proof.
  revert l. induction a as [|a IH]; intros l; [reflexivity|].
  destruct l as [|x l]; cbn; [rewrite firstn_nil; reflexivity|].
  rewrite IH. reflexivity.
Qed.

(** The batch that holds a refused feature is rolled back and ends the
    loop. *)
Lemma insertBatches_refused_here (chartId : Z) (features : list Feature)
    (db : Database.t) (i : nat) (pre : list Feature) (bad : Feature)
    (post : list Feature) :
  (List.length pre < batchSize)%nat ->
  skipn i features = (pre ++ bad :: post)%list ->
  isConnected db = true ->
  hasChartId chartId (tables db) = true ->
  forallb acceptable pre = true ->
  acceptable bad = false ->
  exists db' : Database.t,
    insertBatches db chartId features i = (false, db')
    /\ connected db' = true
    /\ tables db' = tables db.
Proof.
  intros Hshort Hrest Hconn Hc Hall Hbad.
  assert (Hne : (pre ++ bad :: post)%list <> []) by (destruct pre; discriminate).
  destruct (insertBatches_step db chartId features i _ Hrest Hne) as [Estep _].
  rewrite firstn_app in Estep.
  replace (firstn batchSize pre) with pre in Estep by (symmetry; apply firstn_all2; lia).
  destruct (batchSize - List.length pre)%nat as [|m] eqn:Em; [lia|].
  cbn [firstn] in Estep.
  destruct (insertFeatures_refused db chartId pre bad (firstn m post) Hconn Hc Hall Hbad)
    as (db' & E & H1 & H2 & _).
  rewrite E in Estep. exists db'. auto.
Qed.

(** The loop up to the first feature the engine refuses: the batches
    before the one that holds it stay committed, that one is rolled back
    and the loop stops. *)
Lemma insertBatches_refused (chartId : Z) (features : list Feature) (d : nat) :
  forall (db : Database.t) (i : nat) (pre : list Feature) (bad : Feature)
         (post : list Feature),
    (List.length pre <= d)%nat ->
    skipn i features = (pre ++ bad :: post)%list ->
    isConnected db = true ->
    hasChartId chartId (tables db) = true ->
    forallb acceptable pre = true ->
    acceptable bad = false ->
    exists db' : Database.t,
      insertBatches db chartId features i = (false, db')
      /\ connected db' = true
      /\ charts (tables db') = charts (tables db)
      /\ Database.features (tables db')
         = (Database.features (tables db)
            ++ featureRows chartId (features_id_seq db)
                 (firstn (batchSize * (List.length pre / batchSize)) pre))%list.
Proof.
  assert (Hhere : forall db i pre bad post,
            (List.length pre < batchSize)%nat ->
            skipn i features = (pre ++ bad :: post)%list ->
            isConnected db = true ->
            hasChartId chartId (tables db) = true ->
            forallb acceptable pre = true ->
            acceptable bad = false ->
            exists db' : Database.t,
              insertBatches db chartId features i = (false, db')
              /\ connected db' = true
              /\ charts (tables db') = charts (tables db)
              /\ Database.features (tables db')
                 = (Database.features (tables db)
                    ++ featureRows chartId (features_id_seq db)
                         (firstn (batchSize * (List.length pre / batchSize)) pre))%list).
  { intros db i pre bad post Hshort Hrest Hconn Hc Hall Hbad.
    destruct (insertBatches_refused_here chartId features db i pre bad post
                Hshort Hrest Hconn Hc Hall Hbad) as (db' & E & H1 & H2).
    exists db'. rewrite H2, Nat.div_small by exact Hshort.
    rewrite Nat.mul_0_r. cbn [firstn featureRows]. rewrite app_nil_r. auto. }
  induction d as [|d IH]; intros db i pre bad post Hd Hrest Hconn Hc Hall Hbad;
    destruct (le_lt_dec batchSize (List.length pre)) as [Hfull|Hshort].
  - exfalso. unfold batchSize in *. lia.
  - apply (Hhere db i pre bad post); assumption.
  - (* a full batch of accepted features, then the rest *)
    assert (Hne : (pre ++ bad :: post)%list <> []) by (destruct pre; discriminate).
    destruct (insertBatches_step db chartId features i _ Hrest Hne) as [Estep Eskip].
    rewrite firstn_app in Estep. rewrite skipn_app in Eskip.
    replace (batchSize - List.length pre)%nat with 0%nat in * by lia.
    cbn [firstn skipn] in *. rewrite app_nil_r in Estep.
    assert (Hblen : List.length (firstn batchSize pre) = batchSize)
      by (apply firstn_length_le; exact Hfull).
    assert (Hbne : firstn batchSize pre <> []).
    { intros E. rewrite E in Hblen. cbn [List.length] in Hblen.
      unfold batchSize in Hblen. lia. }
    rewrite (insertFeatures_ok db chartId _ Hconn Hc (forallb_firstn _ _ _ Hall) Hbne)
      in Estep.
    match type of Estep with _ = insertBatches ?d1 _ _ _ => set (db1 := d1) in * end.
    destruct (IH db1 (i + batchSize)%nat (skipn batchSize pre) bad post)
      as (db' & E & H1 & H2 & H3).
    + rewrite length_skipn. unfold batchSize in *. lia.
    + exact Eskip.
    + reflexivity.
    + exact Hc.
    + apply forallb_skipn. exact Hall.
    + exact Hbad.
    + exists db'. rewrite Estep, E, H2, H3. subst db1.
      cbn [connected tables charts Database.features charts_id_seq features_id_seq trace].
      repeat split; auto.
      rewrite <- app_assoc. f_equal.
      rewrite length_skipn, Hblen.
      assert (Ediv : (List.length pre / batchSize
                      = S ((List.length pre - batchSize) / batchSize))%nat).
      { unfold batchSize in *.
        replace (List.length pre) with ((List.length pre - 1000) + 1 * 1000)%nat at 1 by lia.
        rewrite Nat.div_add by lia. lia. }
      rewrite Ediv, Nat.mul_succ_r, Nat.add_comm, firstn_add, featureRows_app, Hblen.
      reflexivity.
  - apply (Hhere db i pre bad post); assumption.
Qed.

End BatchProperties.

(** ** The ingest coordinator *)

Section IngestProperties.
Import Database IngestSpec ChartIngest.
Local Open Scope Z_scope.

Variable GDALOpenEx : string -> option OGR.GDALDataset.
Variable ST_GeomFromGeoJSON_ok : string -> bool.
Variable jsonb_ok : string -> bool.

Local Abbreviation acceptable := (IngestSpec.acceptable ST_GeomFromGeoJSON_ok jsonb_ok).
Local Abbreviation insertChart := (Database.insertChart ST_GeomFromGeoJSON_ok jsonb_ok).
Local Abbreviation insertBatches := (ChartIngest.insertBatches ST_GeomFromGeoJSON_ok jsonb_ok).
Local Abbreviation processFile :=
  (ChartIngest.processFile GDALOpenEx ST_GeomFromGeoJSON_ok jsonb_ok).

(** A chart that was inserted is in the store, on a live connection. *)
Lemma insertChart_Some (db db' : Database.t) (chart : ChartInfo) (chartId : Z) :
  insertChart db chart = (Some chartId, db') ->
  isConnected db' = true
  /\ hasChartId chartId (tables db') = true
  /\ Database.features (tables db') = Database.features (tables db)
  /\ features_id_seq db' = features_id_seq db.
Proof.
  unfold Database.insertChart. destruct (isConnected db) eqn:Hconn; [|discriminate].
  cbn [negb]. unfold work, bind, exec_insert_chart.
  destruct db as [conn [chs fts] cseq fseq tr]. cbn in Hconn. subst conn.
  cbn [tables log connected charts Database.features charts_id_seq features_id_seq trace].
  destruct (negb (hasChartName (name chart) _) && _ && _ && _); [|discriminate].
  cbn. intros [= <- <-]. cbn. repeat split.
  unfold hasChartId. cbn. rewrite existsb_app. cbn. rewrite Z.eqb_refl.
  apply orb_true_iff. right. reflexivity.
Qed.

(** [processFile] once the file is open and the chart inserted. *)
Lemma processFile_chart_inserted (db db3 : Database.t) (filePath : string)
    (ds : OGR.GDALDataset) (chartId : Z) :
  GDALOpenEx filePath = Some ds ->
  let s57 := S57.mk filePath (Some ds) in
  insertChart (beforeInsertChart db (name (S57.getChartInfo s57))) (S57.getChartInfo s57)
  = (Some chartId, db3) ->
  let run := insertBatches db3 chartId (S57.getAllFeatures s57) 0 in
  processFile db filePath
  = (mkProcessingResult (fst run) (Std.path_filename filePath)
       (name (S57.getChartInfo s57))
       (static_cast_int (Z.of_nat (List.length (S57.getAllFeatures s57))))
       (if fst run then "" else "Failed to insert features"),
     snd run).
Proof.
  intros Hopen s57 Hins run. unfold ChartIngest.processFile, S57.open.
  rewrite Hopen. fold s57. cbn [S57.isOpen S57.dataset_ s57 negb].
  unfold beforeInsertChart in Hins.
  destruct (chartExists db (name (S57.getChartInfo s57))) as [ex db1].
  cbn [fst snd] in Hins. rewrite Hins. fold run.
  destruct run as [[|] db4]; reflexivity.
Qed.

(** C4.  Once the chart is inserted, [processFile] cuts the [n] features
    of the file into [ceil (n / 1000)] batches, each a transaction of its
    own, of 1000 features but for a shorter last one, which put end to end
    are the features in order (1, 1 and 2 batches for 999, 1000 and 1001
    features).  When the engine accepts every feature the result is a
    success and the rows of all [n] features are added.  When it refuses
    one, the result is the failure "Failed to insert features" and the
    rows added are those of the full batches before the batch of the first
    refused feature. *)
Theorem processFile_batches (db db3 : Database.t) (filePath : string)
    (ds : OGR.GDALDataset) (chartId : Z) :
  GDALOpenEx filePath = Some ds ->
  let s57 := S57.mk filePath (Some ds) in
  insertChart (beforeInsertChart db (name (S57.getChartInfo s57))) (S57.getChartInfo s57)
  = (Some chartId, db3) ->
  let all := S57.getAllFeatures s57 in
  let n := List.length all in
  let result := fst (processFile db filePath) in
  let db' := snd (processFile db filePath) in
  (forallb acceptable all = true ->
   exists batches : list (list Feature),
     List.concat batches = all
     /\ List.length batches = ((n + 999) / 1000)%nat
     /\ Forall (fun b => (1 <= List.length b <= 1000)%nat) batches
     /\ (forall k, (S k < List.length batches)%nat ->
                   List.length (nth k batches []) = 1000%nat)
     /\ (n = 999%nat -> List.length batches = 1%nat)
     /\ (n = 1000%nat -> List.length batches = 1%nat)
     /\ (n = 1001%nat -> List.length batches = 2%nat)
     /\ success result = true
     /\ trace db' = (trace db3 ++ flat_map (committedBatch chartId) batches)%list
     /\ Database.features (tables db')
        = (Database.features (tables db3)
           ++ featureRows chartId (features_id_seq db3) all)%list
     /\ List.length (Database.features (tables db'))
        = (List.length (Database.features (tables db3)) + n)%nat)
  /\ (forall (pre : list Feature) (bad : Feature) (post : list Feature),
        all = (pre ++ bad :: post)%list ->
        forallb acceptable pre = true ->
        acceptable bad = false ->
        success result = false
        /\ errorMessage result = "Failed to insert features"
        /\ Database.features (tables db')
           = (Database.features (tables db3)
              ++ featureRows chartId (features_id_seq db3)
                   (firstn (1000 * (List.length pre / 1000)) all))%list).
Proof.
  intros Hopen s57 Hins all n result db'.
  pose proof (processFile_chart_inserted db db3 filePath ds chartId Hopen Hins) as Erun.
  cbv zeta in Erun. fold s57 all in Erun.
  destruct (insertChart_Some _ _ _ _ Hins) as (Hconn & Hc & _ & _).
  split.
  - intros Hall.
    destruct (insertBatches_all_ok ST_GeomFromGeoJSON_ok jsonb_ok chartId all n
                db3 0%nat all (Nat.le_refl _) eq_refl Hconn Hc Hall)
      as (batches & Hcat & Hcount & Hsizes & Hfull & E).
    change (batchSize - 1)%nat with 999%nat in Hcount.
    change batchSize with 1000%nat in Hcount, Hsizes, Hfull.
    fold n in Hcount.
    exists batches. subst result db'. rewrite Erun, E. cbn [fst snd success tables
      Database.features trace].
    split; [exact Hcat|]. split; [exact Hcount|]. split; [exact Hsizes|].
    split; [exact Hfull|].
    split; [intros En; rewrite Hcount, En; reflexivity|].
    split; [intros En; rewrite Hcount, En; reflexivity|].
    split; [intros En; rewrite Hcount, En; reflexivity|].
    split; [reflexivity|]. split; [reflexivity|]. split; [reflexivity|].
    rewrite length_app, featureRows_length. reflexivity.
  - intros pre bad post Hsplit Hpre Hbad.
    destruct (insertBatches_refused ST_GeomFromGeoJSON_ok jsonb_ok chartId all
                (List.length pre) db3 0%nat pre bad post (Nat.le_refl _) Hsplit
                Hconn Hc Hpre Hbad)
      as (db4 & E & _ & _ & Hrows).
    subst result db'. rewrite Erun, E. cbn [fst snd success errorMessage].
    repeat split. rewrite Hrows. change batchSize with 1000%nat.
    do 2 f_equal. rewrite Hsplit, firstn_app.
    replace (1000 * (List.length pre / 1000) - List.length pre)%nat with 0%nat.
    + cbn [firstn]. rewrite app_nil_r. reflexivity.
    + pose proof (Nat.Div0.mul_div_le (List.length pre) 1000). lia.
Qed.

(** C10.  A result that fails with "Failed to insert features" reports as
    its feature count the number of features extracted from the file,
    whatever was persisted. *)
Theorem processFile_featureCount (db : Database.t) (filePath : string) :
  errorMessage (fst (processFile db filePath)) = "Failed to insert features" ->
  exists ds : OGR.GDALDataset,
    GDALOpenEx filePath = Some ds
    /\ success (fst (processFile db filePath)) = false
    /\ featureCount (fst (processFile db filePath))
       = static_cast_int
           (Z.of_nat (List.length (S57.getAllFeatures (S57.mk filePath (Some ds)))))
    /\ (Z.of_nat (List.length (S57.getAllFeatures (S57.mk filePath (Some ds)))) <= INT_MAX ->
        featureCount (fst (processFile db filePath))
        = Z.of_nat (List.length (S57.getAllFeatures (S57.mk filePath (Some ds))))).
Proof.
  unfold ChartIngest.processFile, S57.open.
  destruct (GDALOpenEx filePath) as [ds|] eqn:Hopen; cbn [S57.isOpen S57.dataset_ negb];
    [|cbn; discriminate].
  set (s57 := S57.mk filePath (Some ds)).
  destruct (chartExists db (name (S57.getChartInfo s57))) as [ex db1].
  destruct (insertChart _ (S57.getChartInfo s57)) as [[chartId|] db3]; [|cbn; discriminate].
  destruct (insertBatches db3 chartId (S57.getAllFeatures s57) 0) as [[|] db4];
    cbn [fst errorMessage success featureCount]; [discriminate|].
  intros _. exists ds. repeat split.
  intros Hn. apply static_cast_int_id. unfold int_range, INT_MIN. lia.
Qed.

End IngestProperties.

(** ** The properties on the sample charts and stores *)

Section Witnesses.
Import Database IngestSpec Examples.
Local Open Scope Z_scope.

Lemma deleteChart_spec_witness :
  (isConnected store = true
   /\ hasChartName "GB5X01SW.000" (tables store) = false
   /\ fst (deleteChart store "GB5X01SW.000") = true
   /\ tables (snd (deleteChart store "GB5X01SW.000")) = tables store)
  /\ (List.hd_error
        (List.map c_id (filter (fun r => String.eqb (c_name r) "US5MA1SK.000")
                               (charts (tables store)))) = Some 7
      /\ fst (deleteChart store "US5MA1SK.000") = true
      /\ Database.features (tables (snd (deleteChart store "US5MA1SK.000"))) = []
      /\ charts (tables (snd (deleteChart store "US5MA1SK.000"))) = []).
Proof.
  destruct (deleteChart_spec store "GB5X01SW.000" eq_refl) as [Habsent _].
  destruct (deleteChart_spec store "US5MA1SK.000" eq_refl) as [_ Hpresent].
  destruct (Habsent eq_refl) as (H1 & H2 & _).
  destruct (Hpresent 7 eq_refl) as (H3 & H4 & H5 & _).
  split.
  - split; [reflexivity|]. split; [reflexivity|]. split; [exact H1|exact H2].
  - split; [reflexivity|]. split; [exact H3|]. split.
    + rewrite H4. reflexivity.
    + rewrite H5. reflexivity.
Defined.

Lemma insertFeatures_empty_witness :
  isConnected store = true
  /\ insertFeatures acceptsGeoJson acceptsJson store 7 [] = (true, store).
Proof.
  split; [reflexivity|].
  apply (insertFeatures_empty acceptsGeoJson acceptsJson store 7). reflexivity.
Defined.

(** A file of 1000 depth areas and the coverage record, 1001 features:
    two batches, 1001 rows.  With the last depth area without geometry:
    a failure, the 1000 rows of the first batch persisted. *)
Lemma processFile_batches_witness :
  let filePath := "/charts/US5MA1SK.000" in
  let good := chartOf (repeat depthArea 1000) in
  let flawed := chartOf (repeat depthArea 999 ++ [noGeometry]) in
  let chart := S57.getChartInfo (S57.mk filePath (Some good)) in
  let inserted :=
    Database.insertChart acceptsGeoJson acceptsJson
      (beforeInsertChart emptyStore (name chart)) chart in
  let run ds := ChartIngest.processFile (oneFile ds) acceptsGeoJson acceptsJson
                  emptyStore filePath in
  (oneFile good filePath = Some good
   /\ inserted = (Some 1, snd inserted)
   /\ forallb (acceptable acceptsGeoJson acceptsJson)
              (S57.getAllFeatures (S57.mk filePath (Some good))) = true
   /\ List.length (S57.getAllFeatures (S57.mk filePath (Some good))) = 1001%nat
   /\ exists batches : list (list Feature),
        List.concat batches = S57.getAllFeatures (S57.mk filePath (Some good))
        /\ List.length batches = 2%nat
        /\ success (fst (run good)) = true
        /\ List.length (Database.features (tables (snd (run good)))) = 1001%nat)
  /\ (exists (pre : list Feature) (bad : Feature),
        S57.getAllFeatures (S57.mk filePath (Some flawed)) = (pre ++ [bad])%list
        /\ List.length pre = 1000%nat
        /\ forallb (acceptable acceptsGeoJson acceptsJson) pre = true
        /\ acceptable acceptsGeoJson acceptsJson bad = false
        /\ success (fst (run flawed)) = false
        /\ errorMessage (fst (run flawed)) = "Failed to insert features"
        /\ List.length (Database.features (tables (snd (run flawed)))) = 1000%nat).
Proof.
  intros filePath good flawed chart inserted run.
  assert (Hins : inserted = (Some 1, snd inserted)) by (vm_compute; reflexivity).
  split.
  - assert (Hopen : oneFile good filePath = Some good) by reflexivity.
    assert (Hall : forallb (acceptable acceptsGeoJson acceptsJson)
                     (S57.getAllFeatures (S57.mk filePath (Some good))) = true)
      by (vm_compute; reflexivity).
    assert (Hn : List.length (S57.getAllFeatures (S57.mk filePath (Some good))) = 1001%nat)
      by (vm_compute; reflexivity).
    split; [exact Hopen|]. split; [exact Hins|]. split; [exact Hall|]. split; [exact Hn|].
    destruct (processFile_batches (oneFile good) acceptsGeoJson acceptsJson
                emptyStore (snd inserted) filePath good 1 Hopen Hins) as [Hok _].
    destruct (Hok Hall)
      as (batches & Hcat & _ & _ & _ & _ & _ & H1001 & Hs & _ & _ & Hlen).
    exists batches. split; [exact Hcat|]. split; [exact (H1001 Hn)|]. split; [exact Hs|].
    unfold run. rewrite Hlen. vm_compute. reflexivity.
  - assert (Hopen : oneFile flawed filePath = Some flawed) by reflexivity.
    assert (Hins' :
              Database.insertChart acceptsGeoJson acceptsJson
                (beforeInsertChart emptyStore
                   (name (S57.getChartInfo (S57.mk filePath (Some flawed)))))
                (S57.getChartInfo (S57.mk filePath (Some flawed)))
              = (Some 1, snd inserted)) by (vm_compute; reflexivity).
    destruct (processFile_batches (oneFile flawed) acceptsGeoJson acceptsJson
                emptyStore (snd inserted) filePath flawed 1 Hopen Hins') as [_ Hfail].
    exists (firstn 1000 (S57.getAllFeatures (S57.mk filePath (Some flawed)))),
           (S57.makeFeature "DEPARE" noGeometry).
    assert (Hsplit :
              S57.getAllFeatures (S57.mk filePath (Some flawed))
              = (firstn 1000 (S57.getAllFeatures (S57.mk filePath (Some flawed)))
                 ++ [S57.makeFeature "DEPARE" noGeometry])%list)
      by (vm_compute; reflexivity).
    assert (Hpre : forallb (acceptable acceptsGeoJson acceptsJson)
                     (firstn 1000 (S57.getAllFeatures (S57.mk filePath (Some flawed))))
                   = true) by (vm_compute; reflexivity).
    assert (Hbad : acceptable acceptsGeoJson acceptsJson
                     (S57.makeFeature "DEPARE" noGeometry) = false)
      by (vm_compute; reflexivity).
    destruct (Hfail _ _ [] Hsplit Hpre Hbad) as (Hs & Hmsg & Hrows).
    split; [exact Hsplit|]. split; [vm_compute; reflexivity|].
    split; [exact Hpre|]. split; [exact Hbad|]. split; [exact Hs|]. split; [exact Hmsg|].
    unfold run. rewrite Hrows, length_app, featureRows_length. vm_compute. reflexivity.
Defined.

(** The coverage record and two depth areas, the second without geometry:
    the count reported is 3, no row is persisted. *)
Lemma processFile_featureCount_witness :
  let ds := chartOf [depthArea; noGeometry] in
  let filePath := "/charts/US5MA1SK.000" in
  let run := ChartIngest.processFile (oneFile ds) acceptsGeoJson acceptsJson
               emptyStore filePath in
  errorMessage (fst run) = "Failed to insert features"
  /\ success (fst run) = false
  /\ featureCount (fst run) = 3
  /\ Database.features (tables (snd run)) = [].
Proof.
  intros ds filePath run.
  assert (Hmsg : errorMessage (fst run) = "Failed to insert features")
    by (vm_compute; reflexivity).
  split; [exact Hmsg|].
  destruct (processFile_featureCount (oneFile ds) acceptsGeoJson acceptsJson
              emptyStore filePath Hmsg) as (ds' & Hopen & Hs & _ & Hcount).
  assert (Eds : ds' = ds).
  { assert (E : Some ds' = Some ds) by (rewrite <- Hopen; reflexivity).
    injection E as E. exact E. }
  subst ds'. split; [exact Hs|]. split.
  - fold run in Hcount. rewrite Hcount; [reflexivity|]. vm_compute. discriminate.
  - vm_compute. reflexivity.
Defined.

End Witnesses.

(** * Further properties *)

(** ** The zoom mapper *)

Section ZFinderMore.
Import ZFinder.
Local Open Scope Z_scope.

(** X1.  A larger scale never gets a larger zoom. *)
Theorem findZoom_antitone (a b : Z) :
  a <= b -> findZoom b <= findZoom a.
Proof.
  intros H. rewrite !findZoom_closed_form.
  pose proof (Z.log2_up_le_mono a b H). lia.
Qed.

Lemma findZoom_antitone_witness :
  20000 <= 90000 /\ findZoom 90000 <= findZoom 20000.
Proof.
  split; [lia|]. apply findZoom_antitone. lia.
Defined.

(** X2.  For a scale from 1 on whose double is still an [int], that is a
    scale up to 2^30 - 1, doubling the scale takes exactly one off the
    zoom. *)
Theorem findZoom_double (scale : Z) :
  1 <= scale -> int_range (2 * scale) ->
  findZoom (2 * scale) = findZoom scale - 1.
Proof.
  intros H _. rewrite !findZoom_closed_form.
  replace (2 * scale) with (scale * 2 ^ 1) by lia.
  rewrite Z.log2_up_mul_pow2 by lia. lia.
Qed.

Lemma findZoom_double_witness :
  1 <= 20000 /\ int_range (2 * 20000)
  /\ findZoom (2 * 20000) = findZoom 20000 - 1.
Proof.
  assert (Hr : int_range (2 * 20000)) by (unfold int_range, INT_MIN, INT_MAX; lia).
  split; [lia|]. split; [exact Hr|]. apply findZoom_double; [lia|exact Hr].
Defined.

(** X3.  With both scales positive the range does not depend on which of
    the two is given as SCAMIN and which as SCAMAX. *)
Theorem calculateZRange_symmetric (scamin scamax : Z) :
  0 < scamin -> 0 < scamax ->
  calculateZRange scamin scamax = calculateZRange scamax scamin.
Proof.
  intros Hmin Hmax. rewrite !calculateZRange_min_max. cbv zeta.
  assert (E1 : (scamin >? 0) = true) by (rewrite Z.gtb_ltb; apply Z.ltb_lt; exact Hmin).
  assert (E2 : (scamax >? 0) = true) by (rewrite Z.gtb_ltb; apply Z.ltb_lt; exact Hmax).
  rewrite E1, E2. rewrite Z.min_comm, Z.max_comm. reflexivity.
Qed.

Lemma calculateZRange_symmetric_witness :
  0 < 20000 /\ 0 < 90000
  /\ calculateZRange 20000 90000 = calculateZRange 90000 20000.
Proof.
  split; [lia|]. split; [lia|]. apply calculateZRange_symmetric; lia.
Defined.

End ZFinderMore.

(** ** The chart reader *)

Section S57More.
Import OGR S57 ReaderSpec.
Local Open Scope Z_scope.

Lemma list_find_app {A} (p : A -> bool) (l1 l2 : list A) :
  List.find p (l1 ++ l2)
  = match List.find p l1 with Some x => Some x | None => List.find p l2 end.
Proof.
  induction l1 as [|x l1 IH]; cbn; [reflexivity|].
  destruct (p x); [reflexivity|exact IH].
Qed.

Lemma length_pos_not_empty (s : string) :
  (0 <? String.length s)%nat = negb (String.eqb s "").
Proof. destruct s; reflexivity. Qed.

(** The loop of [extractProperties] from a map already built. *)
Lemma extractProperties_loop (key : string) (flds : list OGRField) :
  forall acc : Std.map,
    Std.find key
      (fold_left
         (fun props fld =>
            if IsFieldSet fld && negb (IsFieldNull fld) then
              let value := GetFieldAsString fld in
              if (0 <? String.length value)%nat
              then Std.assign (GetNameRef fld) value props
              else props
            else props)
         flds acc)
    = match List.find (fun fld => kept fld && String.eqb (GetNameRef fld) key)
                      (rev flds) with
      | Some fld => Some (GetFieldAsString fld)
      | None => Std.find key acc
      end.
Proof.
  induction flds as [|fld flds IH]; intros acc; [reflexivity|].
  cbn [fold_left rev]. rewrite IH, list_find_app.
  destruct (List.find _ (rev flds)) as [fld'|]; [reflexivity|].
  cbn [List.find]. unfold kept. rewrite length_pos_not_empty.
  destruct (IsFieldSet fld && negb (IsFieldNull fld)); cbn [andb]; [|reflexivity].
  destruct (negb (String.eqb (GetFieldAsString fld) "")); cbn [andb]; [|reflexivity].
  destruct (String.eqb (GetNameRef fld) key) eqn:Ek.
  - apply String.eqb_eq in Ek. subst key. apply find_assign_same.
  - apply find_assign_other. apply String.eqb_neq in Ek. congruence.
Qed.

(** X4.  The property map of a record holds under a key the text of the
    last field of that name that is set, not null and not empty, and no
    entry when there is no such field: no empty value is ever stored. *)
Theorem extractProperties_find (feature : OGRFeature) (key : string) :
  Std.find key (extractProperties feature)
  = option_map GetFieldAsString
      (List.find (fun fld => kept fld && String.eqb (GetNameRef fld) key)
                 (rev (fields feature)))
  /\ Std.find key (extractProperties feature) <> Some "".
Proof.
  assert (E : Std.find key (extractProperties feature)
              = option_map GetFieldAsString
                  (List.find (fun fld => kept fld && String.eqb (GetNameRef fld) key)
                             (rev (fields feature)))).
  { unfold extractProperties. rewrite extractProperties_loop.
    destruct (List.find _ (rev (fields feature))); reflexivity. }
  split; [exact E|]. rewrite E.
  destruct (List.find _ (rev (fields feature))) as [fld|] eqn:Ef; [|discriminate].
  apply find_some in Ef. destruct Ef as [_ Ef]. unfold kept in Ef.
  cbn. intros [= Hv]. rewrite Hv in Ef. cbn in Ef.
  rewrite andb_false_r in Ef. discriminate.
Qed.

Lemma ascii_compare_refl (a : ascii) : Ascii.compare a a = Eq.
Proof. unfold Ascii.compare. apply N.compare_refl. Qed.

Lemma ascii_compare_lt_trans (a b c : ascii) :
  Ascii.compare a b = Lt -> Ascii.compare b c = Lt -> Ascii.compare a c = Lt.
Proof.
  unfold Ascii.compare. rewrite !N.compare_lt_iff. apply N.lt_trans.
Qed.

(** [operator<] on strings is transitive. *)
Lemma string_compare_lt_trans (a : string) :
  forall b c : string,
    String.compare a b = Lt -> String.compare b c = Lt -> String.compare a c = Lt.
Proof.
  induction a as [|x a IH]; intros [|y b] [|z c]; cbn; try discriminate; try reflexivity.
  destruct (Ascii.compare x y) eqn:Exy; try discriminate;
    destruct (Ascii.compare y z) eqn:Eyz; try discriminate; intros H1 H2.
  - apply Ascii.compare_eq_iff in Exy, Eyz. subst y z.
    rewrite ascii_compare_refl. eapply IH; eassumption.
  - apply Ascii.compare_eq_iff in Exy. subst y. rewrite Eyz. reflexivity.
  - apply Ascii.compare_eq_iff in Eyz. subst z. rewrite Exy. reflexivity.
  - rewrite (ascii_compare_lt_trans x y z Exy Eyz). reflexivity.
Qed.

Lemma string_compare_lt_irrefl (a : string) : String.compare a a <> Lt.
Proof.
  pose proof (String.compare_antisym a a) as H.
  destruct (String.compare a a); cbn in H; congruence.
Qed.

Lemma Forall_assign (P : string * string -> Prop) (k v : string) (m : Std.map) :
  P (k, v) -> Forall P m -> Forall P (Std.assign k v m).
Proof.
  intros Hk Hm. induction Hm as [|[k' v'] m Hx Hm IH]; cbn.
  - constructor; [exact Hk|constructor].
  - destruct (String.compare k k'); repeat constructor; auto.
Qed.

(** [m[key] = value] keeps the keys in increasing order. *)
Lemma assign_sorted (k v : string) (m : Std.map) :
  StronglySorted key_lt m -> StronglySorted key_lt (Std.assign k v m).
Proof.
  induction m as [|[k' v'] m IH]; intros Hs; cbn.
  - repeat constructor.
  - apply StronglySorted_inv in Hs. destruct Hs as [Hs Hall].
    destruct (String.compare k k') eqn:Ec.
    + apply String.compare_eq_iff in Ec. subst k'.
      constructor; [exact Hs|]. exact Hall.
    + constructor; [constructor; assumption|].
      constructor; [exact Ec|].
      eapply Forall_impl; [|exact Hall]. intros [k2 v2] H2. unfold key_lt in *. cbn in *.
      eapply string_compare_lt_trans; eassumption.
    + constructor; [apply IH; exact Hs|].
      apply Forall_assign; [|exact Hall].
      unfold key_lt. cbn. rewrite String.compare_antisym, Ec. reflexivity.
Qed.

Lemma sorted_keys_NoDup (m : Std.map) :
  StronglySorted key_lt m -> NoDup (List.map fst m).
Proof.
  induction 1 as [|[k v] m Hs IH Hall]; cbn; constructor; [|exact IH].
  intros Hin. apply in_map_iff in Hin. destruct Hin as ([k' v'] & Ek & Hin).
  cbn in Ek. subst k'.
  apply (proj1 (Forall_forall _ _) Hall) in Hin. unfold key_lt in Hin. cbn in Hin.
  exact (string_compare_lt_irrefl k Hin).
Qed.

Lemma extractProperties_sorted (feature : OGRFeature) :
  StronglySorted key_lt (extractProperties feature).
Proof.
  unfold extractProperties.
  assert (H : forall flds acc,
             StronglySorted key_lt acc ->
             StronglySorted key_lt
               (fold_left
                  (fun props fld =>
                     if IsFieldSet fld && negb (IsFieldNull fld) then
                       let value := GetFieldAsString fld in
                       if (0 <? String.length value)%nat
                       then Std.assign (GetNameRef fld) value props
                       else props
                     else props) flds acc)).
  { induction flds as [|fld flds IH]; intros acc Hacc; [exact Hacc|].
    cbn [fold_left]. apply IH.
    destruct (IsFieldSet fld && negb (IsFieldNull fld)); [|exact Hacc].
    cbv zeta. destruct (0 <? String.length (GetFieldAsString fld))%nat; [|exact Hacc].
    apply assign_sorted. exact Hacc. }
  apply H. constructor.
Qed.

(** X5.  The property map a feature is serialized from has its keys in
    strictly increasing order, so the JSON object names no key twice,
    METERS included. *)
Theorem feature_properties_sorted (layerName : string) (rec : OGRFeature) :
  let props := addMeters layerName rec (extractProperties rec) in
  propsJson (makeFeature layerName rec) = json.toJsonObject props
  /\ StronglySorted (fun a b => String.compare (fst a) (fst b) = Lt) props
  /\ NoDup (List.map fst props).
Proof.
  intros props.
  assert (Hs : StronglySorted key_lt props).
  { subst props. unfold addMeters.
    pose proof (extractProperties_sorted rec) as H.
    destruct (String.eqb layerName "SOUNDG"); [|exact H].
    destruct (GetGeometryRef rec) as [geom|]; [|exact H].
    destruct (is_wkbPoint (flatGeometryType geom)); [|exact H].
    destruct (Is3D geom); [|exact H].
    apply assign_sorted. exact H. }
  split; [apply makeFeature_fields|]. split; [exact Hs|].
  apply sorted_keys_NoDup. exact Hs.
Qed.

(** X6.  A record whose SCAMIN and SCAMAX are each absent, not a number
    or not positive is visible at every zoom: its range is (0, 28). *)
Theorem getScaleRange_default (props : Std.map) :
  (forall v n, Std.find "SCAMIN" props = Some v -> Std.stoi v = Some n -> n <= 0) ->
  (forall v n, Std.find "SCAMAX" props = Some v -> Std.stoi v = Some n -> n <= 0) ->
  getScaleRange props = (0, 28).
Proof.
  intros Hmin Hmax. unfold getScaleRange. cbv zeta.
  assert (H : forall key,
             (forall v n, Std.find key props = Some v -> Std.stoi v = Some n -> n <= 0) ->
             (stoi_or_zero (Std.find key props) >? 0) = false).
  { intros key Hk. unfold stoi_or_zero.
    destruct (Std.find key props) as [v|]; [|reflexivity].
    destruct (Std.stoi v) as [n|] eqn:En; [|reflexivity].
    specialize (Hk v n eq_refl En). rewrite Z.gtb_ltb. apply Z.ltb_ge. exact Hk. }
  unfold ZFinder.calculateZRange. cbv zeta.
  rewrite (H "SCAMIN" Hmin), (H "SCAMAX" Hmax). reflexivity.
Qed.

Lemma getScaleRange_default_witness :
  let props := [("SCAMAX", "-5"); ("SCAMIN", "unknown")] in
  (forall v n, Std.find "SCAMIN" props = Some v -> Std.stoi v = Some n -> n <= 0)
  /\ (forall v n, Std.find "SCAMAX" props = Some v -> Std.stoi v = Some n -> n <= 0)
  /\ getScaleRange props = (0, 28).
Proof.
  intros props.
  assert (Hmin : forall v n, Std.find "SCAMIN" props = Some v ->
                             Std.stoi v = Some n -> n <= 0).
  { intros v n Hv Hn. cbn in Hv. injection Hv as <-. cbn in Hn. discriminate. }
  assert (Hmax : forall v n, Std.find "SCAMAX" props = Some v ->
                             Std.stoi v = Some n -> n <= 0).
  { intros v n Hv Hn. cbn in Hv. injection Hv as <-. vm_compute in Hn.
    injection Hn as <-. lia. }
  split; [exact Hmin|]. split; [exact Hmax|].
  exact (getScaleRange_default props Hmin Hmax).
Defined.

(** X7.  The scale of a chart is an [int]; its zoom is 0 when the scale is
    unknown or not positive and 28 minus the ceiling of the binary
    logarithm of the scale otherwise, hence between -3 and 28. *)
Theorem getChartInfo_zoom (s : S57.t) :
  int_range (scale (getChartInfo s))
  /\ (scale (getChartInfo s) <= 0 -> zoom (getChartInfo s) = 0)
  /\ (0 < scale (getChartInfo s) ->
      zoom (getChartInfo s) = 28 - Z.log2_up (scale (getChartInfo s)))
  /\ -3 <= zoom (getChartInfo s) <= 28.
Proof.
  unfold getChartInfo. destruct (isOpen s); cbn [negb].
  - cbn [scale zoom].
    set (sc := stoi_or_zero (Std.find "DSPM_CSCL" (getDsidProperties s))).
    pose proof (stoi_or_zero_int_range (Std.find "DSPM_CSCL" (getDsidProperties s))) as Hr.
    fold sc in Hr.
    pose proof (findZoom_int_bounds sc (proj2 Hr)) as Hb.
    destruct (sc >? 0) eqn:E; rewrite Z.gtb_ltb in E.
    + apply Z.ltb_lt in E. repeat split; try apply Hr; try lia.
      intros _. rewrite findZoom_closed_form. reflexivity.
    + apply Z.ltb_ge in E. repeat split; try apply Hr; try lia.
  - cbn. unfold int_range, INT_MIN, INT_MAX. repeat split; try lia.
Qed.

Lemma getChartInfo_zoom_witness :
  scale (getChartInfo Examples.soundingsChart) = 20000
  /\ 0 < scale (getChartInfo Examples.soundingsChart)
  /\ zoom (getChartInfo Examples.soundingsChart)
     = 28 - Z.log2_up (scale (getChartInfo Examples.soundingsChart))
  /\ zoom (getChartInfo Examples.soundingsChart) = 13
  /\ scale (getChartInfo (S57.mk "/charts/none.000" None)) <= 0
  /\ zoom (getChartInfo (S57.mk "/charts/none.000" None)) = 0.
Proof.
  destruct (getChartInfo_zoom Examples.soundingsChart) as (_ & _ & Hpos & _).
  destruct (getChartInfo_zoom (S57.mk "/charts/none.000" None)) as (_ & Hzero & _ & _).
  assert (Hs : 0 < scale (getChartInfo Examples.soundingsChart)) by (vm_compute; reflexivity).
  assert (Hn : scale (getChartInfo (S57.mk "/charts/none.000" None)) <= 0)
    by (vm_compute; discriminate).
  split; [vm_compute; reflexivity|]. split; [exact Hs|]. split; [exact (Hpos Hs)|].
  split; [vm_compute; reflexivity|]. split; [exact Hn|exact (Hzero Hn)].
Defined.

(** X8.  No feature of [getAllFeatures] is of an excluded layer: each one
    carries the name of a layer the data set lists, which is not on the
    exclusion list, and is among the features [getLayerFeatures] gives
    for that name. *)
Theorem getAllFeatures_layers (s : S57.t) (f : Feature) :
  In f (getAllFeatures s) ->
  isExcludedLayer (layer f) = false
  /\ In (layer f) (getLayerNames s)
  /\ In f (getLayerFeatures s (layer f)).
Proof.
  unfold getAllFeatures. destruct (isOpen s); cbn [negb]; [|intros []].
  rewrite (fold_left_app_flat_map (getLayerFeatures s)
             (fun layerName => negb (isExcludedLayer layerName))).
  cbn [app]. intros Hin. apply in_flat_map in Hin.
  destruct Hin as (layerName & Hname & Hf).
  apply filter_In in Hname. destruct Hname as [Hname Hex].
  pose proof Hf as Hf'. apply getLayerFeatures_In in Hf'.
  destruct Hf' as (ds & l & rec & _ & _ & _ & ->).
  destruct (makeFeature_fields layerName rec) as (-> & _).
  split; [|split; assumption].
  destruct (isExcludedLayer layerName); [discriminate|reflexivity].
Qed.

Lemma getAllFeatures_layers_witness :
  In (makeFeature "SOUNDG" Examples.soundingPoint)
     (getAllFeatures Examples.soundingsChart)
  /\ isExcludedLayer (layer (makeFeature "SOUNDG" Examples.soundingPoint)) = false
  /\ List.map layer (getAllFeatures Examples.soundingsChart) = ["M_COVR"; "SOUNDG"].
Proof.
  assert (Hin : In (makeFeature "SOUNDG" Examples.soundingPoint)
                   (getAllFeatures Examples.soundingsChart))
    by (right; left; reflexivity).
  destruct (getAllFeatures_layers Examples.soundingsChart _ Hin) as (Hex & _ & _).
  split; [exact Hin|]. split; [exact Hex|reflexivity].
Defined.

Lemma fold_left_flat_map {A B W} (g : W -> B -> W) (f : A -> list B)
    (keep : A -> bool) (xs : list A) :
  forall w : W,
    fold_left g (flat_map f (filter keep xs)) w
    = fold_left (fun w x => if keep x then fold_left g (f x) w else w) xs w.
Proof.
  induction xs as [|x xs IH]; intros w; cbn; [reflexivity|].
  destruct (keep x); cbn; [rewrite fold_left_app|]; apply IH.
Qed.

(** X9.  [processFeatures] hands the callback the features of
    [getAllFeatures], each once and in the same order. *)
Theorem processFeatures_getAllFeatures {W : Type} (s : S57.t)
    (callback : Feature -> W -> W) (w : W) :
  processFeatures s callback w
  = fold_left (fun w feat => callback feat w) (getAllFeatures s) w.
Proof.
  unfold processFeatures, getAllFeatures. destruct (isOpen s); cbn [negb]; [|reflexivity].
  rewrite (fold_left_app_flat_map (getLayerFeatures s)
             (fun layerName => negb (isExcludedLayer layerName))).
  cbn [app]. rewrite fold_left_flat_map. reflexivity.
Qed.

End S57More.

(** ** The property codec *)

Section JsonMore.
Import json JsonText.

Lemma list_ascii_of_string_app (a b : string) :
  list_ascii_of_string (a ++ b)
  = (list_ascii_of_string a ++ list_ascii_of_string b)%list.
Proof. induction a as [|c a IH]; cbn; [|rewrite IH]; reflexivity. Qed.

Lemma escapeChar_printable (c : ascii) :
  forallb (fun x => (32 <=? nat_of_ascii x)%nat) (list_ascii_of_string (escapeChar c)) = true.
Proof. destruct c as [[] [] [] [] [] [] [] []]; reflexivity. Qed.

(** X10.  The escaped text holds no character below 0x20, whatever the
    string. *)
Theorem escapeString_no_control (str : string) :
  Forall (fun x => (32 <= nat_of_ascii x)%nat)
         (list_ascii_of_string (escapeString str)).
Proof.
  induction str as [|c str IH]; cbn [escapeString]; [constructor|].
  rewrite list_ascii_of_string_app. apply Forall_app. split; [|exact IH].
  apply Forall_forall. intros x Hx.
  pose proof (escapeChar_printable c) as H.
  rewrite forallb_forall in H. apply Nat.leb_le. apply H. exact Hx.
Qed.

(** Reading what [escapeString] writes for one character. *)
Lemma read_escapeChar (c : ascii) (tail : string) :
  read_string (escapeChar c ++ tail) = push c (read_string tail).
Proof. destruct c as [[] [] [] [] [] [] [] []]; reflexivity. Qed.

Lemma read_escapeString (str : string) (rest : string) :
  read_string (escapeString str ++ dquote ++ rest) = Some (str, rest).
Proof.
  induction str as [|c str IH]; [reflexivity|].
  cbn [escapeString]. rewrite string_app_assoc, read_escapeChar, IH. reflexivity.
Qed.

(** X11.  A JSON reader takes the escaped text, once between quotes, for
    the string it was made from and stops at the closing quote. *)
Theorem escapeString_roundtrip (str rest : string) :
  read_string (escapeString str ++ dquote ++ rest) = Some (str, rest).
Proof. apply read_escapeString. Qed.

Lemma string_length_app (a b : string) :
  String.length (a ++ b) = (String.length a + String.length b)%nat.
Proof. induction a as [|c a IH]; cbn; [|rewrite IH]; reflexivity. Qed.

(** Reading one member and what follows it. *)
Lemma read_members_step (fuel : nat) (kv : string * string) (rest : string) :
  read_members (S fuel) (jsonMember kv ++ rest)
  = match rest with
    | String "," s3 =>
        match read_members fuel s3 with
        | Some (members, r) => Some (kv :: members, r)
        | None => None
        end
    | String "}" s3 => Some ([kv], s3)
    | _ => None
    end.
Proof.
  destruct kv as [k v]. unfold jsonMember. cbn [fst snd].
  rewrite !string_app_assoc.
  change (dquote ++ escapeString k ++ dquote ++ ":" ++ dquote ++ escapeString v
          ++ dquote ++ rest)
    with (String "034" (escapeString k ++ dquote
                        ++ String ":" (String "034" (escapeString v ++ dquote ++ rest)))).
  cbn [read_members]. change (nat_of_ascii "034" =? 34)%nat with true. cbv iota.
  rewrite read_escapeString. cbv iota beta.
  change (nat_of_ascii "034" =? 34)%nat with true. cbv iota.
  rewrite read_escapeString.
  destruct rest as [|c rest]; [reflexivity|].
  destruct c as [[] [] [] [] [] [] [] []]; reflexivity.
Qed.

Lemma read_members_text (props : list (string * string)) :
  forall (kv : string * string) (fuel : nat) (tail : string),
    (List.length props < fuel)%nat ->
    read_members fuel
      (String.concat "," (List.map jsonMember (kv :: props)) ++ String "}" tail)
    = Some (kv :: props, tail).
Proof.
  induction props as [|kv' props IH]; intros kv fuel tail Hfuel;
    (destruct fuel as [|fuel]; [cbn in Hfuel; lia|]).
  - cbn [List.map String.concat]. rewrite read_members_step. reflexivity.
  - change (String.concat "," (List.map jsonMember (kv :: kv' :: props)))
      with (jsonMember kv ++ "," ++ String.concat "," (List.map jsonMember (kv' :: props))).
    rewrite !string_app_assoc, read_members_step.
    cbn [append]. rewrite IH by (cbn in Hfuel; lia). reflexivity.
Qed.

Lemma concat_length_ge (sep : string) (items : list string) :
  Forall (fun x => (1 <= String.length x)%nat) items ->
  (List.length items <= String.length (String.concat sep items))%nat.
Proof.
  induction 1 as [|x items Hx Hitems IH]; [cbn; lia|].
  destruct items as [|y items]; [cbn in *; lia|].
  change (String.concat sep (x :: y :: items))
    with (x ++ sep ++ String.concat sep (y :: items)).
  rewrite !string_length_app. cbn [List.length] in *. lia.
Qed.

(** X12.  A JSON reader takes the text [toJsonObject] writes for the map
    it was written from, entry by entry in the same order: every key and
    value comes back unchanged. *)
Theorem toJsonObject_roundtrip (props : Std.map) :
  read_object (toJsonObject props) = Some props.
Proof.
  unfold toJsonObject. destruct props as [|kv props]; [reflexivity|].
  set (members := String.concat "," (List.map jsonMember (kv :: props))).
  change ("{" ++ members ++ "}") with (String "{" (members ++ String "}" "")).
  cbn [read_object].
  assert (Hlen : (List.length props < String.length (members ++ String "}" ""))%nat).
  { rewrite string_length_app. cbn [String.length].
    pose proof (concat_length_ge "," (List.map jsonMember (kv :: props))) as H.
    rewrite length_map in H. cbn [List.length] in H. fold members in H.
    assert (Hall : Forall (fun x => (1 <= String.length x)%nat)
                          (List.map jsonMember (kv :: props))).
    { apply Forall_forall. intros x Hx. apply in_map_iff in Hx.
      destruct Hx as (kv0 & <- & _). unfold jsonMember, dquote. cbn. lia. }
    specialize (H Hall). lia. }
  pose proof (read_members_text props kv _ "" Hlen) as Hread. fold members in Hread.
  assert (Hq : exists t, members ++ String "}" "" = String "034" t).
  { subst members. destruct props as [|kv' props].
    - cbn [List.map String.concat]. destruct kv as [k v].
      unfold jsonMember, dquote. cbn. eexists. reflexivity.
    - change (String.concat "," (List.map jsonMember (kv :: kv' :: props)))
        with (jsonMember kv ++ "," ++ String.concat "," (List.map jsonMember (kv' :: props))).
      destruct kv as [k v]. unfold jsonMember, dquote. cbn. eexists. reflexivity. }
  destruct Hq as [t Ht]. rewrite Ht in *. cbv beta iota. rewrite Hread. reflexivity.
Qed.

Lemma read_elements_step (fuel : nat) (item rest : string) :
  read_elements (S fuel) (jsonElement item ++ rest)
  = match rest with
    | String "," s2 =>
        match read_elements fuel s2 with
        | Some (items, r) => Some (item :: items, r)
        | None => None
        end
    | String "]" s2 => Some ([item], s2)
    | _ => None
    end.
Proof.
  unfold jsonElement. rewrite !string_app_assoc.
  change (dquote ++ escapeString item ++ dquote ++ rest)
    with (String "034" (escapeString item ++ dquote ++ rest)).
  cbn [read_elements]. change (nat_of_ascii "034" =? 34)%nat with true. cbv iota.
  rewrite read_escapeString.
  destruct rest as [|c rest]; [reflexivity|].
  destruct c as [[] [] [] [] [] [] [] []]; reflexivity.
Qed.

Lemma read_elements_text (items : list string) :
  forall (item : string) (fuel : nat) (tail : string),
    (List.length items < fuel)%nat ->
    read_elements fuel
      (String.concat "," (List.map jsonElement (item :: items)) ++ String "]" tail)
    = Some (item :: items, tail).
Proof.
  induction items as [|item' items IH]; intros item fuel tail Hfuel;
    (destruct fuel as [|fuel]; [cbn in Hfuel; lia|]).
  - cbn [List.map String.concat]. rewrite read_elements_step. reflexivity.
  - change (String.concat "," (List.map jsonElement (item :: item' :: items)))
      with (jsonElement item ++ ","
            ++ String.concat "," (List.map jsonElement (item' :: items))).
    rewrite !string_app_assoc, read_elements_step.
    cbn [append]. rewrite IH by (cbn in Hfuel; lia). reflexivity.
Qed.

(** X13.  A JSON reader takes the text [toJsonArray] writes for the
    vector it was written from. *)
Theorem toJsonArray_roundtrip (items : list string) :
  read_array (toJsonArray items) = Some items.
Proof.
  unfold toJsonArray. destruct items as [|item items]; [reflexivity|].
  set (elements := String.concat "," (List.map jsonElement (item :: items))).
  change ("[" ++ elements ++ "]") with (String "[" (elements ++ String "]" "")).
  cbn [read_array].
  assert (Hlen : (List.length items < String.length (elements ++ String "]" ""))%nat).
  { rewrite string_length_app. cbn [String.length].
    pose proof (concat_length_ge "," (List.map jsonElement (item :: items))) as H.
    rewrite length_map in H. cbn [List.length] in H. fold elements in H.
    assert (Hall : Forall (fun x => (1 <= String.length x)%nat)
                          (List.map jsonElement (item :: items))).
    { apply Forall_forall. intros x Hx. apply in_map_iff in Hx.
      destruct Hx as (x0 & <- & _). unfold jsonElement, dquote. cbn. lia. }
    specialize (H Hall). lia. }
  pose proof (read_elements_text items item _ "" Hlen) as Hread. fold elements in Hread.
  assert (Hq : exists t, elements ++ String "]" "" = String "034" t).
  { subst elements. destruct items as [|item' items].
    - cbn [List.map String.concat]. unfold jsonElement, dquote. cbn.
      eexists. reflexivity.
    - change (String.concat "," (List.map jsonElement (item :: item' :: items)))
        with (jsonElement item ++ ","
              ++ String.concat "," (List.map jsonElement (item' :: items))).
      unfold jsonElement, dquote. cbn. eexists. reflexivity. }
  destruct Hq as [t Ht]. rewrite Ht in *. cbv beta iota. rewrite Hread. reflexivity.
Qed.

End JsonMore.

(** ** The record store *)

Section StoreMore.
Import Database IngestSpec StoreSpec.
Local Open Scope Z_scope.

Lemma hasChartName_app (chartName : string) (chs1 chs2 : list ChartRow)
    (fts : list FeatureRow) :
  hasChartName chartName (mkTables (chs1 ++ chs2) fts)
  = hasChartName chartName (mkTables chs1 fts)
    || hasChartName chartName (mkTables chs2 fts).
Proof. unfold hasChartName. cbn. apply existsb_app. Qed.

(** What [chartExists] does on a live connection. *)
Lemma chartExists_outcome (db : Database.t) (chartName : string) :
  isConnected db = true ->
  fst (chartExists db chartName) = hasChartName chartName (tables db)
  /\ isConnected (snd (chartExists db chartName)) = true
  /\ tables (snd (chartExists db chartName)) = tables db
  /\ charts_id_seq (snd (chartExists db chartName)) = charts_id_seq db
  /\ features_id_seq (snd (chartExists db chartName)) = features_id_seq db.
Proof.
  intros Hconn. unfold chartExists. rewrite Hconn. cbn [negb].
  unfold work, bind, exec_count_charts_by_name.
  destruct db as [conn [chs fts] cseq fseq tr]. cbn in Hconn. subst conn.
  cbn. repeat split. unfold hasChartName. cbn.
  induction chs as [|r chs IH]; [reflexivity|].
  cbn [filter existsb]. destruct (String.eqb (c_name r) chartName); cbn [orb].
  - cbn [List.length]. rewrite Z.gtb_ltb. apply Z.ltb_lt. lia.
  - exact IH.
Qed.

(** What [deleteChart] does on a live connection. *)
Lemma deleteChart_outcome (db : Database.t) (chartName : string) :
  isConnected db = true ->
  fst (deleteChart db chartName) = true
  /\ isConnected (snd (deleteChart db chartName)) = true
  /\ charts_id_seq (snd (deleteChart db chartName)) = charts_id_seq db
  /\ features_id_seq (snd (deleteChart db chartName)) = features_id_seq db
  /\ tables (snd (deleteChart db chartName))
     = match List.map c_id (filter (fun r => String.eqb (c_name r) chartName)
                                  (charts (tables db))) with
       | [] => tables db
       | chartId :: _ =>
           mkTables (filter (fun r => negb (c_id r =? chartId)) (charts (tables db)))
                    (filter (fun r => negb (f_chart_id r =? chartId))
                            (Database.features (tables db)))
       end.
Proof.
  intros Hconn. destruct db as [conn [chs fts] cseq fseq tr].
  cbn in Hconn. subst conn.
  unfold deleteChart, work, bind, exec_select_chart_id. cbn.
  destruct (List.map c_id (filter (fun r => String.eqb (c_name r) chartName) chs))
    as [|id ids]; cbn; [repeat split|].
  unfold exec_delete_chart. cbn.
  rewrite no_reference_after_delete, andb_false_r. cbn. repeat split.
Qed.

Lemma NoDup_map_filter {A B} (f : A -> B) (p : A -> bool) (l : list A) :
  NoDup (List.map f l) -> NoDup (List.map f (filter p l)).
Proof.
  induction l as [|x l IH]; cbn; [auto|].
  intros H. inversion H as [|y ys Hnin Hnd]; subst.
  destruct (p x); cbn; [constructor|]; auto.
  intros Hin. apply Hnin. apply in_map_iff in Hin. destruct Hin as (z & Hz & Hin).
  apply filter_In in Hin. apply in_map_iff. exists z. tauto.
Qed.

Lemma hasChartId_In (chartId : Z) (tb : Tables) :
  hasChartId chartId tb = true <-> In chartId (List.map c_id (charts tb)).
Proof.
  unfold hasChartId. rewrite existsb_exists, in_map_iff. split.
  - intros (r & Hin & E). apply Z.eqb_eq in E. exists r. tauto.
  - intros (r & E & Hin). exists r. split; [exact Hin|]. apply Z.eqb_eq. exact E.
Qed.

Lemma hasChartName_In (chartName : string) (tb : Tables) :
  hasChartName chartName tb = true <-> In chartName (List.map c_name (charts tb)).
Proof.
  unfold hasChartName. rewrite existsb_exists, in_map_iff. split.
  - intros (r & Hin & E). apply String.eqb_eq in E. exists r. tauto.
  - intros (r & E & Hin). exists r. split; [exact Hin|]. apply String.eqb_eq. exact E.
Qed.

(** Consistency looks at the tables and the two sequences only; a
    sequence may run ahead. *)
Lemma consistent_same_tables (db db' : Database.t) :
  tables db' = tables db ->
  charts_id_seq db <= charts_id_seq db' ->
  features_id_seq db <= features_id_seq db' ->
  consistent db -> consistent db'.
Proof.
  intros Et Hc Hf (H1 & H2 & H3 & H4 & H5 & H6). unfold consistent. rewrite Et.
  repeat split; auto.
  - eapply Forall_impl; [|exact H3]. cbn. intros r Hr. lia.
  - eapply Forall_impl; [|exact H5]. cbn. intros r Hr. lia.
Qed.

Lemma featureRows_ids (chartId : Z) (fs : list Feature) :
  forall next : Z,
    Forall (fun r => next <= f_id r < next + Z.of_nat (List.length fs)
                     /\ f_chart_id r = chartId)
           (featureRows chartId next fs)
    /\ NoDup (List.map f_id (featureRows chartId next fs)).
Proof.
  induction fs as [|f fs IH]; intros next; cbn [featureRows List.map List.length].
  - split; constructor.
  - destruct (IH (next + 1)) as [Hall Hnd]. split.
    + constructor; [cbn; lia|].
      eapply Forall_impl; [|exact Hall]. cbn. intros r Hr. lia.
    + constructor; [|exact Hnd]. cbn [f_id featureRow].
      intros Hin. apply in_map_iff in Hin. destruct Hin as (r & Er & Hr).
      apply (proj1 (Forall_forall _ _) Hall) in Hr. lia.
Qed.

Lemma consistent_deleteChart (db : Database.t) (chartName : string) :
  consistent db -> consistent (snd (deleteChart db chartName)).
Proof.
  intros Hc. destruct (isConnected db) eqn:Hconn.
  2:{ unfold deleteChart. rewrite Hconn. exact Hc. }
  destruct (deleteChart_outcome db chartName Hconn) as (_ & _ & Hs & Hf & Ht).
  destruct (List.map c_id (filter (fun r => String.eqb (c_name r) chartName)
                                  (charts (tables db)))) as [|chartId ids].
  { apply (consistent_same_tables db); auto; lia. }
  destruct Hc as (C1 & C2 & C3 & C4 & C5 & C6).
  unfold consistent. rewrite Ht, Hs, Hf. cbn [charts Database.features].
  split; [apply NoDup_map_filter; exact C1|].
  split; [apply NoDup_map_filter; exact C2|].
  split; [|split; [apply NoDup_map_filter; exact C4|split]].
  - apply Forall_forall. intros r Hr. apply filter_In in Hr.
    apply (proj1 (Forall_forall _ _) C3). tauto.
  - apply Forall_forall. intros r Hr. apply filter_In in Hr.
    apply (proj1 (Forall_forall _ _) C5). tauto.
  - apply Forall_forall. intros r Hr. apply filter_In in Hr. destruct Hr as [Hr Hne].
    apply (proj1 (Forall_forall _ _) C6) in Hr.
    apply hasChartId_In in Hr. apply in_map_iff in Hr. destruct Hr as (c & Ec & Hin).
    apply hasChartId_In. cbn. apply in_map_iff. exists c. split; [exact Ec|].
    apply filter_In. split; [exact Hin|]. rewrite Ec. exact Hne.
Qed.

Lemma consistent_chartExists (db : Database.t) (chartName : string) :
  consistent db -> consistent (snd (chartExists db chartName)).
Proof.
  intros Hc. destruct (isConnected db) eqn:Hconn.
  2:{ unfold chartExists. rewrite Hconn. exact Hc. }
  destruct (chartExists_outcome db chartName Hconn) as (_ & _ & Ht & Hs & Hf).
  apply (consistent_same_tables db); auto; lia.
Qed.

Lemma NoDup_map_inj {A B} (f : A -> B) (l : list A) (x y : A) :
  NoDup (List.map f l) -> In x l -> In y l -> f x = f y -> x = y.
Proof.
  induction l as [|a l IH]; cbn; [intros _ []|].
  intros H. inversion H as [|b bs Hnin Hnd]; subst.
  intros [<-|Hx] [<-|Hy] E; auto.
  - exfalso. apply Hnin. rewrite E. apply in_map. exact Hy.
  - exfalso. apply Hnin. rewrite <- E. apply in_map. exact Hx.
Qed.

Lemma filter_all {A} (p : A -> bool) (l : list A) :
  (forall x, In x l -> p x = true) -> filter p l = l.
Proof.
  induction l as [|a l IH]; cbn; [reflexivity|]. intros H.
  rewrite (H a (or_introl eq_refl)), IH; [reflexivity|]. intros x Hx. apply H. right. exact Hx.
Qed.

(** In a consistent store [deleteChart] removes the charts of the name
    and the features that reference one of them, nothing else. *)
Lemma deleteChart_by_name (db : Database.t) (chartName : string) :
  consistent db ->
  isConnected db = true ->
  tables (snd (deleteChart db chartName))
  = mkTables
      (filter (fun r => negb (String.eqb (c_name r) chartName)) (charts (tables db)))
      (filter (fun f => negb (existsb (fun r => String.eqb (c_name r) chartName
                                               && (c_id r =? f_chart_id f))
                                      (charts (tables db))))
              (Database.features (tables db))).
Proof.
  intros (C1 & C2 & _) Hconn.
  destruct (deleteChart_outcome db chartName Hconn) as (_ & _ & _ & _ & Ht).
  rewrite Ht. clear Ht.
  destruct (tables db) as [chs fts]. cbn [charts Database.features] in *.
  destruct (filter (fun r => String.eqb (c_name r) chartName) chs) as [|r0 rs] eqn:Ef.
  - cbn [List.map].
    assert (Hno : forall r, In r chs -> String.eqb (c_name r) chartName = false).
    { intros r Hr. destruct (String.eqb (c_name r) chartName) eqn:E; [|reflexivity].
      assert (Hin : In r (filter (fun r => String.eqb (c_name r) chartName) chs))
        by (apply filter_In; tauto).
      rewrite Ef in Hin. destruct Hin. }
    f_equal.
    + symmetry. apply filter_all. intros r Hr. rewrite (Hno r Hr). reflexivity.
    + symmetry. apply filter_all. intros f _. apply negb_true_iff.
      apply not_true_is_false. intros He. apply existsb_exists in He.
      destruct He as (r & Hr & E). rewrite (Hno r Hr) in E. discriminate.
  - cbn [List.map].
    assert (H0 : In r0 chs /\ c_name r0 = chartName).
    { assert (Hin : In r0 (filter (fun r => String.eqb (c_name r) chartName) chs))
        by (rewrite Ef; left; reflexivity).
      apply filter_In in Hin. destruct Hin as [Hin E].
      apply String.eqb_eq in E. tauto. }
    destruct H0 as [Hin0 Hname0].
    assert (Hiff : forall r, In r chs ->
                             (c_id r =? c_id r0) = String.eqb (c_name r) chartName).
    { intros r Hr. destruct (c_id r =? c_id r0) eqn:Ei;
        destruct (String.eqb (c_name r) chartName) eqn:En; try reflexivity.
      - apply Z.eqb_eq in Ei.
        rewrite (NoDup_map_inj c_id chs r r0 C2 Hr Hin0 Ei), Hname0, String.eqb_refl in En.
        discriminate.
      - apply String.eqb_eq in En.
        assert (E : c_name r = c_name r0) by congruence.
        rewrite (NoDup_map_inj c_name chs r r0 C1 Hr Hin0 E), Z.eqb_refl in Ei.
        discriminate. }
    f_equal.
    + apply filter_ext_in. intros r Hr. rewrite (Hiff r Hr). reflexivity.
    + apply filter_ext. intros f. f_equal.
      destruct (f_chart_id f =? c_id r0) eqn:Ef0.
      * symmetry. apply existsb_exists. exists r0. split; [exact Hin0|].
        rewrite Hname0, String.eqb_refl. cbn [andb]. rewrite Z.eqb_sym. exact Ef0.
      * symmetry. apply not_true_is_false. intros He. apply existsb_exists in He.
        destruct He as (r & Hr & E). apply andb_prop in E. destruct E as [En Ei].
        rewrite <- (Hiff r Hr) in En. apply Z.eqb_eq in En, Ei.
        rewrite <- Ei, En, Z.eqb_refl in Ef0. discriminate.
Qed.

(** X14.  In a consistent store, on a live connection, [deleteChart]
    removes the chart of the name with the features that reference it and
    leaves every other chart and feature in place: [chartExists] answers
    [false] afterwards, and deleting again changes no table. *)
Theorem deleteChart_removes (db : Database.t) (chartName : string) :
  consistent db ->
  isConnected db = true ->
  let db' := snd (deleteChart db chartName) in
  charts (tables db')
  = filter (fun r => negb (String.eqb (c_name r) chartName)) (charts (tables db))
  /\ Database.features (tables db')
     = filter (fun f => negb (existsb (fun r => String.eqb (c_name r) chartName
                                              && (c_id r =? f_chart_id f))
                                     (charts (tables db))))
              (Database.features (tables db))
  /\ fst (chartExists db' chartName) = false
  /\ tables (snd (deleteChart db' chartName)) = tables db'.
Proof.
  intros Hc Hconn db'.
  pose proof (deleteChart_by_name db chartName Hc Hconn) as Ht. fold db' in Ht.
  destruct (deleteChart_outcome db chartName Hconn) as (_ & Hconn' & _).
  fold db' in Hconn'.
  assert (Hno : hasChartName chartName (tables db') = false).
  { rewrite Ht. unfold hasChartName. cbn [charts].
    apply not_true_is_false. intros He. apply existsb_exists in He.
    destruct He as (r & Hr & E). apply filter_In in Hr. destruct Hr as [_ Hr].
    rewrite E in Hr. discriminate. }
  split; [rewrite Ht; reflexivity|]. split; [rewrite Ht; reflexivity|]. split.
  - destruct (chartExists_outcome db' chartName Hconn') as (E & _).
    rewrite E. exact Hno.
  - destruct (deleteChart_outcome db' chartName Hconn') as (_ & _ & _ & _ & E).
    rewrite E, (hasChartName_false_filter chartName (tables db') Hno). reflexivity.
Qed.

End StoreMore.

Section DatabaseMore.
Import Database IngestSpec StoreSpec.
Local Open Scope Z_scope.

Variable ST_GeomFromGeoJSON_ok : string -> bool.
Variable jsonb_ok : string -> bool.

Local Abbreviation acceptable := (IngestSpec.acceptable ST_GeomFromGeoJSON_ok jsonb_ok).
Local Abbreviation insertChart := (Database.insertChart ST_GeomFromGeoJSON_ok jsonb_ok).
Local Abbreviation insertFeature := (Database.insertFeature ST_GeomFromGeoJSON_ok jsonb_ok).
Local Abbreviation insertFeatures := (Database.insertFeatures ST_GeomFromGeoJSON_ok jsonb_ok).
Local Abbreviation insertOne := (Database.insertOne ST_GeomFromGeoJSON_ok jsonb_ok).

(** X15.  On a closed connection every method reports failure (no
    identifier, [false], a count of 0) and nothing crosses the connection:
    the data base is as before. *)
Theorem closed_connection (db : Database.t) :
  isConnected db = false ->
  (forall chart, insertChart db chart = (None, db))
  /\ (forall chartId feature, insertFeature db chartId feature = (false, db))
  /\ (forall chartId batch, insertFeatures db chartId batch = (false, db))
  /\ (forall chartName, chartExists db chartName = (false, db))
  /\ (forall chartName, deleteChart db chartName = (false, db))
  /\ getChartCount db = (0, db)
  /\ getFeatureCount db = (0, db).
Proof.
  intros H.
  unfold Database.insertChart, Database.insertFeature, Database.insertFeatures,
    chartExists, deleteChart, getChartCount, getFeatureCount.
  rewrite H. cbn [negb]. repeat split.
Qed.

Lemma insert_feature_ok_eq (tb : Tables) (chartId : Z) (f : Feature) :
  insert_feature_ok ST_GeomFromGeoJSON_ok jsonb_ok tb
    (lnamRefsToArrayLiteral (lnamRefs f)) chartId f
  = acceptable f && hasChartId chartId tb.
Proof.
  unfold insert_feature_ok, IngestSpec.acceptable.
  rewrite eval_lnamRefsToArrayLiteral, andb_true_r.
  destruct (ST_GeomFromGeoJSON_ok _), (jsonb_ok _), (hasChartId _ _), (_ <=? _);
    reflexivity.
Qed.

(** The statements of a batch inside one transaction, whatever the
    batch. *)
Lemma for_each_insert_outcome (chartId : Z) (batch : list Feature) :
  forall db : Database.t,
  exists db' : Database.t,
    for_each batch (insertOne chartId) db
    = ((if forallb (fun f => acceptable f && hasChartId chartId (tables db)) batch
        then Some tt else None), db')
    /\ connected db' = connected db
    /\ charts (tables db') = charts (tables db)
    /\ charts_id_seq db' = charts_id_seq db
    /\ features_id_seq db <= features_id_seq db'
    /\ (forallb (fun f => acceptable f && hasChartId chartId (tables db)) batch = true ->
        Database.features (tables db')
        = (Database.features (tables db)
           ++ featureRows chartId (features_id_seq db) batch)%list
        /\ features_id_seq db'
           = features_id_seq db + Z.of_nat (List.length batch)).
Proof.
  induction batch as [|f batch IH]; intros db.
  - exists db. cbn. rewrite app_nil_r, Z.add_0_r.
    split; [reflexivity|]. split; [reflexivity|]. split; [reflexivity|].
    split; [reflexivity|]. split; [lia|]. intros _. split; reflexivity.
  - cbn [for_each forallb]. unfold bind at 1.
    unfold Database.insertOne at 1, exec_insert_feature.
    cbn [tables]. rewrite insert_feature_ok_eq.
    destruct (acceptable f && hasChartId chartId (tables db)) eqn:Hf.
    + rewrite eval_lnamRefsToArrayLiteral.
      match goal with |- context [for_each _ _ ?d] =>
        destruct (IH d) as (db' & E & H1 & H2 & H3 & H4 & H5) end.
      destruct db as [conn [chs fts] cseq fseq tr].
      cbn [log connected tables charts Database.features charts_id_seq
             features_id_seq trace hasChartId] in *.
      exists db'. rewrite E. cbn [andb].
      split; [reflexivity|]. split; [exact H1|]. split; [exact H2|].
      split; [exact H3|]. split; [lia|]. intros Hall.
      destruct (H5 Hall) as [H6 H7]. split.
      * rewrite H6, <- app_assoc. reflexivity.
      * rewrite H7. cbn [List.length]. lia.
    + eexists. split; [reflexivity|].
      destruct db as [conn [chs fts] cseq fseq tr]. cbn.
      split; [reflexivity|]. split; [reflexivity|]. split; [reflexivity|].
      split; [lia|]. discriminate.
Qed.

(** X16.  A batch is all or nothing.  On a live connection
    [insertFeatures] returns [true] exactly when the batch is empty or the
    chart exists and the engine accepts every feature, and then the rows
    of all its features are added in order; otherwise it returns [false]
    and the tables are as before.  The charts are never touched. *)
Theorem insertFeatures_atomic (db : Database.t) (chartId : Z) (batch : list Feature) :
  isConnected db = true ->
  let ok :=
    match batch with
    | [] => true
    | _ :: _ => hasChartId chartId (tables db) && forallb acceptable batch
    end in
  let db' := snd (insertFeatures db chartId batch) in
  fst (insertFeatures db chartId batch) = ok
  /\ isConnected db' = true
  /\ charts (tables db') = charts (tables db)
  /\ charts_id_seq db' = charts_id_seq db
  /\ features_id_seq db <= features_id_seq db'
  /\ Database.features (tables db')
     = if ok
       then (Database.features (tables db)
             ++ featureRows chartId (features_id_seq db) batch)%list
       else Database.features (tables db).
Proof.
  intros Hconn ok db'. subst ok db'. unfold Database.insertFeatures.
  rewrite Hconn. cbn [negb].
  destruct batch as [|f batch].
  { cbn. rewrite app_nil_r. repeat split; auto. lia. }
  set (b := f :: batch).
  assert (Eok : forallb (fun x => acceptable x && hasChartId chartId (tables db)) b
                = hasChartId chartId (tables db) && forallb acceptable b).
  { destruct (hasChartId chartId (tables db)).
    - cbn [andb]. clearbody b. induction b as [|x b IH]; cbn; [reflexivity|].
      rewrite IH, andb_true_r. reflexivity.
    - subst b. cbn [forallb andb]. rewrite andb_false_r. reflexivity. }
  unfold work, bind.
  destruct (for_each_insert_outcome chartId b (log Begin db))
    as (db1 & E & H1 & H2 & H3 & H4 & H5).
  rewrite E. clear E.
  destruct db as [conn [chs fts] cseq fseq tr]. cbn in Hconn. subst conn.
  cbn [log connected tables charts Database.features charts_id_seq
         features_id_seq trace isConnected] in *.
  rewrite Eok in *.
  destruct (hasChartId chartId (mkTables chs fts) && forallb acceptable b).
  - destruct (H5 eq_refl) as [H6 H7].
    destruct db1 as [conn1 [chs1 fts1] cseq1 fseq1 tr1]. cbn in *. subst.
    repeat split. lia.
  - destruct db1 as [conn1 [chs1 fts1] cseq1 fseq1 tr1]. cbn in *. subst.
    repeat split. exact H4.
Qed.

Lemma insertFeature_as_batch (db : Database.t) (chartId : Z) (feature : Feature) :
  insertFeature db chartId feature = insertFeatures db chartId [feature].
Proof.
  unfold Database.insertFeature, Database.insertFeatures.
  destruct (isConnected db); cbn [negb]; [|reflexivity].
  unfold work, bind. cbn [for_each]. unfold bind, ret.
  destruct (insertOne chartId feature (log Begin db)) as [[u|] db1]; reflexivity.
Qed.

(** X17.  [insertFeature] does for one feature what [insertFeatures] does
    for the batch of that feature alone: same result, same rows, same
    statements. *)
Theorem insertFeature_singleton (db : Database.t) (chartId : Z) (feature : Feature) :
  insertFeature db chartId feature = insertFeatures db chartId [feature].
Proof.
  exact (insertFeature_as_batch db chartId feature).
Qed.

(** What [insertChart] does on a live connection. *)
Lemma insertChart_outcome (db : Database.t) (chart : ChartInfo) :
  isConnected db = true ->
  let ok :=
    negb (hasChartName (name chart) (tables db))
    && ST_GeomFromGeoJSON_ok (covrGeoJson chart)
    && jsonb_ok (dsidProps chart) && jsonb_ok (chartTxt chart) in
  fst (insertChart db chart) = (if ok then Some (charts_id_seq db) else None)
  /\ isConnected (snd (insertChart db chart)) = true
  /\ features_id_seq (snd (insertChart db chart)) = features_id_seq db
  /\ charts_id_seq (snd (insertChart db chart))
     = (if ok then charts_id_seq db + 1 else charts_id_seq db)
  /\ tables (snd (insertChart db chart))
     = (if ok
        then mkTables (charts (tables db) ++ [chartRow (charts_id_seq db) chart])%list
                      (Database.features (tables db))
        else tables db).
Proof.
  intros Hconn ok. subst ok. unfold Database.insertChart. rewrite Hconn. cbn [negb].
  unfold work, bind, exec_insert_chart.
  destruct db as [conn [chs fts] cseq fseq tr]. cbn in Hconn. subst conn.
  cbn [tables log connected charts Database.features charts_id_seq features_id_seq trace].
  destruct (negb (hasChartName (name chart) _) && _ && _ && _); cbn; repeat split.
Qed.

(** X18.  On a live connection [insertChart] succeeds exactly when no
    chart holds the name and the three payloads parse.  It then returns
    the next value of the sequence, appends the row of the chart and
    [chartExists] answers [true] for the name afterwards; otherwise it
    returns nothing and the tables are as before.  The features are never
    touched. *)
Theorem insertChart_spec (db : Database.t) (chart : ChartInfo) :
  isConnected db = true ->
  let ok :=
    negb (hasChartName (name chart) (tables db))
    && ST_GeomFromGeoJSON_ok (covrGeoJson chart)
    && jsonb_ok (dsidProps chart) && jsonb_ok (chartTxt chart) in
  let db' := snd (insertChart db chart) in
  fst (insertChart db chart) = (if ok then Some (charts_id_seq db) else None)
  /\ Database.features (tables db') = Database.features (tables db)
  /\ charts (tables db')
     = (if ok then (charts (tables db) ++ [chartRow (charts_id_seq db) chart])%list
        else charts (tables db))
  /\ (ok = true -> fst (chartExists db' (name chart)) = true).
Proof.
  intros Hconn ok db'.
  destruct (insertChart_outcome db chart Hconn) as (H1 & H2 & _ & _ & H5).
  cbv zeta in H1, H5. fold ok in H1, H5. fold db' in H2, H5.
  split; [exact H1|]. rewrite H5.
  split; [destruct ok; reflexivity|]. split; [destruct ok; reflexivity|].
  intros Hok. destruct (chartExists_outcome db' (name chart) H2) as (E & _).
  rewrite E, H5, Hok, hasChartName_app.
  apply orb_true_iff. right. unfold hasChartName. cbn. rewrite String.eqb_refl. reflexivity.
Qed.

Lemma consistent_insertChart (db : Database.t) (chart : ChartInfo) :
  consistent db -> consistent (snd (insertChart db chart)).
Proof.
  intros Hc. destruct (isConnected db) eqn:Hconn.
  2:{ unfold Database.insertChart. rewrite Hconn. exact Hc. }
  destruct (insertChart_outcome db chart Hconn) as (_ & _ & Hf & Hs & Ht).
  cbv zeta in Hs, Ht.
  destruct (negb (hasChartName (name chart) (tables db)) && _ && _ && _) eqn:Hok.
  2:{ apply (consistent_same_tables db); auto; lia. }
  destruct Hc as (H1 & H2 & H3 & H4 & H5 & H6).
  apply andb_prop in Hok. destruct Hok as [Hok _].
  apply andb_prop in Hok. destruct Hok as [Hok _].
  apply andb_prop in Hok. destruct Hok as [Hname _].
  apply negb_true_iff in Hname.
  unfold consistent. rewrite Ht, Hs, Hf. cbn [charts Database.features].
  rewrite !map_app. cbn [List.map chartRow c_id c_name].
  split; [|split; [|split; [|split; [|split]]]].
  - apply NoDup_app; [exact H1|repeat constructor; intros []|].
    intros a Ha [<-|[]].
    apply hasChartName_In in Ha. congruence.
  - apply NoDup_app; [exact H2|repeat constructor; intros []|].
    intros a Ha [<-|[]].
    apply in_map_iff in Ha. destruct Ha as (r & Er & Hr).
    apply (proj1 (Forall_forall _ _) H3) in Hr. lia.
  - apply Forall_app. split.
    + eapply Forall_impl; [|exact H3]. cbn. intros r Hr. lia.
    + repeat constructor. cbn. lia.
  - exact H4.
  - exact H5.
  - eapply Forall_impl; [|exact H6]. intros r Hr. cbv beta in Hr |- *.
    apply hasChartId_In. cbn [charts]. rewrite map_app. apply in_or_app. left.
    apply hasChartId_In in Hr. exact Hr.
Qed.

Lemma consistent_insertFeatures (db : Database.t) (chartId : Z) (batch : list Feature) :
  consistent db -> consistent (snd (insertFeatures db chartId batch)).
Proof.
  intros Hc. destruct (isConnected db) eqn:Hconn.
  2:{ unfold Database.insertFeatures. rewrite Hconn. exact Hc. }
  destruct batch as [|f batch].
  { unfold Database.insertFeatures. rewrite Hconn. exact Hc. }
  pose proof (for_each_insert_outcome chartId (f :: batch) (log Begin db)) as Hout.
  unfold Database.insertFeatures. rewrite Hconn. cbn [negb]. unfold work, bind.
  destruct Hout as (db1 & E & H1 & H2 & H3 & H4 & H5). rewrite E. clear E.
  destruct (forallb _ (f :: batch)) eqn:Hall.
  - destruct (H5 eq_refl) as [H6 H7].
    assert (Hid : hasChartId chartId (tables db) = true).
    { cbn [forallb] in Hall. apply andb_prop in Hall. destruct Hall as [Hall _].
      apply andb_prop in Hall. destruct Hall as [_ Hall].
      destruct db as [conn [chs fts] cseq fseq tr]. exact Hall. }
    destruct Hc as (C1 & C2 & C3 & C4 & C5 & C6).
    destruct (featureRows_ids chartId (f :: batch) (features_id_seq db)) as [Hids Hnd].
    destruct db as [conn [chs fts] cseq fseq tr].
    destruct db1 as [conn1 [chs1 fts1] cseq1 fseq1 tr1].
    cbn [log commit connected tables charts Database.features charts_id_seq
           features_id_seq trace snd] in *. subst.
    unfold consistent.
    cbn [log commit connected tables charts Database.features charts_id_seq
           features_id_seq trace snd].
    rewrite map_app.
    split; [exact C1|]. split; [exact C2|]. split; [exact C3|].
    split; [|split].
    + apply NoDup_app; [exact C4|exact Hnd|].
      intros a Ha Hb. apply in_map_iff in Ha. destruct Ha as (r & <- & Hr).
      apply (proj1 (Forall_forall _ _) C5) in Hr.
      apply in_map_iff in Hb. destruct Hb as (r' & Er & Hr').
      apply (proj1 (Forall_forall _ _) Hids) in Hr'. lia.
    + apply Forall_app. split.
      * eapply Forall_impl; [|exact C5]. cbn. intros r Hr. lia.
      * eapply Forall_impl; [|exact Hids]. cbn. intros r Hr. lia.
    + apply Forall_app. split.
      * eapply Forall_impl; [|exact C6]. intros r Hr. cbv beta in Hr |- *.
        apply hasChartId_In. apply hasChartId_In in Hr. exact Hr.
      * eapply Forall_impl; [|exact Hids]. intros r [_ Hr]. cbv beta. rewrite Hr.
        apply hasChartId_In. apply hasChartId_In in Hid. exact Hid.
  - destruct db as [conn [chs fts] cseq fseq tr].
    destruct db1 as [conn1 [chs1 fts1] cseq1 fseq1 tr1].
    cbn [log commit set_tables connected tables charts Database.features
           charts_id_seq features_id_seq trace snd] in *.
    eapply consistent_same_tables; [| | |exact Hc]; cbn; [reflexivity|lia|lia].
Qed.

(** X19.  The constraints of the schema survive every write: a store
    with unique chart names, unique keys below their sequences and no
    feature without its chart is such a store again after [insertChart],
    [insertFeature], [insertFeatures], [deleteChart] and [chartExists],
    whatever they return. *)
Theorem store_stays_consistent (db : Database.t) :
  consistent db ->
  (forall chart, consistent (snd (insertChart db chart)))
  /\ (forall chartId feature, consistent (snd (insertFeature db chartId feature)))
  /\ (forall chartId batch, consistent (snd (insertFeatures db chartId batch)))
  /\ (forall chartName, consistent (snd (deleteChart db chartName)))
  /\ (forall chartName, consistent (snd (chartExists db chartName))).
Proof.
  intros Hc. split; [|split; [|split; [|split]]].
  - intros chart. apply consistent_insertChart. exact Hc.
  - intros chartId feature. rewrite insertFeature_as_batch.
    apply consistent_insertFeatures. exact Hc.
  - intros chartId batch. apply consistent_insertFeatures. exact Hc.
  - intros chartName. apply consistent_deleteChart. exact Hc.
  - intros chartName. apply consistent_chartExists. exact Hc.
Qed.

End DatabaseMore.

(** ** The ingest coordinator *)

Section IngestMore.
Import Database IngestSpec StoreSpec.
Local Open Scope Z_scope.

Variable GDALOpenEx : string -> option OGR.GDALDataset.
Variable ST_GeomFromGeoJSON_ok : string -> bool.
Variable jsonb_ok : string -> bool.

Local Abbreviation acceptable := (IngestSpec.acceptable ST_GeomFromGeoJSON_ok jsonb_ok).
Local Abbreviation insertChart := (Database.insertChart ST_GeomFromGeoJSON_ok jsonb_ok).
Local Abbreviation insertFeatures := (Database.insertFeatures ST_GeomFromGeoJSON_ok jsonb_ok).
Local Abbreviation insertBatches := (ChartIngest.insertBatches ST_GeomFromGeoJSON_ok jsonb_ok).
Local Abbreviation processFile :=
  (ChartIngest.processFile GDALOpenEx ST_GeomFromGeoJSON_ok jsonb_ok).

Lemma processFile_open_failure_eq (db : Database.t) (filePath : string) :
  GDALOpenEx filePath = None ->
  processFile db filePath
  = (mkProcessingResult false (Std.path_filename filePath) "" 0 "Failed to open file",
     db).
Proof.
  intros H. unfold ChartIngest.processFile, S57.open. rewrite H. reflexivity.
Qed.

(** X20.  Whatever the file and the store, the result of [processFile]
    carries the file name of the path and one of four messages: none, on
    success and only then; [Failed to open file], when the reader cannot
    open the file and only then, with no chart name, no feature and the
    store as before; [Failed to insert chart], with no feature; or
    [Failed to insert features]. *)
Theorem processFile_result (db : Database.t) (filePath : string) :
  let result := fst (processFile db filePath) in
  resultFileName result = Std.path_filename filePath
  /\ (GDALOpenEx filePath = None <-> errorMessage result = "Failed to open file")
  /\ (success result = true <-> errorMessage result = "")
  /\ ((success result = true /\ errorMessage result = "")
      \/ (success result = false /\ errorMessage result = "Failed to open file"
          /\ featureCount result = 0 /\ chartName result = ""
          /\ GDALOpenEx filePath = None
          /\ snd (processFile db filePath) = db)
      \/ (success result = false /\ errorMessage result = "Failed to insert chart"
          /\ featureCount result = 0)
      \/ (success result = false /\ errorMessage result = "Failed to insert features")).
Proof.
  unfold ChartIngest.processFile, S57.open.
  destruct (GDALOpenEx filePath) as [ds|] eqn:Hopen; cbn [S57.isOpen S57.dataset_ negb].
  2:{ cbn. split; [reflexivity|]. split; [split; reflexivity|].
      split; [split; discriminate|]. right. left. repeat split. }
  set (s57 := S57.mk filePath (Some ds)).
  destruct (chartExists db (name (S57.getChartInfo s57))) as [ex db1].
  destruct (insertChart _ (S57.getChartInfo s57)) as [[chartId|] db3].
  2:{ cbn. split; [reflexivity|]. split; [split; discriminate|].
      split; [split; discriminate|]. right. right. left. repeat split. }
  destruct (insertBatches db3 chartId (S57.getAllFeatures s57) 0) as [[|] db4]; cbn.
  - split; [reflexivity|]. split; [split; discriminate|].
    split; [split; reflexivity|]. left. split; reflexivity.
  - split; [reflexivity|]. split; [split; discriminate|].
    split; [split; discriminate|]. right. right. right. split; reflexivity.
Qed.

Lemma consistent_insertBatches (chartId : Z) (features : list Feature) (d : nat) :
  forall (db : Database.t) (i : nat),
    (List.length features - i <= d)%nat ->
    consistent db ->
    consistent (snd (insertBatches db chartId features i)).
Proof.
  induction d as [|d IH]; intros db i Hd Hc; rewrite insertBatches_unfold;
    destruct (lt_dec i (List.length features)) as [Hi|Hi]; try exact Hc.
  - lia.
  - pose proof (consistent_insertFeatures ST_GeomFromGeoJSON_ok jsonb_ok db chartId
                  (ChartIngest.slice features i
                     (Nat.min (i + ChartIngest.batchSize) (List.length features))) Hc)
      as Hc1.
    destruct (insertFeatures db chartId _) as [[|] db1]; cbn [snd] in *; [|exact Hc1].
    apply IH; [unfold ChartIngest.batchSize; lia|exact Hc1].
Qed.

(** X21.  [processFile] keeps the store consistent, whatever the file
    and however it ends. *)
Theorem processFile_consistent (db : Database.t) (filePath : string) :
  consistent db -> consistent (snd (processFile db filePath)).
Proof.
  intros Hc. unfold ChartIngest.processFile, S57.open.
  destruct (GDALOpenEx filePath) as [ds|]; cbn [S57.isOpen S57.dataset_ negb];
    [|exact Hc].
  set (s57 := S57.mk filePath (Some ds)).
  pose proof (consistent_chartExists db (name (S57.getChartInfo s57)) Hc) as Hc1.
  destruct (chartExists db (name (S57.getChartInfo s57))) as [ex db1]. cbn [snd] in Hc1.
  assert (Hc2 : consistent (if ex then snd (deleteChart db1 (name (S57.getChartInfo s57)))
                            else db1)).
  { destruct ex; [apply consistent_deleteChart|]; exact Hc1. }
  pose proof (consistent_insertChart ST_GeomFromGeoJSON_ok jsonb_ok _
                (S57.getChartInfo s57) Hc2) as Hc3.
  destruct (insertChart _ (S57.getChartInfo s57)) as [[chartId|] db3]; cbn [snd] in *;
    [|exact Hc3].
  pose proof (consistent_insertBatches chartId (S57.getAllFeatures s57) _ db3 0%nat
                (Nat.le_refl _) Hc3) as Hc4.
  destruct (insertBatches db3 chartId (S57.getAllFeatures s57) 0) as [[|] db4];
    exact Hc4.
Qed.

(** The store before the chart is inserted: no chart of the name. *)
Lemma beforeInsertChart_outcome (db : Database.t) (chartName : string) :
  consistent db ->
  isConnected db = true ->
  isConnected (beforeInsertChart db chartName) = true
  /\ charts_id_seq (beforeInsertChart db chartName) = charts_id_seq db
  /\ features_id_seq (beforeInsertChart db chartName) = features_id_seq db
  /\ hasChartName chartName (tables (beforeInsertChart db chartName)) = false
  /\ tables (beforeInsertChart db chartName)
     = mkTables
         (filter (fun r => negb (String.eqb (c_name r) chartName)) (charts (tables db)))
         (filter (fun f => negb (existsb (fun r => String.eqb (c_name r) chartName
                                                  && (c_id r =? f_chart_id f))
                                         (charts (tables db))))
                 (Database.features (tables db))).
Proof.
  intros Hc Hconn. unfold beforeInsertChart.
  destruct (chartExists_outcome db chartName Hconn) as (E & Hconn1 & Ht & Hs & Hf).
  pose proof (consistent_chartExists db chartName Hc) as Hc1.
  set (db1 := snd (chartExists db chartName)) in *.
  assert (Hno : forall tb,
             charts tb = filter (fun r => negb (String.eqb (c_name r) chartName))
                                (charts (tables db)) ->
             hasChartName chartName tb = false).
  { intros tb Htb. unfold hasChartName. rewrite Htb.
    apply not_true_is_false. intros He. apply existsb_exists in He.
    destruct He as (r & Hr & En). apply filter_In in Hr. destruct Hr as [_ Hr].
    rewrite En in Hr. discriminate. }
  rewrite E. destruct (hasChartName chartName (tables db)) eqn:Hex.
  - destruct (deleteChart_outcome db1 chartName Hconn1) as (_ & H2 & H3 & H4 & _).
    pose proof (deleteChart_by_name db1 chartName Hc1 Hconn1) as H5.
    rewrite Ht in H5.
    split; [exact H2|]. split; [congruence|]. split; [congruence|].
    split; [apply Hno; rewrite H5; reflexivity|exact H5].
  - assert (Habs : forall r, In r (charts (tables db)) ->
                             String.eqb (c_name r) chartName = false).
    { intros r Hr. apply not_true_is_false. intros En.
      assert (Ht' : hasChartName chartName (tables db) = true).
      { apply existsb_exists. exists r. tauto. }
      congruence. }
    assert (Hsame : tables db
                    = mkTables
                        (filter (fun r => negb (String.eqb (c_name r) chartName))
                                (charts (tables db)))
                        (filter (fun f => negb (existsb
                                                  (fun r => String.eqb (c_name r) chartName
                                                            && (c_id r =? f_chart_id f))
                                                  (charts (tables db))))
                                (Database.features (tables db)))).
    { rewrite !filter_all.
      - destruct (tables db); reflexivity.
      - intros f _. apply negb_true_iff. apply not_true_is_false. intros He.
        apply existsb_exists in He. destruct He as (r & Hr & En).
        rewrite (Habs r Hr) in En. discriminate.
      - intros r Hr. rewrite (Habs r Hr). reflexivity. }
    split; [exact Hconn1|]. split; [exact Hs|]. split; [exact Hf|].
    rewrite Ht. split; [exact Hex|exact Hsame].
Qed.

(** [processFile] on a file that opens, by the outcome of the chart. *)
Lemma processFile_stages (db : Database.t) (filePath : string) (ds : OGR.GDALDataset) :
  GDALOpenEx filePath = Some ds ->
  let s57 := S57.mk filePath (Some ds) in
  let chart := S57.getChartInfo s57 in
  let inserted := insertChart (beforeInsertChart db (name chart)) chart in
  processFile db filePath
  = match fst inserted with
    | None =>
        (mkProcessingResult false (Std.path_filename filePath) (name chart) 0
           "Failed to insert chart", snd inserted)
    | Some chartId =>
        let run := insertBatches (snd inserted) chartId (S57.getAllFeatures s57) 0 in
        (mkProcessingResult (fst run) (Std.path_filename filePath) (name chart)
           (static_cast_int (Z.of_nat (List.length (S57.getAllFeatures s57))))
           (if fst run then "" else "Failed to insert features"),
         snd run)
    end.
Proof.
  intros Hopen s57 chart inserted. subst inserted.
  unfold ChartIngest.processFile, S57.open, beforeInsertChart.
  rewrite Hopen. fold s57. cbn [S57.isOpen S57.dataset_ s57 negb]. fold chart.
  destruct (chartExists db (name chart)) as [ex db1]. cbn [fst snd].
  destruct (insertChart _ chart) as [[chartId|] db3]; cbn [fst snd]; [|reflexivity].
  destruct (insertBatches db3 chartId (S57.getAllFeatures s57) 0) as [[|] db4];
    reflexivity.
Qed.

Lemma filter_none {A} (p : A -> bool) (l : list A) :
  (forall x, In x l -> p x = false) -> filter p l = [].
Proof.
  induction l as [|x l IH]; intros H; [reflexivity|].
  cbn [filter]. rewrite (H x (or_introl eq_refl)). apply IH.
  intros y Hy. apply H. right. exact Hy.
Qed.

Lemma forallb_false_split {A} (p : A -> bool) (l : list A) :
  forallb p l = false ->
  exists pre bad post,
    l = (pre ++ bad :: post)%list /\ forallb p pre = true /\ p bad = false.
Proof.
  induction l as [|x l IH]; cbn; [discriminate|].
  destruct (p x) eqn:Hx; cbn.
  - intros H. destruct (IH H) as (pre & bad & post & -> & Hpre & Hbad).
    exists (x :: pre), bad, post. cbn. rewrite Hx, Hpre. auto.
  - intros _. exists [], x, l. auto.
Qed.

(** X22.  Ingestion replaces.  When [processFile] succeeds on a
    consistent store, the charts are the earlier charts of other names
    followed by the row of this chart under a fresh key, and the features
    are the earlier features of those other charts followed by the rows of
    all the features of the file: the features that reference the chart
    are exactly those of this ingestion, as many as the result reports,
    whether or not the chart was ingested before. *)
Theorem processFile_replaces (db : Database.t) (filePath : string) :
  consistent db ->
  isConnected db = true ->
  success (fst (processFile db filePath)) = true ->
  exists ds : OGR.GDALDataset,
    GDALOpenEx filePath = Some ds
    /\ let s57 := S57.mk filePath (Some ds) in
       let chart := S57.getChartInfo s57 in
       let chartId := charts_id_seq db in
       let rows := featureRows chartId (features_id_seq db) (S57.getAllFeatures s57) in
       let db' := snd (processFile db filePath) in
       chartName (fst (processFile db filePath)) = name chart
       /\ charts (tables db')
          = (filter (fun r => negb (String.eqb (c_name r) (name chart)))
                    (charts (tables db))
             ++ [chartRow chartId chart])%list
       /\ Database.features (tables db')
          = (filter (fun f => negb (existsb
                                     (fun r => String.eqb (c_name r) (name chart)
                                               && (c_id r =? f_chart_id f))
                                     (charts (tables db))))
                    (Database.features (tables db))
             ++ rows)%list
       /\ filter (fun f => f_chart_id f =? chartId) (Database.features (tables db')) = rows
       /\ Z.of_nat (List.length rows) = Z.of_nat (List.length (S57.getAllFeatures s57))
       /\ featureCount (fst (processFile db filePath))
          = static_cast_int (Z.of_nat (List.length rows)).
Proof.
  intros Hc Hconn Hs.
  destruct (GDALOpenEx filePath) as [ds|] eqn:Hopen.
  2:{ rewrite (processFile_open_failure_eq db filePath Hopen) in Hs. discriminate. }
  exists ds. split; [reflexivity|]. intros s57 chart chartId rows db'.
  pose proof (processFile_stages db filePath ds Hopen) as Est.
  cbv zeta in Est. fold s57 chart in Est.
  destruct (beforeInsertChart_outcome db (name chart) Hc Hconn)
    as (Hconn2 & Hs2 & Hf2 & Hno2 & Ht2).
  set (db2 := beforeInsertChart db (name chart)) in *.
  destruct (insertChart_outcome ST_GeomFromGeoJSON_ok jsonb_ok db2 chart Hconn2)
    as (G1 & G2 & G3 & G4 & G5).
  cbv zeta in G1, G4, G5.
  set (inserted := insertChart db2 chart) in *.
  destruct (negb (hasChartName (name chart) (tables db2)) && _ && _ && _) eqn:Hok.
  2:{ subst db'. rewrite Est, G1 in Hs. cbn in Hs. discriminate. }
  rewrite G1 in Est. cbv iota beta in Est.
  set (all := S57.getAllFeatures s57) in *.
  assert (Hid : hasChartId (charts_id_seq db2) (tables (snd inserted)) = true).
  { rewrite G5. apply hasChartId_In. cbn [charts]. rewrite map_app.
    apply in_or_app. right. left. reflexivity. }
  assert (Hall : forallb acceptable all = true).
  { destruct (forallb acceptable all) eqn:Hall; [reflexivity|]. exfalso.
    destruct (forallb_false_split _ _ Hall) as (pre & bad & post & Esplit & Hpre & Hbad).
    destruct (insertBatches_refused ST_GeomFromGeoJSON_ok jsonb_ok (charts_id_seq db2) all
                (List.length pre) (snd inserted) 0%nat pre bad post (Nat.le_refl _)
                Esplit G2 Hid Hpre Hbad) as (db4 & E & _).
    subst db'. rewrite Est, E in Hs. cbn in Hs. discriminate. }
  destruct (insertBatches_all_ok ST_GeomFromGeoJSON_ok jsonb_ok (charts_id_seq db2) all
              (List.length all) (snd inserted) 0%nat all (Nat.le_refl _) eq_refl
              G2 Hid Hall) as (batches & _ & _ & _ & _ & Erun).
  assert (Erows : Database.features (tables db')
                  = (Database.features (tables db2) ++ rows)%list).
  { subst db'. rewrite Est, Erun. cbn [fst snd tables Database.features].
    rewrite G5, G3, Hf2, Hs2. reflexivity. }
  split; [rewrite Est; reflexivity|]. split; [|split; [|split; [|split]]].
  - subst db'. rewrite Est, Erun. cbn [fst snd tables charts].
    rewrite G5, Ht2, Hs2. reflexivity.
  - rewrite Erows, Ht2. reflexivity.
  - rewrite Erows, filter_app.
    destruct (featureRows_ids chartId (S57.getAllFeatures s57) (features_id_seq db))
      as [Hids _]. fold rows in Hids.
    assert (Hold : filter (fun f => f_chart_id f =? chartId)
                          (Database.features (tables db2)) = []).
    { destruct Hc as (_ & _ & C3 & _ & _ & C6).
      apply filter_none. intros f Hf. rewrite Ht2 in Hf. cbn [Database.features] in Hf.
      apply filter_In in Hf. destruct Hf as [Hf _].
      apply (proj1 (Forall_forall _ _) C6) in Hf.
      apply hasChartId_In in Hf. apply in_map_iff in Hf. destruct Hf as (r & Er & Hr).
      apply (proj1 (Forall_forall _ _) C3) in Hr.
      apply Z.eqb_neq. subst chartId. lia. }
    rewrite Hold. cbn [app]. apply filter_all. intros f Hf.
    apply (proj1 (Forall_forall _ _) Hids) in Hf. apply Z.eqb_eq. tauto.
  - subst rows. rewrite featureRows_length. reflexivity.
  - rewrite Est. cbn [fst featureCount]. subst rows. rewrite featureRows_length.
    reflexivity.
Qed.

(** X23.  The earlier chart does not survive a refused chart.  When the
    file opens and the engine refuses one of the three payloads of the
    chart, [processFile] reports [Failed to insert chart] with no feature,
    and what it leaves in the store is the earlier store without the chart
    of that name and without its features: the deletion was committed
    before the insertion was tried. *)
Theorem processFile_chart_refused (db : Database.t) (filePath : string)
    (ds : OGR.GDALDataset) :
  consistent db ->
  isConnected db = true ->
  GDALOpenEx filePath = Some ds ->
  let chart := S57.getChartInfo (S57.mk filePath (Some ds)) in
  ST_GeomFromGeoJSON_ok (covrGeoJson chart)
  && jsonb_ok (dsidProps chart) && jsonb_ok (chartTxt chart) = false ->
  fst (processFile db filePath)
  = mkProcessingResult false (Std.path_filename filePath) (name chart) 0
      "Failed to insert chart"
  /\ hasChartName (name chart) (tables (snd (processFile db filePath))) = false
  /\ tables (snd (processFile db filePath))
     = mkTables
         (filter (fun r => negb (String.eqb (c_name r) (name chart))) (charts (tables db)))
         (filter (fun f => negb (existsb (fun r => String.eqb (c_name r) (name chart)
                                                  && (c_id r =? f_chart_id f))
                                         (charts (tables db))))
                 (Database.features (tables db))).
Proof.
  intros Hc Hconn Hopen chart Hbad.
  pose proof (processFile_stages db filePath ds Hopen) as Est.
  cbv zeta in Est. fold chart in Est.
  destruct (beforeInsertChart_outcome db (name chart) Hc Hconn)
    as (Hconn2 & _ & _ & Hno2 & Ht2).
  destruct (insertChart_outcome ST_GeomFromGeoJSON_ok jsonb_ok
              (beforeInsertChart db (name chart)) chart Hconn2)
    as (G1 & _ & _ & _ & G5).
  cbv zeta in G1, G5.
  rewrite Hno2 in G1, G5. cbn [negb andb] in G1, G5.
  rewrite Hbad in G1, G5.
  rewrite G1 in Est. cbv iota in Est.
  rewrite Est. cbn [fst snd]. rewrite G5.
  split; [reflexivity|]. split; [exact Hno2|exact Ht2].
Qed.

End IngestMore.

(** ** Finding the chart files *)

Section FilesMore.
Import BatchSpec.

Lemma leb_trans (a b c : string) : le a b -> le b c -> le a c.
Proof.
  unfold le, String.leb. intros Hab Hbc.
  destruct (String.compare a b) eqn:Eab; try discriminate.
  - apply String.compare_eq_iff in Eab. subst b. exact Hbc.
  - destruct (String.compare b c) eqn:Ebc; try discriminate.
    + apply String.compare_eq_iff in Ebc. subst c. rewrite Eab. reflexivity.
    + rewrite (string_compare_lt_trans a b c Eab Ebc). reflexivity.
Qed.

Lemma insert_sorted_perm (x : string) (l : list string) :
  Permutation (Std.insert_sorted x l) (x :: l).
Proof.
  induction l as [|y l IH]; cbn; [reflexivity|].
  destruct (String.leb x y); [reflexivity|].
  rewrite IH. apply perm_swap.
Qed.

Lemma sort_perm (l : list string) : Permutation (Std.sort l) l.
Proof.
  induction l as [|x l IH]; cbn; [reflexivity|].
  rewrite insert_sorted_perm. constructor. exact IH.
Qed.

Lemma insert_sorted_sorted (x : string) (l : list string) :
  StronglySorted le l -> StronglySorted le (Std.insert_sorted x l).
Proof.
  induction 1 as [|y l Hl IH Hy]; cbn.
  - repeat constructor.
  - destruct (String.leb x y) eqn:Exy.
    + constructor; [constructor; assumption|].
      constructor; [exact Exy|].
      eapply Forall_impl; [|exact Hy]. intros z Hz. eapply leb_trans; eassumption.
    + constructor; [exact IH|].
      assert (Hyx : le y x).
      { destruct (String.leb_total x y) as [H|H]; [congruence|exact H]. }
      apply Forall_forall. intros z Hz.
      apply (Permutation_in _ (insert_sorted_perm x l)) in Hz.
      destruct Hz as [<-|Hz]; [exact Hyx|].
      exact (proj1 (Forall_forall _ _) Hy z Hz).
Qed.

Lemma sort_sorted (l : list string) : StronglySorted le (Std.sort l).
Proof.
  induction l as [|x l IH]; cbn; [constructor|].
  apply insert_sorted_sorted. exact IH.
Qed.

(** Two sorted vectors with the same elements are the same vector. *)
Lemma sorted_perm_eq (l1 l2 : list string) :
  StronglySorted le l1 -> StronglySorted le l2 -> Permutation l1 l2 -> l1 = l2.
Proof.
  intros H1. revert l2. induction H1 as [|x l1 Hl1 IH Hx]; intros l2 H2 Hp.
  - apply Permutation_nil in Hp. congruence.
  - destruct H2 as [|y l2 Hl2 Hy].
    + apply Permutation_sym, Permutation_nil in Hp. discriminate.
    + assert (E : x = y).
      { assert (Hxin : In x (y :: l2))
          by (eapply Permutation_in; [exact Hp|left; reflexivity]).
        assert (Hyin : In y (x :: l1))
          by (eapply Permutation_in; [apply Permutation_sym; exact Hp|left; reflexivity]).
        destruct Hxin as [E|Hxin]; [congruence|].
        destruct Hyin as [E|Hyin]; [congruence|].
        apply String.leb_antisym.
        - exact (proj1 (Forall_forall _ _) Hx y Hyin).
        - exact (proj1 (Forall_forall _ _) Hy x Hxin). }
      subst y. f_equal. apply IH; [exact Hl2|].
      eapply Permutation_cons_inv. exact Hp.
Qed.

Lemma filter_perm {A} (p : A -> bool) (l1 l2 : list A) :
  Permutation l1 l2 -> Permutation (filter p l1) (filter p l2).
Proof.
  induction 1 as [|x l1 l2 _ IH|x y l|l1 l2 l3 _ IH1 _ IH2]; cbn.
  - constructor.
  - destruct (p x); [constructor|]; exact IH.
  - destruct (p x), (p y); try reflexivity. apply perm_swap.
  - etransitivity; eassumption.
Qed.

Lemma collectS57Files_outcome (entries : list Filesystem.directory_entry) :
  forall files : list string,
    (Exists unreadable entries
     /\ ChartIngest.collectS57Files entries files = Filesystem.filesystem_error)
    \/ (Forall (fun entry => ~ unreadable entry) entries
        /\ ChartIngest.collectS57Files entries files
           = Filesystem.returned
               (files ++ List.map Filesystem.path (filter isChartFile entries))%list).
Proof.
  induction entries as [|entry rest IH]; intros files.
  - right. split; [constructor|]. cbn. rewrite app_nil_r. reflexivity.
  - cbn [ChartIngest.collectS57Files filter].
    destruct (Filesystem.is_regular_file entry) as [is_regular|] eqn:Er.
    2:{ left. split; [left; exact Er|reflexivity]. }
    assert (Hu : ~ unreadable entry) by (unfold unreadable; congruence).
    assert (Ec : isChartFile entry
                 = is_regular
                   && String.eqb (Std.path_extension (Filesystem.path entry)) ".000").
    { unfold isChartFile. rewrite Er. destruct is_regular; reflexivity. }
    rewrite Ec.
    destruct (is_regular && String.eqb _ ".000").
    + destruct (IH (files ++ [Filesystem.path entry])%list) as [[He E]|[Hf E]].
      * left. split; [right; exact He|exact E].
      * right. split; [constructor; [exact Hu|exact Hf]|].
        rewrite E, <- app_assoc. reflexivity.
    + destruct (IH files) as [[He E]|[Hf E]].
      * left. split; [right; exact He|exact E].
      * right. split; [constructor; [exact Hu|exact Hf]|exact E].
Qed.

Lemma isChartFile_true (entry : Filesystem.directory_entry) :
  isChartFile entry = true
  <-> Filesystem.is_regular_file entry = Filesystem.returned true
      /\ Std.path_extension (Filesystem.path entry) = ".000".
Proof.
  unfold isChartFile.
  destruct (Filesystem.is_regular_file entry) as [[|]|]; split.
  - intros H. apply String.eqb_eq in H. auto.
  - intros [_ H]. apply String.eqb_eq. exact H.
  - discriminate.
  - intros [H _]. discriminate.
  - discriminate.
  - intros [H _]. discriminate.
Qed.

Lemma Forall_Exists_unreadable (entries : list Filesystem.directory_entry) :
  Forall (fun entry => ~ unreadable entry) entries -> ~ Exists unreadable entries.
Proof.
  intros Hf He. apply Exists_exists in He. destruct He as (e & Hin & Hu).
  exact (proj1 (Forall_forall _ _) Hf e Hin Hu).
Qed.

(** X24.  [findS57Files] catches nothing.  It throws [filesystem_error]
    exactly when the status of the path cannot be read, or the path is a
    directory and the iterator throws or yields an entry whose type
    cannot be read.  Whenever it returns, it returns paths of extension
    [.000] only, in increasing order; of a path that does not exist, or
    is neither a file nor a directory, it returns none. *)
Theorem findS57Files_sound (fs : Filesystem.t) (path : string) (recursive : bool) :
  (forall files,
      ChartIngest.findS57Files fs path recursive = Filesystem.returned files ->
      Forall (fun p => Std.path_extension p = ".000") files
      /\ StronglySorted le files)
  /\ (Filesystem.status fs path = Filesystem.returned Filesystem.not_found
      \/ Filesystem.status fs path = Filesystem.returned Filesystem.other ->
      ChartIngest.findS57Files fs path recursive = Filesystem.returned [])
  /\ (ChartIngest.findS57Files fs path recursive = Filesystem.filesystem_error
      <-> Filesystem.status fs path = Filesystem.filesystem_error
          \/ (Filesystem.status fs path = Filesystem.returned Filesystem.directory
              /\ let listing :=
                   if recursive then Filesystem.recursive_directory_iterator fs path
                   else Filesystem.directory_iterator fs path in
                 listing = Filesystem.filesystem_error
                 \/ exists entries,
                      listing = Filesystem.returned entries
                      /\ Exists unreadable entries)).
Proof.
  unfold ChartIngest.findS57Files. cbv zeta.
  set (listing := if recursive then Filesystem.recursive_directory_iterator fs path
                  else Filesystem.directory_iterator fs path).
  destruct (Filesystem.status fs path) as [[| | |]|] eqn:Est.
  - split; [|split].
    + intros files [= <-]. split; constructor.
    + reflexivity.
    + split; [discriminate|]. intros [H|[H _]]; discriminate.
  - split; [|split].
    + intros files [= <-].
      destruct (String.eqb _ ".000") eqn:E; [|split; constructor].
      apply String.eqb_eq in E. split; repeat constructor. exact E.
    + intros [H|H]; discriminate.
    + split; [discriminate|]. intros [H|[H _]]; discriminate.
  - split; [|split].
    + destruct listing as [entries|]; [|discriminate].
      destruct (collectS57Files_outcome entries []) as [[_ E]|[_ E]]; rewrite E;
        [discriminate|].
      intros files [= <-]. cbn [app]. split.
      * apply Forall_forall. intros p Hp.
        apply (Permutation_in _ (sort_perm _)) in Hp.
        apply in_map_iff in Hp. destruct Hp as (e & <- & He).
        apply filter_In in He. destruct He as [_ He].
        apply isChartFile_true in He. tauto.
      * apply sort_sorted.
    + intros [H|H]; discriminate.
    + split.
      * intros H. right. split; [reflexivity|].
        destruct listing as [entries|]; [|left; reflexivity].
        right. exists entries. split; [reflexivity|].
        destruct (collectS57Files_outcome entries []) as [[He _]|[_ E]];
          [exact He|]. rewrite E in H. discriminate.
      * intros [H|[_ [H|(entries & H & He)]]]; [discriminate|rewrite H; reflexivity|].
        rewrite H.
        destruct (collectS57Files_outcome entries []) as [[_ E]|[Hf _]];
          [rewrite E; reflexivity|].
        destruct (Forall_Exists_unreadable entries Hf He).
  - split; [|split].
    + intros files [= <-]. split; constructor.
    + reflexivity.
    + split; [discriminate|]. intros [H|[H _]]; discriminate.
  - split; [|split].
    + discriminate.
    + intros [H|H]; discriminate.
    + split; [intros _; left; reflexivity|reflexivity].
Qed.

(** X25.  Of a directory that can be listed and whose entries can all be
    told, [findS57Files] returns exactly the paths of the entries the
    iterator yields that are regular files of extension [.000], each as
    often as it is yielded: the sorted vector of these paths. *)
Theorem findS57Files_directory (fs : Filesystem.t) (path : string) (recursive : bool)
    (entries : list Filesystem.directory_entry) :
  Filesystem.status fs path = Filesystem.returned Filesystem.directory ->
  (if recursive then Filesystem.recursive_directory_iterator fs path
   else Filesystem.directory_iterator fs path) = Filesystem.returned entries ->
  Forall (fun entry => ~ unreadable entry) entries ->
  exists files,
    ChartIngest.findS57Files fs path recursive = Filesystem.returned files
    /\ StronglySorted le files
    /\ Permutation files (List.map Filesystem.path (filter isChartFile entries))
    /\ forall p,
         In p files
         <-> exists entry,
               In entry entries
               /\ Filesystem.path entry = p
               /\ Filesystem.is_regular_file entry = Filesystem.returned true
               /\ Std.path_extension p = ".000".
Proof.
  intros Hdir Hlist Hread. unfold ChartIngest.findS57Files. rewrite Hdir, Hlist.
  destruct (collectS57Files_outcome entries []) as [[He _]|[_ E]].
  { destruct (Forall_Exists_unreadable entries Hread He). }
  rewrite E. cbn [app].
  exists (Std.sort (List.map Filesystem.path (filter isChartFile entries))).
  split; [reflexivity|]. split; [apply sort_sorted|]. split; [apply sort_perm|].
  intros p. split.
  - intros Hp. apply (Permutation_in _ (sort_perm _)) in Hp.
    apply in_map_iff in Hp. destruct Hp as (e & <- & He).
    apply filter_In in He. destruct He as [Hin He].
    apply isChartFile_true in He. exists e. tauto.
  - intros (e & Hin & <- & Hr & Hx).
    apply (Permutation_in _ (Permutation_sym (sort_perm _))).
    apply in_map_iff. exists e. split; [reflexivity|].
    apply filter_In. split; [exact Hin|]. apply isChartFile_true. tauto.
Qed.

(** X26.  The order in which the directory is listed does not show: two
    file systems that agree on the status of the path and whose iterators
    both fail or yield the same entries, in whatever order, give the same
    outcome, the same vector of files or the error. *)
Theorem findS57Files_listing_order (fs1 fs2 : Filesystem.t) (path : string)
    (recursive : bool) :
  Filesystem.status fs1 path = Filesystem.status fs2 path ->
  same_listing (Filesystem.directory_iterator fs1 path)
               (Filesystem.directory_iterator fs2 path) ->
  same_listing (Filesystem.recursive_directory_iterator fs1 path)
               (Filesystem.recursive_directory_iterator fs2 path) ->
  ChartIngest.findS57Files fs1 path recursive
  = ChartIngest.findS57Files fs2 path recursive.
Proof.
  intros Hs Hd Hr. unfold ChartIngest.findS57Files. rewrite Hs.
  destruct (Filesystem.status fs2 path) as [[| | |]|]; try reflexivity.
  assert (Hl : same_listing
                 (if recursive then Filesystem.recursive_directory_iterator fs1 path
                  else Filesystem.directory_iterator fs1 path)
                 (if recursive then Filesystem.recursive_directory_iterator fs2 path
                  else Filesystem.directory_iterator fs2 path))
    by (destruct recursive; assumption).
  destruct (if recursive then Filesystem.recursive_directory_iterator fs1 path
            else Filesystem.directory_iterator fs1 path) as [l1|],
           (if recursive then Filesystem.recursive_directory_iterator fs2 path
            else Filesystem.directory_iterator fs2 path) as [l2|];
    cbn in Hl; try contradiction; [|reflexivity].
  destruct (collectS57Files_outcome l1 []) as [[He1 E1]|[Hf1 E1]],
           (collectS57Files_outcome l2 []) as [[He2 E2]|[Hf2 E2]];
    rewrite E1, E2; cbn [app].
  - reflexivity.
  - exfalso. apply (Forall_Exists_unreadable l2 Hf2).
    apply Exists_exists in He1. destruct He1 as (e & Hin & Hu).
    apply Exists_exists. exists e. split; [|exact Hu].
    exact (Permutation_in _ Hl Hin).
  - exfalso. apply (Forall_Exists_unreadable l1 Hf1).
    apply Exists_exists in He2. destruct He2 as (e & Hin & Hu).
    apply Exists_exists. exists e. split; [|exact Hu].
    exact (Permutation_in _ (Permutation_sym Hl) Hin).
  - f_equal. apply sorted_perm_eq; try apply sort_sorted.
    rewrite !sort_perm. apply Permutation_map. apply filter_perm. exact Hl.
Qed.
End FilesMore.

(** ** A batch of files *)

Section BatchMore.
Import Database IngestSpec StoreSpec BatchSpec.
Local Open Scope Z_scope.

Variable GDALOpenEx : string -> option OGR.GDALDataset.
Variable ST_GeomFromGeoJSON_ok : string -> bool.
Variable jsonb_ok : string -> bool.
Variable World : Type.

Local Abbreviation processFile :=
  (ChartIngest.processFile GDALOpenEx ST_GeomFromGeoJSON_ok jsonb_ok).
Local Abbreviation processEach :=
  (BatchSpec.processEach GDALOpenEx ST_GeomFromGeoJSON_ok jsonb_ok).
Local Abbreviation processNext :=
  (ChartIngest.processNext GDALOpenEx ST_GeomFromGeoJSON_ok jsonb_ok World).
Local Abbreviation processFiles :=
  (ChartIngest.processFiles GDALOpenEx ST_GeomFromGeoJSON_ok jsonb_ok World).
Local Abbreviation processDirectory :=
  (ChartIngest.processDirectory GDALOpenEx ST_GeomFromGeoJSON_ok jsonb_ok World).

Lemma static_cast_int_add (a b : Z) :
  static_cast_int (static_cast_int a + b) = static_cast_int (a + b).
Proof.
  unfold static_cast_int.
  replace ((a + 2147483648) mod 4294967296 - 2147483648 + b + 2147483648)
    with ((a + 2147483648) mod 4294967296 + b) by lia.
  rewrite Z.add_mod_idemp_l by lia. f_equal. f_equal. lia.
Qed.

Lemma processFile_fileName (db : Database.t) (filePath : string) :
  resultFileName (fst (processFile db filePath)) = Std.path_filename filePath.
Proof.
  unfold ChartIngest.processFile, S57.open.
  destruct (GDALOpenEx filePath) as [ds|]; cbn [S57.isOpen S57.dataset_ negb];
    [|reflexivity].
  destruct (chartExists db _) as [ex db1].
  destruct (Database.insertChart _ _ _ _) as [[chartId|] db3]; [|reflexivity].
  destruct (ChartIngest.insertBatches _ _ db3 chartId _ 0) as [[|] db4]; reflexivity.
Qed.

Lemma processEach_length (files : list string) (db : Database.t) :
  List.length (fst (processEach db files)) = List.length files.
Proof.
  revert db. induction files as [|file rest IH]; intros db; [reflexivity|].
  cbn [BatchSpec.processEach]. destruct (processFile db file) as [r db1].
  specialize (IH db1). destruct (processEach db1 rest) as [rs db2].
  cbn [fst List.length] in *. congruence.
Qed.

Lemma processEach_fileNames (files : list string) (db : Database.t) :
  List.map resultFileName (fst (processEach db files))
  = List.map Std.path_filename files.
Proof.
  revert db. induction files as [|file rest IH]; intros db; [reflexivity|].
  cbn [BatchSpec.processEach].
  pose proof (processFile_fileName db file) as Hn.
  destruct (processFile db file) as [r db1].
  specialize (IH db1). destruct (processEach db1 rest) as [rs db2].
  cbn [fst List.map] in *. congruence.
Qed.

Lemma announce_shift (callback : ChartIngest.ProgressCallback World) (total base : Z)
    (results : list ProcessingResult) :
  forall (k : nat) (world : World),
    fold_left (fun w ir => callback (base + fst ir) total (resultFileName (snd ir)) w)
              (combine (List.map Z.of_nat (seq (S k) (List.length results))) results)
              world
    = fold_left (fun w ir => callback (base + 1 + fst ir) total
                               (resultFileName (snd ir)) w)
                (combine (List.map Z.of_nat (seq k (List.length results))) results)
                world.
Proof.
  induction results as [|r rs IH]; intros k world; [reflexivity|].
  cbn [List.length seq List.map combine fold_left fst snd].
  replace (base + Z.of_nat (S k)) with (base + 1 + Z.of_nat k) by lia.
  apply IH.
Qed.

(** The loop of [processFiles] from any state whose counters have not
    wrapped. *)
Lemma processFiles_loop (total : Z) (files : list string) :
  forall (results : list ProcessingResult) (ingest : ChartIngest.t World)
         (succeeded failed : nat) (features : Z) (db : Database.t) (world : World),
    Z.of_nat (succeeded + failed + List.length files) <= INT_MAX ->
    let done := fst (processEach db files) in
    fold_left (processNext total) files
      (results,
       ChartIngest.setCounters World ingest (Z.of_nat (succeeded + failed))
         (Z.of_nat succeeded) (Z.of_nat failed) (static_cast_int features),
       db, world)
    = ((results ++ done)%list,
       ChartIngest.setCounters World ingest
         (Z.of_nat (succeeded + failed + List.length done))
         (Z.of_nat (succeeded + List.length (filter success done)))
         (Z.of_nat (failed + List.length (filter (fun r => negb (success r)) done)))
         (static_cast_int (features + featuresOf done)),
       snd (processEach db files),
       match ChartIngest.progressCallback_ World ingest with
       | Some callback =>
           fold_left (fun w ir => callback (Z.of_nat (succeeded + failed) + fst ir) total
                                    (resultFileName (snd ir)) w)
                     (numbered done) world
       | None => world
       end).
Proof.
  induction files as [|file rest IH]; intros results ingest succeeded failed features
                                             db world Hle done; subst done.
  - cbn [BatchSpec.processEach fst snd fold_left List.length filter].
    unfold featuresOf, numbered.
    cbn [filter List.map fold_right List.length seq combine fold_left].
    rewrite app_nil_r, !Nat.add_0_r, Z.add_0_r.
    destruct (ChartIngest.progressCallback_ World ingest); reflexivity.
  - cbn [fold_left BatchSpec.processEach].
    unfold ChartIngest.processNext at 2.
    destruct (processFile db file) as [r db1].
    cbn [List.length] in Hle.
    assert (Hp : static_cast_int (Z.of_nat (succeeded + failed) + 1)
                 = Z.of_nat (succeeded + failed) + 1).
    { rewrite static_cast_int_id; unfold int_range, INT_MIN, INT_MAX in *; lia. }
    assert (Hs : static_cast_int (Z.of_nat succeeded + 1) = Z.of_nat (S succeeded)).
    { rewrite static_cast_int_id; unfold int_range, INT_MIN, INT_MAX in *; lia. }
    assert (Hf : static_cast_int (Z.of_nat failed + 1) = Z.of_nat (S failed)).
    { rewrite static_cast_int_id; unfold int_range, INT_MIN, INT_MAX in *; lia. }
    cbn [ChartIngest.setCounters ChartIngest.processedCount_ ChartIngest.successCount_
         ChartIngest.failCount_ ChartIngest.totalFeatures_ ChartIngest.progressCallback_
         ChartIngest.workerCount_ ChartIngest.verbose_].
    rewrite Hp, Hs, Hf, static_cast_int_add.
    destruct (success r) eqn:Hr.
    + cbn [ChartIngest.setCounters ChartIngest.processedCount_ ChartIngest.successCount_
           ChartIngest.failCount_ ChartIngest.totalFeatures_ ChartIngest.progressCallback_
           ChartIngest.workerCount_ ChartIngest.verbose_].
      pose proof (IH (results ++ [r])%list ingest (S succeeded) failed
                     (features + featureCount r) db1
                     (match ChartIngest.progressCallback_ World ingest with
                      | Some callback =>
                          callback (Z.of_nat (succeeded + failed) + 1) total
                            (resultFileName r) world
                      | None => world
                      end)) as IH1.
      cbv zeta in IH1.
      unfold ChartIngest.setCounters in IH1 |- *.
      replace (Z.of_nat (S succeeded + failed)) with (Z.of_nat (succeeded + failed) + 1)
        in IH1 by lia.
      etransitivity; [apply IH1; lia|]. clear IH1 IH.
      destruct (processEach db1 rest) as [rs db2]. cbn [fst snd].
      unfold featuresOf, numbered.
      cbn [filter List.length List.map fold_right seq combine fold_left fst snd].
      rewrite Hr. cbn [negb filter List.length List.map fold_right].
      rewrite <- app_assoc. cbn [app].
      apply f_equal2; [apply f_equal2; [apply f_equal2|]|]; try reflexivity.
      * f_equal; try (f_equal; lia); lia.
      * destruct (ChartIngest.progressCallback_ World ingest) as [callback|];
          [|reflexivity].
        rewrite (announce_shift callback total (Z.of_nat (succeeded + failed)) rs 1).
        reflexivity.
    + cbn [ChartIngest.setCounters ChartIngest.processedCount_ ChartIngest.successCount_
           ChartIngest.failCount_ ChartIngest.totalFeatures_ ChartIngest.progressCallback_
           ChartIngest.workerCount_ ChartIngest.verbose_].
      pose proof (IH (results ++ [r])%list ingest succeeded (S failed)
                     features db1
                     (match ChartIngest.progressCallback_ World ingest with
                      | Some callback =>
                          callback (Z.of_nat (succeeded + failed) + 1) total
                            (resultFileName r) world
                      | None => world
                      end)) as IH1.
      cbv zeta in IH1.
      unfold ChartIngest.setCounters in IH1 |- *.
      replace (Z.of_nat (succeeded + S failed)) with (Z.of_nat (succeeded + failed) + 1)
        in IH1 by lia.
      etransitivity; [apply IH1; lia|]. clear IH1 IH.
      destruct (processEach db1 rest) as [rs db2]. cbn [fst snd].
      unfold featuresOf, numbered.
      cbn [filter List.length List.map fold_right seq combine fold_left fst snd].
      rewrite Hr. cbn [negb filter List.length List.map fold_right].
      rewrite <- app_assoc. cbn [app].
      apply f_equal2; [apply f_equal2; [apply f_equal2|]|]; try reflexivity.
      * f_equal; try (f_equal; lia); lia.
      * destruct (ChartIngest.progressCallback_ World ingest) as [callback|];
          [|reflexivity].
        rewrite (announce_shift callback total (Z.of_nat (succeeded + failed)) rs 1).
        reflexivity.
Qed.

(** What the loop of [processFiles] leaves of the results, the store and
    the settings, whatever the counters. *)
Lemma processFiles_loop_results (total : Z) (files : list string) :
  forall (results : list ProcessingResult) (ingest : ChartIngest.t World)
         (db : Database.t) (world : World),
    let out := fold_left (processNext total) files (results, ingest, db, world) in
    fst (fst (fst out)) = (results ++ fst (processEach db files))%list
    /\ snd (fst out) = snd (processEach db files)
    /\ ChartIngest.workerCount_ World (snd (fst (fst out)))
       = ChartIngest.workerCount_ World ingest
    /\ ChartIngest.verbose_ World (snd (fst (fst out)))
       = ChartIngest.verbose_ World ingest
    /\ ChartIngest.progressCallback_ World (snd (fst (fst out)))
       = ChartIngest.progressCallback_ World ingest.
Proof.
  induction files as [|file rest IH]; intros results ingest db world.
  - cbn. rewrite app_nil_r. repeat split.
  - cbn [fold_left BatchSpec.processEach].
    remember (processNext total (results, ingest, db, world) file) as st1 eqn:E.
    unfold ChartIngest.processNext in E.
    destruct (processFile db file) as [r db1]. subst st1.
    match goal with
    | |- context [fold_left _ rest (?rs, ?ing, ?d, ?w)] =>
        specialize (IH rs ing d w);
        set (out1 := fold_left (processNext total) rest (rs, ing, d, w)) in *
    end.
    cbv zeta in IH |- *.
    destruct IH as (I1 & I2 & I3 & I4 & I5).
    destruct (processEach db1 rest) as [rs db2]. cbn [fst snd] in I1, I2 |- *.
    rewrite I1, I2, I3, I4, I5, <- app_assoc.
    destruct (success r); cbn; repeat split.
Qed.

(** X27.  [processFiles] takes the files in the order given, each on the
    store the one before it left, and a failure stops nothing: there is
    one result for each file, under its file name, the results and the
    store are those of [processFile] file after file, and neither depends
    on the settings or the counters of the coordinator, whose settings the
    call leaves as they were. *)
Theorem processFiles_each (ingest : ChartIngest.t World) (db : Database.t)
    (world : World) (files : list string) :
  let out := processFiles ingest db world files in
  let results := fst (fst (fst out)) in
  results = fst (processEach db files)
  /\ snd (fst out) = snd (processEach db files)
  /\ List.length results = List.length files
  /\ List.map resultFileName results = List.map Std.path_filename files
  /\ ChartIngest.workerCount_ World (snd (fst (fst out)))
     = ChartIngest.workerCount_ World ingest
  /\ ChartIngest.verbose_ World (snd (fst (fst out)))
     = ChartIngest.verbose_ World ingest
  /\ ChartIngest.progressCallback_ World (snd (fst (fst out)))
     = ChartIngest.progressCallback_ World ingest.
Proof.
  intros out results. subst results out. unfold ChartIngest.processFiles.
  destruct (processFiles_loop_results
              (static_cast_int (Z.of_nat (List.length files))) files []
              (ChartIngest.setCounters World ingest 0 0 0 0) db world)
    as (H1 & H2 & H3 & H4 & H5).
  cbv zeta in H1, H2, H3, H4, H5. cbn [app] in H1.
  rewrite H1, H2, H3, H4, H5.
  split; [reflexivity|]. split; [reflexivity|].
  split; [apply processEach_length|]. split; [apply processEach_fileNames|].
  repeat split.
Qed.

Lemma processFiles_outcome (ingest : ChartIngest.t World) (db : Database.t)
    (world : World) (files : list string) :
  Z.of_nat (List.length files) <= INT_MAX ->
  let done := fst (processEach db files) in
  processFiles ingest db world files
  = (done,
     ChartIngest.setCounters World ingest
       (Z.of_nat (List.length done))
       (Z.of_nat (List.length (filter success done)))
       (Z.of_nat (List.length (filter (fun r => negb (success r)) done)))
       (static_cast_int (featuresOf done)),
     snd (processEach db files),
     match ChartIngest.progressCallback_ World ingest with
     | Some callback =>
         fold_left (fun w ir => callback (fst ir) (Z.of_nat (List.length files))
                                  (resultFileName (snd ir)) w)
                   (numbered done) world
     | None => world
     end).
Proof.
  intros Hle done. unfold ChartIngest.processFiles.
  rewrite (static_cast_int_id (Z.of_nat (List.length files)))
    by (unfold int_range, INT_MIN, INT_MAX in *; lia).
  pose proof (processFiles_loop (Z.of_nat (List.length files)) files []
                (ChartIngest.setCounters World ingest 0 0 0 0) 0 0 0 db world Hle) as H.
  cbv zeta in H. cbn [Nat.add Z.of_nat Z.add app] in H.
  exact H.
Qed.

Lemma filter_length_split {A} (p : A -> bool) (l : list A) :
  (List.length (filter p l) + List.length (filter (fun x => negb (p x)) l))%nat
  = List.length l.
Proof.
  induction l as [|x l IH]; [reflexivity|].
  cbn [filter]. destruct (p x); cbn [negb List.length]; lia.
Qed.

(** X28.  The statistics after [processFiles], for a vector no longer
    than an [int] counts: the files, the results that succeeded, those
    that failed, which together are all the files, and the sum of the
    feature counts of the results that succeeded, as an [int] holds it.
    They describe this call alone, whatever the counters held before, and
    some file failed exactly when the count of failures is above 0. *)
Theorem processFiles_statistics (ingest : ChartIngest.t World) (db : Database.t)
    (world : World) (files : list string) :
  Z.of_nat (List.length files) <= INT_MAX ->
  let out := processFiles ingest db world files in
  let results := fst (fst (fst out)) in
  let stats := ChartIngest.getStatistics World (snd (fst (fst out))) in
  ChartIngest.totalFiles stats = Z.of_nat (List.length files)
  /\ ChartIngest.successCount stats = Z.of_nat (List.length (filter success results))
  /\ ChartIngest.failCount stats
     = Z.of_nat (List.length (filter (fun r => negb (success r)) results))
  /\ ChartIngest.successCount stats + ChartIngest.failCount stats
     = ChartIngest.totalFiles stats
  /\ ChartIngest.totalFeatures stats = static_cast_int (featuresOf results)
  /\ (ChartIngest.failCount stats > 0 <-> exists r, In r results /\ success r = false).
Proof.
  intros Hle out results stats. subst stats results out.
  rewrite (processFiles_outcome ingest db world files Hle).
  cbn [fst snd ChartIngest.getStatistics ChartIngest.setCounters
       ChartIngest.processedCount_ ChartIngest.successCount_ ChartIngest.failCount_
       ChartIngest.totalFeatures_ ChartIngest.totalFiles ChartIngest.successCount
       ChartIngest.failCount ChartIngest.totalFeatures].
  set (done := fst (processEach db files)).
  pose proof (processEach_length files db) as Hlen. fold done in Hlen.
  pose proof (filter_length_split success done) as Hsplit.
  split; [congruence|]. split; [reflexivity|]. split; [reflexivity|].
  split; [lia|]. split; [reflexivity|].
  split.
  - intros Hpos.
    destruct (filter (fun r => negb (success r)) done) as [|r l] eqn:E;
      [cbn in Hpos; lia|].
    assert (Hin : In r (filter (fun r => negb (success r)) done))
      by (rewrite E; left; reflexivity).
    apply filter_In in Hin. destruct Hin as [Hin Hr].
    exists r. split; [exact Hin|]. apply negb_true_iff. exact Hr.
  - intros (r & Hin & Hr).
    assert (Hin' : In r (filter (fun r => negb (success r)) done)).
    { apply filter_In. split; [exact Hin|]. rewrite Hr. reflexivity. }
    destruct (filter (fun r => negb (success r)) done); [destruct Hin'|].
    cbn [List.length]. lia.
Qed.

(** X29.  The progress callback is called once for each file, in the
    order of the files, after the file is processed, with the position of
    the file from 1, the number of files and the file name of the result;
    without a callback its state is as before. *)
Theorem processFiles_progress (ingest : ChartIngest.t World) (db : Database.t)
    (world : World) (files : list string) :
  Z.of_nat (List.length files) <= INT_MAX ->
  let out := processFiles ingest db world files in
  snd out
  = match ChartIngest.progressCallback_ World ingest with
    | Some callback =>
        fold_left (fun w ir => callback (fst ir) (Z.of_nat (List.length files))
                                 (Std.path_filename (snd ir)) w)
                  (combine (List.map Z.of_nat (seq 1 (List.length files))) files)
                  world
    | None => world
    end.
Proof.
  intros Hle out. subst out.
  rewrite (processFiles_outcome ingest db world files Hle). cbn [snd].
  destruct (ChartIngest.progressCallback_ World ingest) as [callback|]; [|reflexivity].
  unfold numbered.
  pose proof (processEach_length files db) as Hlen.
  pose proof (processEach_fileNames files db) as Hnames.
  set (done := fst (processEach db files)) in *.
  rewrite Hlen. clear Hlen Hle.
  generalize (seq 1 (List.length files)). revert world Hnames.
  generalize (Z.of_nat (List.length files)). generalize done. clear done.
  induction files as [|file rest IH]; intros done total world Hnames ks.
  - destruct done; [|discriminate]. destruct ks; reflexivity.
  - destruct done as [|r rs]; [discriminate|]. injection Hnames as Hr Hrs.
    destruct ks as [|k ks]; [reflexivity|].
    cbn [List.map combine fold_left fst snd]. rewrite Hr. apply IH. exact Hrs.
Qed.

(** X30.  [processDirectory] is [processFiles] on what [findS57Files]
    finds, and catches nothing: it throws [filesystem_error] exactly when
    [findS57Files] does, as when the status of the path cannot be read,
    and then before anything is processed.  Of a path that does not
    exist, that is neither a file nor a directory, or that is a file of
    another extension, it processes nothing: no result, the store and the
    state of the callback as before, and statistics of 0. *)
Theorem processDirectory_nothing (fs : Filesystem.t) (ingest : ChartIngest.t World)
    (db : Database.t) (world : World) (dirPath : string) (recursive : bool) :
  (processDirectory fs ingest db world dirPath recursive = Filesystem.filesystem_error
   <-> ChartIngest.findS57Files fs dirPath recursive = Filesystem.filesystem_error)
  /\ (Filesystem.status fs dirPath = Filesystem.filesystem_error ->
      processDirectory fs ingest db world dirPath recursive
      = Filesystem.filesystem_error)
  /\ (Filesystem.status fs dirPath = Filesystem.returned Filesystem.not_found
      \/ Filesystem.status fs dirPath = Filesystem.returned Filesystem.other
      \/ (Filesystem.status fs dirPath = Filesystem.returned Filesystem.regular
          /\ Std.path_extension dirPath <> ".000") ->
      exists out,
        processDirectory fs ingest db world dirPath recursive = Filesystem.returned out
        /\ fst (fst (fst out)) = []
        /\ snd (fst out) = db
        /\ snd out = world
        /\ ChartIngest.getStatistics World (snd (fst (fst out)))
           = ChartIngest.mkStatistics 0 0 0 0).
Proof.
  unfold ChartIngest.processDirectory. split; [|split].
  - destruct (ChartIngest.findS57Files fs dirPath recursive); split;
      try discriminate; reflexivity.
  - intros H. unfold ChartIngest.findS57Files. rewrite H. reflexivity.
  - intros H.
    assert (E : ChartIngest.findS57Files fs dirPath recursive = Filesystem.returned []).
    { unfold ChartIngest.findS57Files. destruct H as [->|[->|[-> Hx]]]; try reflexivity.
      destruct (String.eqb _ ".000") eqn:Ex; [|reflexivity].
      apply String.eqb_eq in Ex. contradiction. }
    rewrite E. eexists. split; [reflexivity|]. cbn. repeat split.
Qed.
End BatchMore.

(** ** The further properties on the example data *)

Section MoreWitnesses.
Import Database IngestSpec StoreSpec BatchSpec.
Local Open Scope Z_scope.

Lemma store_consistent : consistent Examples.store.
Proof.
  unfold consistent, Examples.store. cbn.
  split; [|split; [|split; [|split; [|split]]]].
  - repeat constructor. intros [].
  - repeat constructor. intros [].
  - repeat constructor.
  - repeat constructor; cbn; [intros [H|[]]; discriminate|intros []].
  - repeat constructor.
  - repeat constructor.
Qed.

Lemma emptyStore_consistent : consistent Examples.emptyStore.
Proof.
  unfold consistent, Examples.emptyStore. cbn. repeat split; constructor.
Qed.

Lemma deleteChart_removes_witness :
  consistent Examples.store
  /\ isConnected Examples.store = true
  /\ charts (tables (snd (deleteChart Examples.store "US5MA1SK.000"))) = []
  /\ Database.features (tables (snd (deleteChart Examples.store "US5MA1SK.000"))) = [].
Proof.
  split; [exact store_consistent|]. split; [reflexivity|].
  destruct (deleteChart_removes Examples.store "US5MA1SK.000" store_consistent eq_refl)
    as (H1 & H2 & _).
  split; [exact H1|exact H2].
Defined.

Lemma closed_connection_witness :
  let db := Database.mk false (tables Examples.store) 8 3 [] in
  isConnected db = false
  /\ deleteChart db "US5MA1SK.000" = (false, db)
  /\ insertFeatures Examples.acceptsGeoJson Examples.acceptsJson db 7 [] = (false, db).
Proof.
  intros db.
  destruct (closed_connection Examples.acceptsGeoJson Examples.acceptsJson db eq_refl)
    as (_ & _ & Hf & _ & Hd & _).
  split; [reflexivity|]. split; [apply Hd|apply Hf].
Defined.

Lemma insertFeatures_atomic_witness :
  let good := S57.getAllFeatures
                (S57.mk "/charts/US5MA1SK.000"
                   (Some (Examples.chartOf [Examples.depthArea]))) in
  let flawed := S57.getAllFeatures
                  (S57.mk "/charts/US5MA1SK.000"
                     (Some (Examples.chartOf [Examples.depthArea; Examples.noGeometry]))) in
  isConnected Examples.store = true
  /\ fst (insertFeatures Examples.acceptsGeoJson Examples.acceptsJson
            Examples.store 7 good) = true
  /\ fst (insertFeatures Examples.acceptsGeoJson Examples.acceptsJson
            Examples.store 7 flawed) = false
  /\ Database.features
       (tables (snd (insertFeatures Examples.acceptsGeoJson Examples.acceptsJson
                       Examples.store 7 flawed)))
     = Database.features (tables Examples.store).
Proof.
  intros good flawed. split; [reflexivity|].
  destruct (insertFeatures_atomic Examples.acceptsGeoJson Examples.acceptsJson
              Examples.store 7 good eq_refl) as (H1 & _).
  destruct (insertFeatures_atomic Examples.acceptsGeoJson Examples.acceptsJson
              Examples.store 7 flawed eq_refl) as (H2 & _ & _ & _ & _ & H3).
  split; [exact H1|]. split; [exact H2|exact H3].
Defined.

Lemma insertChart_spec_witness :
  let chart := S57.getChartInfo
                 (S57.mk "/charts/US5MA1SK.000"
                    (Some (Examples.chartOf [Examples.depthArea]))) in
  isConnected Examples.emptyStore = true
  /\ isConnected Examples.store = true
  /\ fst (insertChart Examples.acceptsGeoJson Examples.acceptsJson
            Examples.emptyStore chart) = Some 1
  /\ fst (insertChart Examples.acceptsGeoJson Examples.acceptsJson
            Examples.store chart) = None.
Proof.
  intros chart. split; [reflexivity|]. split; [reflexivity|].
  destruct (insertChart_spec Examples.acceptsGeoJson Examples.acceptsJson
              Examples.emptyStore chart eq_refl) as (H1 & _).
  destruct (insertChart_spec Examples.acceptsGeoJson Examples.acceptsJson
              Examples.store chart eq_refl) as (H2 & _).
  split; [exact H1|exact H2].
Defined.

Lemma store_stays_consistent_witness :
  consistent Examples.store
  /\ consistent (snd (deleteChart Examples.store "US5MA1SK.000")).
Proof.
  split; [exact store_consistent|].
  destruct (store_stays_consistent Examples.acceptsGeoJson Examples.acceptsJson
              Examples.store store_consistent) as (_ & _ & _ & H & _).
  apply H.
Defined.

Lemma processFile_result_witness :
  let run := ChartIngest.processFile
               (Examples.oneFile (Examples.chartOf [Examples.depthArea]))
               Examples.acceptsGeoJson Examples.acceptsJson
               Examples.emptyStore in
  errorMessage (fst (run "/charts/missing.000")) = "Failed to open file"
  /\ success (fst (run "/charts/US5MA1SK.000")) = true.
Proof.
  intros run.
  destruct (processFile_result
              (Examples.oneFile (Examples.chartOf [Examples.depthArea]))
              Examples.acceptsGeoJson Examples.acceptsJson
              Examples.emptyStore "/charts/missing.000") as (_ & [Hopen _] & _).
  destruct (processFile_result
              (Examples.oneFile (Examples.chartOf [Examples.depthArea]))
              Examples.acceptsGeoJson Examples.acceptsJson
              Examples.emptyStore "/charts/US5MA1SK.000") as (_ & _ & [_ Hok] & _).
  split; [exact (Hopen eq_refl)|]. apply Hok. vm_compute. reflexivity.
Defined.

Lemma processFile_consistent_witness :
  consistent Examples.store
  /\ consistent
       (snd (ChartIngest.processFile
               (Examples.oneFile (Examples.chartOf [Examples.depthArea]))
               Examples.acceptsGeoJson Examples.acceptsJson
               Examples.store "/charts/US5MA1SK.000")).
Proof.
  split; [exact store_consistent|].
  apply (processFile_consistent
           (Examples.oneFile (Examples.chartOf [Examples.depthArea]))
           Examples.acceptsGeoJson Examples.acceptsJson
           Examples.store "/charts/US5MA1SK.000" store_consistent).
Defined.

Lemma processFile_replaces_witness :
  let good := Examples.chartOf [Examples.depthArea] in
  let filePath := "/charts/US5MA1SK.000" in
  let run := ChartIngest.processFile (Examples.oneFile good)
               Examples.acceptsGeoJson Examples.acceptsJson Examples.store filePath in
  consistent Examples.store
  /\ isConnected Examples.store = true
  /\ success (fst run) = true
  /\ List.map c_id (charts (tables (snd run))) = [8]
  /\ filter (fun f => f_chart_id f =? 8) (Database.features (tables (snd run)))
     = featureRows 8 3 (S57.getAllFeatures (S57.mk filePath (Some good)))
  /\ filter (fun f => f_chart_id f =? 7) (Database.features (tables (snd run))) = [].
Proof.
  intros good filePath run.
  assert (Hs : success (fst run) = true) by (vm_compute; reflexivity).
  split; [exact store_consistent|]. split; [reflexivity|]. split; [exact Hs|].
  destruct (processFile_replaces (Examples.oneFile good)
              Examples.acceptsGeoJson Examples.acceptsJson Examples.store filePath
              store_consistent eq_refl Hs) as (ds & Hopen & H).
  change (Some good = Some ds) in Hopen. injection Hopen as <-.
  cbv zeta in H. destruct H as (_ & H2 & H3 & H4 & _).
  fold run in H2, H3, H4.
  split; [rewrite H2; reflexivity|]. split; [exact H4|].
  rewrite H3. reflexivity.
Defined.

Lemma processFile_chart_refused_witness :
  let good := Examples.chartOf [Examples.depthArea] in
  let filePath := "/charts/US5MA1SK.000" in
  let run := ChartIngest.processFile (Examples.oneFile good)
               (fun _ => false) Examples.acceptsJson Examples.store filePath in
  consistent Examples.store
  /\ isConnected Examples.store = true
  /\ Examples.oneFile good filePath = Some good
  /\ errorMessage (fst run) = "Failed to insert chart"
  /\ tables (snd run) = mkTables [] [].
Proof.
  intros good filePath run.
  split; [exact store_consistent|]. split; [reflexivity|]. split; [reflexivity|].
  destruct (processFile_chart_refused (Examples.oneFile good)
              (fun _ => false) Examples.acceptsJson Examples.store filePath good
              store_consistent eq_refl eq_refl eq_refl) as (H1 & _ & H3).
  fold run in H1, H3.
  split; [rewrite H1; reflexivity|]. rewrite H3. reflexivity.
Defined.

Lemma findS57Files_sound_witness :
  ChartIngest.findS57Files MoreExamples.chartsDir "/nowhere" true
  = Filesystem.returned []
  /\ ChartIngest.findS57Files MoreExamples.chartsDir "/locked/charts" true
     = Filesystem.filesystem_error
  /\ ChartIngest.findS57Files MoreExamples.chartsDir "/locked" false
     = Filesystem.filesystem_error
  /\ ChartIngest.findS57Files MoreExamples.chartsDir "/links" false
     = Filesystem.filesystem_error
  /\ (forall files,
         ChartIngest.findS57Files MoreExamples.chartsDir "/charts" true
         = Filesystem.returned files ->
         Forall (fun p => Std.path_extension p = ".000") files
         /\ StronglySorted le files).
Proof.
  destruct (findS57Files_sound MoreExamples.chartsDir "/nowhere" true) as (_ & H1 & _).
  destruct (findS57Files_sound MoreExamples.chartsDir "/locked/charts" true)
    as (_ & _ & [_ H2]).
  destruct (findS57Files_sound MoreExamples.chartsDir "/locked" false)
    as (_ & _ & [_ H3]).
  destruct (findS57Files_sound MoreExamples.chartsDir "/links" false)
    as (_ & _ & [_ H4]).
  destruct (findS57Files_sound MoreExamples.chartsDir "/charts" true) as (H5 & _).
  split; [apply H1; left; reflexivity|].
  split; [apply H2; left; reflexivity|].
  split; [apply H3; right; split; [reflexivity|left; reflexivity]|].
  split; [|exact H5].
  apply H4. right. split; [reflexivity|]. right. eexists. split; [reflexivity|].
  right. left. reflexivity.
Defined.

Lemma findS57Files_directory_witness :
  exists entries files,
    Filesystem.status MoreExamples.chartsDir "/charts"
    = Filesystem.returned Filesystem.directory
    /\ Filesystem.directory_iterator MoreExamples.chartsDir "/charts"
       = Filesystem.returned entries
    /\ Forall (fun entry => ~ unreadable entry) entries
    /\ ChartIngest.findS57Files MoreExamples.chartsDir "/charts" false
       = Filesystem.returned files
    /\ In "/charts/US5NY1CM.000" files
    /\ ~ In "/charts/OLD.000" files.
Proof.
  eexists.
  assert (Hread : Forall (fun entry => ~ unreadable entry)
                    [Filesystem.mkEntry "/charts/US5NY1CM.000" (Filesystem.returned true);
                     Filesystem.mkEntry "/charts/README.txt" (Filesystem.returned true);
                     Filesystem.mkEntry "/charts/OLD.000" (Filesystem.returned false);
                     Filesystem.mkEntry "/charts/US5MA1SK.000"
                       (Filesystem.returned true)])
    by (repeat constructor; discriminate).
  destruct (findS57Files_directory MoreExamples.chartsDir "/charts" false _
              eq_refl eq_refl Hread) as (files & E & _ & _ & H).
  exists files. split; [reflexivity|]. split; [reflexivity|]. split; [exact Hread|].
  split; [exact E|]. split.
  - apply H. exists (Filesystem.mkEntry "/charts/US5NY1CM.000" (Filesystem.returned true)).
    split; [left; reflexivity|]. repeat split.
  - intros Hin. apply H in Hin. destruct Hin as (e & He & Hp & Hr & _).
    cbn in He. destruct He as [<-|[<-|[<-|[<-|[]]]]]; discriminate.
Defined.

Lemma findS57Files_listing_order_witness :
  ChartIngest.findS57Files MoreExamples.chartsDir "/charts" true
  = ChartIngest.findS57Files MoreExamples.chartsDirOtherOrder "/charts" true
  /\ ChartIngest.findS57Files MoreExamples.chartsDir "/locked" true
     = ChartIngest.findS57Files MoreExamples.chartsDirOtherOrder "/locked" true.
Proof.
  split.
  - apply (findS57Files_listing_order MoreExamples.chartsDir
             MoreExamples.chartsDirOtherOrder "/charts" true eq_refl).
    + cbn. apply Permutation_rev.
    + cbn. apply Permutation_rev.
  - apply (findS57Files_listing_order MoreExamples.chartsDir
             MoreExamples.chartsDirOtherOrder "/locked" true eq_refl).
    + exact I.
    + exact I.
Defined.

Lemma processFiles_statistics_witness :
  let files := ["/charts/US5MA1SK.000"; "/charts/missing.000"] in
  let ingest :=
    ChartIngest.setProgressCallback _ (ChartIngest.create _)
      (Some MoreExamples.keepProgress) in
  let out :=
    ChartIngest.processFiles
      (Examples.oneFile (Examples.chartOf [Examples.depthArea]))
      Examples.acceptsGeoJson Examples.acceptsJson _
      ingest Examples.emptyStore [] files in
  Z.of_nat (List.length files) <= INT_MAX
  /\ ChartIngest.getStatistics _ (snd (fst (fst out)))
     = ChartIngest.mkStatistics 2 1 1 2.
Proof.
  intros files ingest out.
  assert (Hle : Z.of_nat (List.length files) <= INT_MAX) by (vm_compute; discriminate).
  split; [exact Hle|].
  destruct (processFiles_statistics
              (Examples.oneFile (Examples.chartOf [Examples.depthArea]))
              Examples.acceptsGeoJson Examples.acceptsJson _
              ingest Examples.emptyStore [] files Hle)
    as (H1 & H2 & H3 & _ & H5 & _).
  fold out in H1, H2, H3, H5.
  destruct (ChartIngest.getStatistics _ (snd (fst (fst out)))) as [a b c d].
  cbn [ChartIngest.totalFiles ChartIngest.successCount ChartIngest.failCount
       ChartIngest.totalFeatures] in H1, H2, H3, H5.
  rewrite H1, H2, H3, H5. vm_compute. reflexivity.
Defined.

Lemma processFiles_progress_witness :
  let files := ["/charts/US5MA1SK.000"; "/charts/missing.000"] in
  let ingest :=
    ChartIngest.setProgressCallback _ (ChartIngest.create _)
      (Some MoreExamples.keepProgress) in
  Z.of_nat (List.length files) <= INT_MAX
  /\ snd (ChartIngest.processFiles
            (Examples.oneFile (Examples.chartOf [Examples.depthArea]))
            Examples.acceptsGeoJson Examples.acceptsJson _
            ingest Examples.emptyStore [] files)
     = [(1, 2, "US5MA1SK.000"); (2, 2, "missing.000")].
Proof.
  intros files ingest.
  assert (Hle : Z.of_nat (List.length files) <= INT_MAX) by (vm_compute; discriminate).
  split; [exact Hle|].
  rewrite (processFiles_progress
             (Examples.oneFile (Examples.chartOf [Examples.depthArea]))
             Examples.acceptsGeoJson Examples.acceptsJson _
             ingest Examples.emptyStore [] files Hle).
  reflexivity.
Defined.

Lemma processDirectory_nothing_witness :
  let run :=
    ChartIngest.processDirectory
      (Examples.oneFile (Examples.chartOf [Examples.depthArea]))
      Examples.acceptsGeoJson Examples.acceptsJson _
      MoreExamples.chartsDir
      (ChartIngest.create (list (Z * Z * string))) Examples.store [] in
  run "/locked/charts" true = Filesystem.filesystem_error
  /\ exists out,
       run "/nowhere" true = Filesystem.returned out
       /\ snd (fst out) = Examples.store
       /\ fst (fst (fst out)) = [].
Proof.
  intros run.
  destruct (processDirectory_nothing
              (Examples.oneFile (Examples.chartOf [Examples.depthArea]))
              Examples.acceptsGeoJson Examples.acceptsJson _
              MoreExamples.chartsDir
              (ChartIngest.create (list (Z * Z * string)))
              Examples.store [] "/locked/charts" true) as (_ & H1 & _).
  destruct (processDirectory_nothing
              (Examples.oneFile (Examples.chartOf [Examples.depthArea]))
              Examples.acceptsGeoJson Examples.acceptsJson _
              MoreExamples.chartsDir
              (ChartIngest.create (list (Z * Z * string)))
              Examples.store [] "/nowhere" true) as (_ & _ & H2).
  split; [exact (H1 eq_refl)|].
  destruct (H2 (or_introl eq_refl)) as (out & E & Hr & Hdb & _).
  exists out. split; [exact E|]. split; [exact Hdb|exact Hr].
Defined.

End MoreWitnesses.
